(** * Smart Document Assistant: offset-preserving extraction, chunking,
      merging and citation reconstruction

    A shallow embedding of the core of the backend
    ([app/services/document_processor.py], [pdf_processor.py],
    [chunker.py], [rag_service.py]) together with the properties of its
    specification.

    Conventions.
    - A Python [str] is a [string]; a character stands for a code point
      below 256.  [len] is the number of characters.
    - A Python [int] is a [Z].
    - Code that may raise returns a [result].
    - Third-party parsers (pdfplumber, python-docx, python-pptx, openpyxl,
      csv, html.parser), the file system, the text splitter, the vector
      index, the language model and the clock are inputs of the model. *)

From Stdlib Require Import ZArith List String Ascii Bool Lia QArith.
From Stdlib Require Import Sorted Permutation DecimalString.
From Stdlib Require DecimalZ.
Import ListNotations.
Open Scope string_scope.
Open Scope Z_scope.

(** ** Python built-ins used by the services *)

Module Py.

Definition len (s : string) : Z := Z.of_nat (String.length s).

(** Truth value of a [str]: the empty string is false. *)
Definition truthy (s : string) : bool :=
  match s with EmptyString => false | String _ _ => true end.

Fixpoint drop (n : nat) (s : string) : string :=
  match n, s with
  | O, _ => s
  | S _, EmptyString => EmptyString
  | S n', String _ s' => drop n' s'
  end.

Fixpoint take (n : nat) (s : string) : string :=
  match n, s with
  | O, _ => EmptyString
  | S _, EmptyString => EmptyString
  | S n', String c s' => String c (take n' s')
  end.

(** A slice bound: negative bounds count from the end, and both kinds
    are clamped to the string. *)
Definition bound (s : string) (i : Z) : nat :=
  Z.to_nat (if i <? 0 then Z.max 0 (len s + i) else i).

(** [s[i:]] *)
Definition slice_from (s : string) (i : Z) : string := drop (bound s i) s.

(** [s[:i]] *)
Definition slice_to (s : string) (i : Z) : string := take (bound s i) s.

(** [s.find(sub)]: offset of the first occurrence, [-1] when absent. *)
Definition find (s sub : string) : Z :=
  match String.index 0 sub s with
  | Some n => Z.of_nat n
  | None => -1
  end.

(** [c.isspace()] on code points below 256. *)
Definition isspace (c : ascii) : bool :=
  let n := nat_of_ascii c in
  ((9 <=? n) && (n <=? 13) || (28 <=? n) && (n <=? 32)
   || (n =? 133) || (n =? 160))%nat.

Fixpoint lstrip (s : string) : string :=
  match s with
  | EmptyString => EmptyString
  | String c s' => if isspace c then lstrip s' else s
  end.

Fixpoint rstrip (s : string) : string :=
  match s with
  | EmptyString => EmptyString
  | String c s' =>
      match rstrip s' with
      | EmptyString => if isspace c then EmptyString else String c EmptyString
      | r => String c r
      end
  end.

(** [s.strip()] *)
Definition strip (s : string) : string := rstrip (lstrip s).

(** [s.lower()] on code points below 256: A-Z and the Latin-1 capitals. *)
Definition lower_char (c : ascii) : ascii :=
  let n := nat_of_ascii c in
  if ((65 <=? n) && (n <=? 90)
      || (192 <=? n) && (n <=? 222) && negb (n =? 215))%nat
  then ascii_of_nat (n + 32) else c.

Fixpoint lower (s : string) : string :=
  match s with
  | EmptyString => EmptyString
  | String c s' => String (lower_char c) (lower s')
  end.

(** [s.split(sep)] for a non-empty separator, scanning left to right.
    [skip] counts the characters of a separator just matched that are
    still to be passed over. *)
Fixpoint split_from (sep : string) (skip : nat) (s : string) : list string :=
  match s with
  | EmptyString => [EmptyString]
  | String c s' =>
      match skip with
      | S k => split_from sep k s'
      | O =>
          if String.prefix sep s
          then EmptyString :: split_from sep (Nat.pred (String.length sep)) s'
          else match split_from sep O s' with
               | p :: ps => String c p :: ps
               | [] => [String c EmptyString]
               end
      end
  end.

Definition split (s sep : string) : list string := split_from sep O s.

(** [sep.join(parts)] *)
Definition join (sep : string) (parts : list string) : string :=
  String.concat sep parts.

(** [str(n)] for an [int]. *)
Definition str_of_int (n : Z) : string := NilZero.string_of_int (Z.to_int n).

(** [s.rfind(c)] for one character: offset of its last occurrence. *)
Fixpoint rfind_char (c : ascii) (s : string) : option nat :=
  match s with
  | EmptyString => None
  | String d s' =>
      match rfind_char c s' with
      | Some i => Some (S i)
      | None => if Ascii.eqb c d then Some O else None
      end
  end.

(** [enumerate(xs, start)] *)
Fixpoint enumerate {A : Type} (start : Z) (xs : list A) : list (Z * A) :=
  match xs with
  | [] => []
  | x :: xs' => (start, x) :: enumerate (start + 1) xs'
  end.

Definition nl : string := String (ascii_of_nat 10) EmptyString.
Definition dquote : string := String (ascii_of_nat 34) EmptyString.

(** Values stored in a metadata [dict]. *)
Inductive value : Type :=
| VStr (s : string)
| VInt (n : Z).

(** A [dict] with string keys, in insertion order. *)
Definition dict : Type := list (string * value).

Fixpoint get (d : dict) (k : string) : option value :=
  match d with
  | [] => None
  | (k', v) :: d' => if String.eqb k k' then Some v else get d' k
  end.

(** Exceptions that reach the caller. *)
Inductive exn : Type :=
| ValueError (msg : string)
| OtherError (msg : string).

Inductive result (A : Type) : Type :=
| Ok (a : A)
| Raise (e : exn).
Arguments Ok {A} a.
Arguments Raise {A} e.

Definition bind {A B : Type} (r : result A) (k : A -> result B) : result B :=
  match r with
  | Ok a => k a
  | Raise e => Raise e
  end.

End Py.

Notation "x <- r ;; k" := (Py.bind r (fun x => k))
  (at level 61, r at next level, right associativity).

(** ** Data model *)

(** [TextSegment]: [document_processor.py] and [pdf_processor.py] declare
    the same dataclass, field for field. *)
Module TextSegment.
Record t : Type := mk {
  text : string;
  page_number : Z;
  char_start : Z;
  char_end : Z;
  bbox : Q * Q * Q * Q
}.
End TextSegment.

(** [DocumentChunk] of [chunker.py]. *)
Module DocumentChunk.
Record t : Type := mk {
  chunk_id : string;
  text : string;
  page_number : Z;
  char_start : Z;
  char_end : Z;
  document_id : string;
  chunk_index : Z;
  metadata : Py.dict
}.

(** Attribute assignments [c.text = v] and [c.char_end = v]. *)
Definition set_text (c : t) (v : string) : t :=
  mk (chunk_id c) v (page_number c) (char_start c) (char_end c)
     (document_id c) (chunk_index c) (metadata c).

Definition set_char_end (c : t) (v : Z) : t :=
  mk (chunk_id c) (text c) (page_number c) (char_start c) v
     (document_id c) (chunk_index c) (metadata c).
End DocumentChunk.

(** The metadata dictionary returned next to the segments.  [file_type]
    is absent from the one built by [PDFProcessor]. *)
Record DocMetadata : Type := {
  page_count : Z;
  total_chars : Z;
  file_size : Z;
  file_type : option string
}.

(** What the parsing libraries hand to the extractors. *)
Record PdfPage : Type := {
  extract_text : option string;   (* page.extract_text(), possibly None *)
  width : Q;
  height : Q
}.

Inductive HtmlEvent : Type :=
| StartTag (tag : string)
| EndTag (tag : string)
| Data (data : string).

(** The outside world as the extractors see it. *)
Record World : Type := {
  stat_size : string -> Py.result Z;                        (* Path(p).stat().st_size *)
  pdfplumber_open : string -> Py.result (list PdfPage);     (* pdf.pages *)
  docx_paragraphs : string -> Py.result (list string);      (* paragraph.text of Document(p).paragraphs *)
  read_text : string -> Py.result string;                   (* open(p, 'r', encoding='utf-8').read() *)
  pptx_slides : string -> Py.result (list (list (option string)));
      (* per slide, per shape: shape.text when the shape has one *)
  xlsx_sheets : string -> Py.result (list (string * list (list (option string))));
      (* per sheet: its name and its rows; a cell is None or its str() *)
  csv_rows : string -> Py.result (list (list string));      (* csv.reader rows *)
  html_feed : string -> list HtmlEvent                      (* HTMLParser.feed callbacks *)
}.

Definition zero_bbox : Q * Q * Q * Q := (0%Q, 0%Q, 0%Q, 0%Q).
Definition blank_line : string := Py.nl ++ Py.nl.

(** ** [document_processor.py] *)

Module DocumentProcessor.

Definition SUPPORTED_EXTENSIONS : list (string * string) :=
  [ (".pdf", "PDF Document");
    (".docx", "Word Document");
    (".doc", "Word Document (Legacy)");
    (".txt", "Text File");
    (".md", "Markdown File");
    (".pptx", "PowerPoint Presentation");
    (".xlsx", "Excel Spreadsheet");
    (".csv", "CSV File");
    (".html", "HTML Document");
    (".htm", "HTML Document");
    (".rtf", "Rich Text Format");
    (".odt", "OpenDocument Text") ].

Definition get_supported_extensions : list string :=
  map fst SUPPORTED_EXTENSIONS.

(** [x in xs] for strings. *)
Definition str_in (x : string) (xs : list string) : bool :=
  existsb (String.eqb x) xs.

(** [Path(p).parts] without the root, on a POSIX system: the path is cut
    at every [/], and empty components and single dots are dropped, so a
    trailing separator does not count. *)
Definition path_parts (p : string) : list string :=
  filter (fun part => negb (String.eqb part EmptyString || String.eqb part "."))
    (Py.split p "/").

(** [Path(p).name]: the final component, empty when there is none. *)
Definition path_name (p : string) : string :=
  List.last (path_parts p) EmptyString.

(** [Path(p).suffix]: from the last dot of the name on, unless that dot
    starts or ends the name. *)
Definition suffix (p : string) : string :=
  let name := path_name p in
  match Py.rfind_char "." name with
  | Some i =>
      if ((0 <? i) && (i <? String.length name - 1))%nat
      then Py.drop i name else EmptyString
  | None => EmptyString
  end.

Definition is_supported (file_path : string) : bool :=
  let ext := Py.lower (suffix file_path) in
  str_in ext get_supported_extensions.

(** One paragraph of a PDF page. *)
Definition pdf_para_step (page_num document_char_offset : Z) (box : Q * Q * Q * Q)
    (st : list TextSegment.t * Z) (para : string) : list TextSegment.t * Z :=
  let '(segments, page_char_offset) := st in
  let segments :=
    if Py.truthy (Py.strip para)
    then (segments ++
          [TextSegment.mk (Py.strip para) page_num
             (document_char_offset + page_char_offset)
             (document_char_offset + page_char_offset + Py.len para)
             box])%list
    else segments in
  (segments, page_char_offset + (Py.len para + 2)).

(** One page of a PDF.  The state is [segments], [metadata["total_chars"]]
    and [document_char_offset]. *)
Definition pdf_page_step (st : list TextSegment.t * Z * Z) (numbered : Z * PdfPage)
    : list TextSegment.t * Z * Z :=
  let '(segments, total, document_char_offset) := st in
  let '(page_num, page) := numbered in
  match extract_text page with
  | None => st
  | Some page_text =>
      if negb (Py.truthy page_text) then st
      else
        let paragraphs := Py.split page_text blank_line in
        let '(segments, _) :=
          fold_left
            (pdf_para_step page_num document_char_offset
               (0%Q, 0%Q, width page, height page))
            paragraphs (segments, 0) in
        (segments, total + Py.len page_text, document_char_offset + Py.len page_text)
  end.

Definition _extract_from_pdf (w : World) (pdf_path : string)
    : Py.result (list TextSegment.t * DocMetadata) :=
  size <- stat_size w pdf_path ;;
  pages <- pdfplumber_open w pdf_path ;;
  let '(segments, total, _) :=
    fold_left pdf_page_step (Py.enumerate 1 pages) ([], 0, 0) in
  Py.Ok (segments,
         {| page_count := Z.of_nat (List.length pages); total_chars := total;
            file_size := size; file_type := Some "pdf" |}).

(** A unit of running text whose offset advances by [advance + 2] when the
    unit is kept: the loop body shared by DOCX, PPTX and HTML, where
    [advance] is the length of the stored text. *)
Definition flow_step (page_num : Z) (st : list TextSegment.t * Z) (text : string)
    : list TextSegment.t * Z :=
  let '(segments, document_char_offset) := st in
  if Py.truthy text
  then ((segments ++
           [TextSegment.mk text page_num document_char_offset
              (document_char_offset + Py.len text) zero_bbox])%list,
        document_char_offset + (Py.len text + 2))
  else st.

Definition _extract_from_docx (w : World) (docx_path : string)
    : Py.result (list TextSegment.t * DocMetadata) :=
  size <- stat_size w docx_path ;;
  paragraphs <- docx_paragraphs w docx_path ;;
  let '(segments, document_char_offset) :=
    fold_left (fun st paragraph => flow_step 1 st (Py.strip paragraph))
      paragraphs ([], 0) in
  Py.Ok (segments,
         {| page_count := 1; total_chars := document_char_offset;
            file_size := size; file_type := Some "docx" |}).

(** One paragraph of a text or Markdown file: the stored text is trimmed,
    the offset advances by the untrimmed length. *)
Definition txt_para_step (st : list TextSegment.t * Z) (para : string)
    : list TextSegment.t * Z :=
  let '(segments, document_char_offset) := st in
  let text := Py.strip para in
  if Py.truthy text
  then ((segments ++
           [TextSegment.mk text 1 document_char_offset
              (document_char_offset + Py.len text) zero_bbox])%list,
        document_char_offset + (Py.len para + 2))
  else st.

Definition _extract_from_txt (w : World) (txt_path : string)
    : Py.result (list TextSegment.t * DocMetadata) :=
  size <- stat_size w txt_path ;;
  content <- read_text w txt_path ;;
  let paragraphs := Py.split content blank_line in
  let '(segments, _) := fold_left txt_para_step paragraphs ([], 0) in
  Py.Ok (segments,
         {| page_count := 1; total_chars := Py.len content;
            file_size := size; file_type := Some "txt" |}).

(** The HTML rendering of the Markdown source is computed and then
    discarded by the source; the segments come from the raw text. *)
Definition _extract_from_markdown (w : World) (md_path : string)
    : Py.result (list TextSegment.t * DocMetadata) :=
  size <- stat_size w md_path ;;
  md_content <- read_text w md_path ;;
  let paragraphs := Py.split md_content blank_line in
  let '(segments, _) := fold_left txt_para_step paragraphs ([], 0) in
  Py.Ok (segments,
         {| page_count := 1; total_chars := Py.len md_content;
            file_size := size; file_type := Some "markdown" |}).

(** Texts of the shapes of a slide that have one. *)
Fixpoint shape_texts (shapes : list (option string)) : list string :=
  match shapes with
  | [] => []
  | Some t :: rest => t :: shape_texts rest
  | None :: rest => shape_texts rest
  end.

Definition _extract_from_pptx (w : World) (pptx_path : string)
    : Py.result (list TextSegment.t * DocMetadata) :=
  size <- stat_size w pptx_path ;;
  slides <- pptx_slides w pptx_path ;;
  let '(segments, document_char_offset) :=
    fold_left
      (fun st (numbered : Z * list (option string)) =>
         let '(slide_num, shapes) := numbered in
         let combined_text := Py.strip (Py.join Py.nl (shape_texts shapes)) in
         flow_step slide_num st combined_text)
      (Py.enumerate 1 slides) ([], 0) in
  Py.Ok (segments,
         {| page_count := Z.of_nat (List.length slides);
            total_chars := document_char_offset;
            file_size := size; file_type := Some "pptx" |}).

Definition cell_text (cell : option string) : string :=
  match cell with Some s => s | None => EmptyString end.

(** Rows whose joined text is not blank. *)
Fixpoint kept_rows (row_texts : list string) : list string :=
  match row_texts with
  | [] => []
  | row_text :: rest =>
      if Py.truthy (Py.strip row_text) then row_text :: kept_rows rest
      else kept_rows rest
  end.

Definition xlsx_sheet_step (st : list TextSegment.t * Z)
    (numbered : Z * (string * list (list (option string))))
    : list TextSegment.t * Z :=
  let '(segments, document_char_offset) := st in
  let '(sheet_num, (sheet_name, sheet_rows)) := numbered in
  let rows :=
    kept_rows (map (fun row => Py.join " | " (map cell_text row)) sheet_rows) in
  match rows with
  | [] => st
  | _ :: _ =>
      let combined_text := Py.join Py.nl rows in
      ((segments ++
          [TextSegment.mk ("Sheet: " ++ sheet_name ++ Py.nl ++ combined_text)
             sheet_num document_char_offset
             (document_char_offset + Py.len combined_text) zero_bbox])%list,
       document_char_offset + (Py.len combined_text + 2))
  end.

Definition _extract_from_excel (w : World) (excel_path : string)
    : Py.result (list TextSegment.t * DocMetadata) :=
  let ext := Py.lower (suffix excel_path) in
  size <- stat_size w excel_path ;;
  if String.eqb ext ".xlsx" then
    sheets <- xlsx_sheets w excel_path ;;
    let '(segments, document_char_offset) :=
      fold_left xlsx_sheet_step (Py.enumerate 1 sheets) ([], 0) in
    Py.Ok (segments,
           {| page_count := Z.of_nat (List.length sheets);
              total_chars := document_char_offset;
              file_size := size; file_type := Some (Py.slice_from ext 1) |})
  else if String.eqb ext ".csv" then
    all_rows <- csv_rows w excel_path ;;
    let rows := kept_rows (map (Py.join " | ") all_rows) in
    let segments :=
      match rows with
      | [] => []
      | _ :: _ =>
          let combined_text := Py.join Py.nl rows in
          [TextSegment.mk combined_text 1 0 (Py.len combined_text) zero_bbox]
      end in
    Py.Ok (segments,
           {| page_count := 1; total_chars := 0;
              file_size := size; file_type := Some (Py.slice_from ext 1) |})
  else
    Py.Ok ([],
           {| page_count := 0; total_chars := 0;
              file_size := size; file_type := Some (Py.slice_from ext 1) |}).

(** [HTMLTextExtractor]: the state is [text_parts] and
    [in_script_or_style]. *)
Definition html_event_step (st : list string * bool) (ev : HtmlEvent)
    : list string * bool :=
  let '(text_parts, in_script_or_style) := st in
  match ev with
  | StartTag tag =>
      if str_in tag ["script"; "style"] then (text_parts, true) else st
  | EndTag tag =>
      if str_in tag ["script"; "style"] then (text_parts, false) else st
  | Data data =>
      if negb in_script_or_style then
        let text := Py.strip data in
        if Py.truthy text then ((text_parts ++ [text])%list, in_script_or_style)
        else st
      else st
  end.

Definition _extract_from_html (w : World) (html_path : string)
    : Py.result (list TextSegment.t * DocMetadata) :=
  size <- stat_size w html_path ;;
  html_content <- read_text w html_path ;;
  let '(text_parts, _) :=
    fold_left html_event_step (html_feed w html_content) ([], false) in
  let '(segments, document_char_offset) :=
    fold_left (flow_step 1) text_parts ([], 0) in
  Py.Ok (segments,
         {| page_count := 1; total_chars := document_char_offset;
            file_size := size; file_type := Some "html" |}).

Definition extract_text_with_positions (w : World) (file_path : string)
    : Py.result (list TextSegment.t * DocMetadata) :=
  let ext := Py.lower (suffix file_path) in
  if String.eqb ext ".pdf" then _extract_from_pdf w file_path
  else if str_in ext [".docx"; ".doc"] then _extract_from_docx w file_path
  else if String.eqb ext ".txt" then _extract_from_txt w file_path
  else if String.eqb ext ".md" then _extract_from_markdown w file_path
  else if String.eqb ext ".pptx" then _extract_from_pptx w file_path
  else if str_in ext [".xlsx"; ".csv"] then _extract_from_excel w file_path
  else if str_in ext [".html"; ".htm"] then _extract_from_html w file_path
  else Py.Raise (Py.ValueError ("Unsupported file format: " ++ ext)).

(** [validate_document]: an unsupported format and any error raised by
    the extraction give [False]. *)
Definition validate_document (w : World) (file_path : string) : bool :=
  if negb (is_supported file_path) then false
  else
    match extract_text_with_positions w file_path with
    | Py.Ok (segments, _) => 0 <? Z.of_nat (List.length segments)
    | Py.Raise _ => false
    end.

End DocumentProcessor.

(** ** [pdf_processor.py] *)

Module PDFProcessor.

(** The page and paragraph loops are, line for line, those of
    [DocumentProcessor._extract_from_pdf]; the metadata has no
    [file_type]. *)
Definition extract_text_with_positions (w : World) (pdf_path : string)
    : Py.result (list TextSegment.t * DocMetadata) :=
  size <- stat_size w pdf_path ;;
  pages <- pdfplumber_open w pdf_path ;;
  let '(segments, total, _) :=
    fold_left DocumentProcessor.pdf_page_step (Py.enumerate 1 pages) ([], 0, 0) in
  Py.Ok (segments,
         {| page_count := Z.of_nat (List.length pages); total_chars := total;
            file_size := size; file_type := None |}).

(** [validate_pdf]: the file opens and has a page. *)
Definition validate_pdf (w : World) (pdf_path : string) : bool :=
  match pdfplumber_open w pdf_path with
  | Py.Ok pages => 0 <? Z.of_nat (List.length pages)
  | Py.Raise _ => false
  end.

(** [get_page_count]: 0 when the file does not open. *)
Definition get_page_count (w : World) (pdf_path : string) : Z :=
  match pdfplumber_open w pdf_path with
  | Py.Ok pages => Z.of_nat (List.length pages)
  | Py.Raise _ => 0
  end.

End PDFProcessor.

(** ** [chunker.py] *)

Module IntelligentChunker.

(** The chunker object: its configuration and the [split_text] method of
    the [RecursiveCharacterTextSplitter] built from it. *)
Record t : Type := mk {
  chunk_size : Z;
  chunk_overlap : Z;
  split_text : string -> list string
}.

(** [settings.chunk_size] and [settings.chunk_overlap] of [config.py]. *)
Definition settings_chunk_size : Z := 1000.
Definition settings_chunk_overlap : Z := 200.

Definition separators : list string :=
  [Py.nl ++ Py.nl; Py.nl; ". "; " "; ""].

(** [x or default] for an optional [int]: [None] and [0] are false. *)
Definition or_default (x : option Z) (default : Z) : Z :=
  match x with
  | Some v => if v =? 0 then default else v
  | None => default
  end.

(** [__init__].  [splitter_of size overlap seps] stands for the library
    constructor followed by [.split_text]. *)
Definition init (splitter_of : Z -> Z -> list string -> string -> list string)
    (chunk_size chunk_overlap : option Z) : t :=
  let size := or_default chunk_size settings_chunk_size in
  let overlap := or_default chunk_overlap settings_chunk_overlap in
  mk size overlap (splitter_of size overlap separators).

Definition make_chunk_id (document_id : string) (chunk_index : Z) : string :=
  document_id ++ "_chunk_" ++ Py.str_of_int chunk_index.

(** Body of [for chunk_text in segment_chunks].  The state is [chunks],
    [chunk_index] and [segment_char_offset]. *)
Definition chunk_step (document_id filename : string) (segment : TextSegment.t)
    (st : list DocumentChunk.t * Z * Z) (chunk_text : string)
    : list DocumentChunk.t * Z * Z :=
  let '(chunks, chunk_index, segment_char_offset) := st in
  let absolute_char_start := TextSegment.char_start segment + segment_char_offset in
  let absolute_char_end := absolute_char_start + Py.len chunk_text in
  let chunk :=
    DocumentChunk.mk
      (make_chunk_id document_id chunk_index)
      chunk_text
      (TextSegment.page_number segment)
      absolute_char_start
      absolute_char_end
      document_id
      chunk_index
      [ ("filename", Py.VStr filename);
        ("document_id", Py.VStr document_id);
        ("page", Py.VInt (TextSegment.page_number segment));
        ("char_start", Py.VInt absolute_char_start);
        ("char_end", Py.VInt absolute_char_end);
        ("chunk_id", Py.VStr (make_chunk_id document_id chunk_index)) ] in
  let chunks := (chunks ++ [chunk])%list in
  let chunk_index := chunk_index + 1 in
  let chunk_position :=
    Py.find (Py.slice_from (TextSegment.text segment) segment_char_offset)
      chunk_text in
  if negb (chunk_position =? -1)
  then (chunks, chunk_index, segment_char_offset + (chunk_position + Py.len chunk_text))
  else (chunks, chunk_index, segment_char_offset + Py.len chunk_text).

(** Body of [for segment in segments].  The state is [chunks] and
    [chunk_index]. *)
Definition segment_step (self : t) (document_id filename : string)
    (st : list DocumentChunk.t * Z) (segment : TextSegment.t)
    : list DocumentChunk.t * Z :=
  let '(chunks, chunk_index) := st in
  let segment_chunks := split_text self (TextSegment.text segment) in
  let '(chunks, chunk_index, _) :=
    fold_left (chunk_step document_id filename segment) segment_chunks
      (chunks, chunk_index, 0) in
  (chunks, chunk_index).

Definition chunk_segments (self : t) (segments : list TextSegment.t)
    (document_id filename : string) : list DocumentChunk.t :=
  fst (fold_left (segment_step self document_id filename) segments ([], 0)).

(** *** The merger

    The merger assigns to attributes of chunk objects that its caller
    still holds, so chunks are references into a store of objects. *)

Definition ref : Type := nat.
Definition heap : Type := ref -> DocumentChunk.t.

Definition update (h : heap) (r : ref) (v : DocumentChunk.t) : heap :=
  fun r' => if Nat.eqb r' r then v else h r'.

(** The sort key [(c.page_number, c.char_start)] and the order of
    tuples. *)
Definition sort_key (h : heap) (r : ref) : Z * Z :=
  (DocumentChunk.page_number (h r), DocumentChunk.char_start (h r)).

Definition key_leb (a b : Z * Z) : bool :=
  (fst a <? fst b) || ((fst a =? fst b) && (snd a <=? snd b)).

(** [sorted(chunks, key=...)]: a stable sort; the keys are read before
    any chunk is modified. *)
Fixpoint insert_by_key (h : heap) (r : ref) (sorted_refs : list ref) : list ref :=
  match sorted_refs with
  | [] => [r]
  | r' :: rest =>
      if key_leb (sort_key h r) (sort_key h r') then r :: sorted_refs
      else r' :: insert_by_key h r rest
  end.

Fixpoint sorted (h : heap) (chunks : list ref) : list ref :=
  match chunks with
  | [] => []
  | r :: rest => insert_by_key h r (sorted h rest)
  end.

(** The test that decides a merge of [current_chunk] into [last_merged]:
    the two nested [if]s of the source, whose failure in either leads to
    [merged.append(current_chunk)].  [overlap_size > len(text) * 0.5]
    compares an [int] with a [float]; halving is exact, so the test is
    [2 * overlap_size > len(text)]. *)
Definition overlap_size (current_chunk last_merged : DocumentChunk.t) : Z :=
  let overlap_start := DocumentChunk.char_start current_chunk in
  let overlap_end :=
    Z.min (DocumentChunk.char_end current_chunk) (DocumentChunk.char_end last_merged) in
  overlap_end - overlap_start.

Definition merges (current_chunk last_merged : DocumentChunk.t) : bool :=
  (DocumentChunk.page_number current_chunk =? DocumentChunk.page_number last_merged)
  && (DocumentChunk.char_start current_chunk <? DocumentChunk.char_end last_merged)
  && (Py.len (DocumentChunk.text current_chunk)
        <? 2 * overlap_size current_chunk last_merged).

(** [for current_chunk in sorted_chunks[1:]], with [merged] never
    empty. *)
Fixpoint merge_loop (h : heap) (merged : list ref) (rest : list ref)
    : heap * list ref :=
  match rest with
  | [] => (h, merged)
  | current_chunk :: rest' =>
      let last_merged := List.last merged O in
      if merges (h current_chunk) (h last_merged) then
        let size := overlap_size (h current_chunk) (h last_merged) in
        let h1 :=
          update h last_merged
            (DocumentChunk.set_text (h last_merged)
               (DocumentChunk.text (h last_merged)
                ++ Py.slice_from (DocumentChunk.text (h current_chunk)) size)) in
        let h2 :=
          update h1 last_merged
            (DocumentChunk.set_char_end (h1 last_merged)
               (DocumentChunk.char_end (h1 current_chunk))) in
        merge_loop h2 merged rest'
      else merge_loop h (merged ++ [current_chunk])%list rest'
  end.

Definition merge_overlapping_chunks (h : heap) (chunks : list ref)
    : heap * list ref :=
  match chunks with
  | [] => (h, [])
  | _ :: _ =>
      match sorted h chunks with
      | [] => (h, [])
      | first :: rest => merge_loop h [first] rest
      end
  end.

End IntelligentChunker.

(** ** [schemas.py] and [rag_service.py] *)

Module Citation.
Record t (float : Type) : Type := mk {
  chunk_id : string;
  text : string;
  page_number : Z;
  char_start : Z;
  char_end : Z;
  relevance_score : float
}.
Arguments mk {float}.
Arguments chunk_id {float}.
Arguments text {float}.
Arguments page_number {float}.
Arguments char_start {float}.
Arguments char_end {float}.
Arguments relevance_score {float}.
End Citation.

Module QueryResponse.
Record t (float : Type) : Type := mk {
  answer : string;
  citations : list (Citation.t float);
  question : string;
  processing_time_ms : float
}.
Arguments mk {float}.
Arguments answer {float}.
Arguments citations {float}.
Arguments question {float}.
Arguments processing_time_ms {float}.
End QueryResponse.

Module RAGService.

Section Service.

(** Python floats, opaque: scores are only passed along. *)
Variable float : Type.

(** [self.vector_store.similarity_search(query, k, filter_dict)] *)
Variable similarity_search :
  string -> Z -> option Py.dict -> Py.result (list (DocumentChunk.t * float)).

(** [self.llm.invoke(messages).content] *)
Variable llm_invoke : string -> Py.result string.

(** [time.time()] on its first and on its second call, and
    [(later - earlier) * 1000]. *)
Variable time_start time_end : float.
Variable elapsed_ms : float -> float -> float.

Definition PROMPT_TEMPLATE (context question : string) : string :=
  "You are a helpful AI assistant that provides clear, concise answers from documents."
  ++ Py.nl ++ Py.nl ++
  "INSTRUCTIONS:" ++ Py.nl ++
  "1. Read the context and find information that directly answers the question" ++ Py.nl ++
  "2. Give a SHORT, SIMPLE answer using ONLY the information from the context" ++ Py.nl ++
  "3. Answer in 2-3 sentences maximum - be direct and to the point" ++ Py.nl ++
  "4. Use simple, clear English that anyone can understand" ++ Py.nl ++
  "5. Do NOT include citation markers like [1], [2], [Source 1] - citations are shown separately" ++ Py.nl ++
  "6. If the answer is not in the context, say " ++ Py.dquote ++
  "I cannot find this information in the document" ++ Py.dquote ++ Py.nl ++ Py.nl ++
  "Context from documents:" ++ Py.nl ++
  context ++ Py.nl ++ Py.nl ++
  "Question: " ++ question ++ Py.nl ++ Py.nl ++
  "Provide a short, direct answer in simple English (2-3 sentences maximum). NO citation markers.".

(** Body of [for chunk, score in relevant_chunks] that builds the
    citations.  [float(score)] of a float is the score itself. *)
Definition citation_step (citations : list (Citation.t float))
    (pair : DocumentChunk.t * float) : list (Citation.t float) :=
  let '(chunk, score) := pair in
  let citation :=
    Citation.mk
      (DocumentChunk.chunk_id chunk)
      (if 200 <? Py.len (DocumentChunk.text chunk)
       then Py.slice_to (DocumentChunk.text chunk) 200 ++ "..."
       else DocumentChunk.text chunk)
      (DocumentChunk.page_number chunk)
      (DocumentChunk.char_start chunk)
      (DocumentChunk.char_end chunk)
      score in
  (citations ++ [citation])%list.

Definition no_information_answer : string :=
  "I couldn't find any relevant information in the documents to answer this question.".

(** [{"document_id": document_id} if document_id else None] *)
Definition filter_dict_of (document_id : option string) : option Py.dict :=
  match document_id with
  | Some d => if Py.truthy d then Some [("document_id", Py.VStr d)] else None
  | None => None
  end.

Definition query (question : string) (document_id : option string)
    (max_citations : Z) : Py.result (QueryResponse.t float) :=
  let start_time := time_start in
  let filter_dict := filter_dict_of document_id in
  relevant_chunks <- similarity_search question max_citations filter_dict ;;
  match relevant_chunks with
  | [] =>
      Py.Ok (QueryResponse.mk no_information_answer [] question
               (elapsed_ms start_time time_end))
  | _ :: _ =>
      let context_parts :=
        fold_left
          (fun parts (pair : DocumentChunk.t * float) =>
             (parts ++ [(DocumentChunk.text (fst pair) ++ Py.nl)%string])%list)
          relevant_chunks [] in
      let context := Py.join (Py.nl ++ "---" ++ Py.nl) context_parts in
      answer <- llm_invoke (PROMPT_TEMPLATE context question) ;;
      let citations := fold_left citation_step relevant_chunks [] in
      let processing_time := elapsed_ms start_time time_end in
      Py.Ok (QueryResponse.mk answer citations question processing_time)
  end.

(** [self.vector_store.add_chunks(chunks)] *)
Variable add_chunks : list DocumentChunk.t -> Py.result (list string).

(** The library splitter, as in [IntelligentChunker.init]. *)
Variable splitter_of : Z -> Z -> list string -> string -> list string.

(** [index_document]: extract, chunk with the default configuration,
    store; the statistics are returned as a [dict]. *)
Definition index_document (w : World) (document_id filename file_path : string)
    : Py.result Py.dict :=
  extracted <- DocumentProcessor.extract_text_with_positions w file_path ;;
  let '(segments, metadata) := extracted in
  let chunker := IntelligentChunker.init splitter_of None None in
  let chunks :=
    IntelligentChunker.chunk_segments chunker segments document_id filename in
  chunk_ids <- add_chunks chunks ;;
  Py.Ok [ ("document_id", Py.VStr document_id);
          ("filename", Py.VStr filename);
          ("page_count", Py.VInt (page_count metadata));
          ("chunk_count", Py.VInt (Z.of_nat (List.length chunks)));
          ("segments_count", Py.VInt (Z.of_nat (List.length segments)));
          ("total_chars", Py.VInt (total_chars metadata)) ].

End Service.

End RAGService.

(** ** [vector_store.py] *)

Module VectorStore.

(** A stored document as the index wrapper returns it. *)
Record Document : Type := {
  page_content : string;
  metadata : Py.dict
}.

(** A [DocumentChunk] rebuilt from stored metadata.  The dataclass does
    not check its fields, so the rebuilt chunk holds whatever values the
    metadata holds. *)
Record RebuiltChunk : Type := {
  chunk_id : Py.value;
  text : string;
  page_number : Py.value;
  char_start : Py.value;
  char_end : Py.value;
  document_id : Py.value;
  chunk_index : Z;
  chunk_metadata : Py.dict
}.

(** [d[k]]: a missing key raises [KeyError]. *)
Definition getitem (d : Py.dict) (k : string) : Py.result Py.value :=
  match Py.get d k with
  | Some v => Py.Ok v
  | None => Py.Raise (Py.OtherError ("KeyError: " ++ k))
  end.

(** The constructor call of [similarity_search]; its arguments are
    evaluated in the order they are written. *)
Definition rebuild (doc : Document) : Py.result RebuiltChunk :=
  let metadata := metadata doc in
  chunk_id <- getitem metadata "chunk_id" ;;
  page <- getitem metadata "page" ;;
  char_start <- getitem metadata "char_start" ;;
  char_end <- getitem metadata "char_end" ;;
  document_id <- getitem metadata "document_id" ;;
  Py.Ok {| chunk_id := chunk_id; text := page_content doc; page_number := page;
           char_start := char_start; char_end := char_end;
           document_id := document_id; chunk_index := 0;
           chunk_metadata := metadata |}.

Section Store.

Variable float : Type.

(** [self.vectorstore.similarity_search_with_relevance_scores] *)
Variable similarity_search_with_relevance_scores :
  string -> Z -> option Py.dict -> Py.result (list (Document * float)).

(** [self.vectorstore.add_texts(texts, metadatas, ids)] *)
Variable add_texts :
  list string -> list Py.dict -> list string -> Py.result (list string).

(** [for doc, score in results] *)
Fixpoint rebuild_loop (results : list (Document * float))
    (chunk_results : list (RebuiltChunk * float))
    : Py.result (list (RebuiltChunk * float)) :=
  match results with
  | [] => Py.Ok chunk_results
  | (doc, score) :: rest =>
      chunk <- rebuild doc ;;
      rebuild_loop rest (chunk_results ++ [(chunk, score)])%list
  end.

Definition similarity_search (query : string) (k : Z) (filter_dict : option Py.dict)
    : Py.result (list (RebuiltChunk * float)) :=
  results <- similarity_search_with_relevance_scores query k filter_dict ;;
  rebuild_loop results [].

Definition add_chunks (chunks : list DocumentChunk.t) : Py.result (list string) :=
  match chunks with
  | [] => Py.Ok []
  | _ :: _ =>
      let texts := map DocumentChunk.text chunks in
      let metadatas := map DocumentChunk.metadata chunks in
      let ids := map DocumentChunk.chunk_id chunks in
      _ <- add_texts texts metadatas ids ;;
      Py.Ok ids
  end.

End Store.

End VectorStore.

(** ** [config.py] *)

Module Settings.

Record t : Type := mk {
  cors_origins : string;
  allowed_file_types : string;
  max_file_size_mb : Z
}.

(** The values used when the environment sets none. *)
Definition defaults : t :=
  mk "http://localhost:3000,http://localhost:3001" "pdf" 50.

Definition cors_origins_list (self : t) : list string :=
  map Py.strip (Py.split (cors_origins self) ",").

Definition allowed_file_types_list (self : t) : list string :=
  map Py.strip (Py.split (allowed_file_types self) ",").

Definition max_file_size_bytes (self : t) : Z :=
  max_file_size_mb self * 1024 * 1024.

End Settings.

(** ** Predicates of the specification *)

(** A string holds a character that is not white space. *)
Fixpoint nonblank (s : string) : bool :=
  match s with
  | EmptyString => false
  | String c s' => negb (Py.isspace c) || nonblank s'
  end.

(** Sum of [len(p) + 2] over the pieces [ps]. *)
Fixpoint total_advance (ps : list string) : Z :=
  match ps with
  | [] => 0
  | p :: ps' => (Py.len p + 2) + total_advance ps'
  end.

(** A segment whose text is non-empty after trimming and whose range is
    well formed. *)
Definition segment_ok (s : TextSegment.t) : Prop :=
  Py.strip (TextSegment.text s) <> EmptyString
  /\ TextSegment.char_start s <= TextSegment.char_end s.

Definition start_le (a b : TextSegment.t) : Prop :=
  TextSegment.char_start a <= TextSegment.char_start b.

(** Segments in non-decreasing [char_start] order. *)
Definition nondecreasing_starts (segs : list TextSegment.t) : Prop :=
  StronglySorted start_le segs.

Definition segments_ok (segs : list TextSegment.t) : Prop :=
  Forall segment_ok segs /\ nondecreasing_starts segs.

(** Every extraction routine of the two processors. *)
Definition extractor_routines
    : list (World -> string -> Py.result (list TextSegment.t * DocMetadata)) :=
  [ DocumentProcessor._extract_from_pdf;
    DocumentProcessor._extract_from_docx;
    DocumentProcessor._extract_from_txt;
    DocumentProcessor._extract_from_markdown;
    DocumentProcessor._extract_from_pptx;
    DocumentProcessor._extract_from_excel;
    DocumentProcessor._extract_from_html;
    DocumentProcessor.extract_text_with_positions;
    PDFProcessor.extract_text_with_positions ].

(** Invariant of the extraction loops: the segments built so far are well
    formed and ordered, and none starts after the running offset. *)
Definition extraction_inv (segs : list TextSegment.t) (offset : Z) : Prop :=
  segments_ok segs
  /\ Forall (fun s => TextSegment.char_start s <= offset) segs.

(** Invariant of the paragraph loop of a PDF page that begins at
    [document_char_offset]: a segment of an earlier page starts at or
    before the page, a segment of this page at least one separator before
    the page-local offset. *)
Definition page_inv (document_char_offset : Z) (st : list TextSegment.t * Z) : Prop :=
  segments_ok (fst st)
  /\ 0 <= snd st
  /\ Forall
       (fun s =>
          TextSegment.char_start s <= document_char_offset
          \/ TextSegment.char_start s + 2 <= document_char_offset + snd st)
       (fst st).

(** A small world for concrete runs: every path holds the same two-paragraph
    text, a three-page PDF whose second page has no text, and so on. *)
Definition sample_world : World := {|
  stat_size := fun _ => Py.Ok 25;
  pdfplumber_open := fun _ =>
    Py.Ok [ {| extract_text := Some ("A" ++ blank_line ++ "  " ++ blank_line ++ "BB ");
               width := 1%Q; height := 2%Q |};
            {| extract_text := None; width := 1%Q; height := 2%Q |};
            {| extract_text := Some "C"; width := 1%Q; height := 2%Q |} ];
  docx_paragraphs := fun _ => Py.Ok [" a "; ""; "bcd"];
  read_text := fun _ => Py.Ok ("Alpha beta." ++ blank_line ++ "Gamma delta.");
  pptx_slides := fun _ => Py.Ok [[Some "x"; None; Some "y"]; []; [Some "z"]];
  xlsx_sheets := fun _ =>
    Py.Ok [("S1", [[Some "1"; None]; [None; None]; [Some "a"; Some "b"]])];
  csv_rows := fun _ => Py.Ok [["a"; "b"]; []; ["c"]];
  html_feed := fun _ =>
    [StartTag "p"; Data " hi "; EndTag "p"; StartTag "script"; Data "x=1";
     EndTag "script"; Data "yo"]
|}.

(** The chunk that one pass of the inner loop of [chunk_segments] appends,
    and the cursor it leaves. *)
Definition emitted_chunk (document_id filename : string) (segment : TextSegment.t)
    (chunk_index cursor : Z) (chunk_text : string) : DocumentChunk.t :=
  let absolute_char_start := TextSegment.char_start segment + cursor in
  let absolute_char_end := absolute_char_start + Py.len chunk_text in
  DocumentChunk.mk
    (IntelligentChunker.make_chunk_id document_id chunk_index)
    chunk_text (TextSegment.page_number segment)
    absolute_char_start absolute_char_end document_id chunk_index
    [ ("filename", Py.VStr filename);
      ("document_id", Py.VStr document_id);
      ("page", Py.VInt (TextSegment.page_number segment));
      ("char_start", Py.VInt absolute_char_start);
      ("char_end", Py.VInt absolute_char_end);
      ("chunk_id", Py.VStr (IntelligentChunker.make_chunk_id document_id chunk_index)) ].

Definition next_cursor (segment : TextSegment.t) (cursor : Z) (chunk_text : string) : Z :=
  let offset_of_match :=
    Py.find (Py.slice_from (TextSegment.text segment) cursor) chunk_text in
  if offset_of_match =? -1 then cursor + Py.len chunk_text
  else cursor + (offset_of_match + Py.len chunk_text).

(** Chunk indices run from 0 without gaps, and every id is built from the
    document id and the index. *)
Definition running_indices (document_id : string) (chunks : list DocumentChunk.t) : Prop :=
  map DocumentChunk.chunk_index chunks
    = map Z.of_nat (seq 0 (List.length chunks))
  /\ Forall
       (fun c =>
          DocumentChunk.chunk_id c
          = document_id ++ "_chunk_" ++ Py.str_of_int (DocumentChunk.chunk_index c))
       chunks.

(** The span of a chunk is as long as its text. *)
Definition exact_span (c : DocumentChunk.t) : Prop :=
  DocumentChunk.char_end c - DocumentChunk.char_start c
  = Py.len (DocumentChunk.text c).

(** The metadata mapping repeats the fields of the chunk. *)
Definition metadata_mirrors_fields (c : DocumentChunk.t) : Prop :=
  Py.get (DocumentChunk.metadata c) "page"
    = Some (Py.VInt (DocumentChunk.page_number c))
  /\ Py.get (DocumentChunk.metadata c) "char_start"
    = Some (Py.VInt (DocumentChunk.char_start c))
  /\ Py.get (DocumentChunk.metadata c) "char_end"
    = Some (Py.VInt (DocumentChunk.char_end c))
  /\ Py.get (DocumentChunk.metadata c) "chunk_id"
    = Some (Py.VStr (DocumentChunk.chunk_id c))
  /\ Py.get (DocumentChunk.metadata c) "document_id"
    = Some (Py.VStr (DocumentChunk.document_id c)).

(** A splitter for concrete runs: the words of the text.  On
    ["aaaa bbbb"] these are the pieces that the library splitter returns
    for [chunk_size = 6] and [chunk_overlap = 1]: the text is cut at its
    space, the two pieces do not fit one chunk together, and each piece is
    trimmed. *)
Definition split_words (text : string) : list string :=
  filter Py.truthy (Py.split text " ").

Definition sample_chunker : IntelligentChunker.t :=
  IntelligentChunker.init (fun _ _ _ => split_words) (Some 6) (Some 1).

Definition two_words : TextSegment.t :=
  TextSegment.mk "aaaa bbbb" 1 0 9 zero_bbox.

(** What a citation owes to the retrieved pair it is built from. *)
Definition citation_matches {float : Type} (pair : DocumentChunk.t * float)
    (c : Citation.t float) : Prop :=
  let chunk := fst pair in
  (200 < Py.len (DocumentChunk.text chunk) ->
     Citation.text c = Py.slice_to (DocumentChunk.text chunk) 200 ++ "...")
  /\ (Py.len (DocumentChunk.text chunk) <= 200 ->
     Citation.text c = DocumentChunk.text chunk)
  /\ Citation.page_number c = DocumentChunk.page_number chunk
  /\ Citation.char_start c = DocumentChunk.char_start chunk
  /\ Citation.char_end c = DocumentChunk.char_end chunk
  /\ Citation.relevance_score c = snd pair.

(** Oracles for concrete runs of [query]: scores are rationals, the clock
    stands still, the model answers ["ok"]. *)
Definition sample_hit : DocumentChunk.t :=
  DocumentChunk.mk "doc_chunk_0" "Alpha beta." 1 0 11 "doc" 0
    [ ("filename", Py.VStr "notes.txt"); ("document_id", Py.VStr "doc");
      ("page", Py.VInt 1); ("char_start", Py.VInt 0); ("char_end", Py.VInt 11);
      ("chunk_id", Py.VStr "doc_chunk_0") ].

Definition sample_query (hits : list (DocumentChunk.t * Q)) (question : string)
    : Py.result (QueryResponse.t Q) :=
  RAGService.query Q (fun _ _ _ => Py.Ok hits) (fun _ => Py.Ok "ok")
    0%Q 0%Q (fun _ _ => 0%Q) question None 3.

(** Two states of a chunk object that differ at most in [text] and
    [char_end]. *)
Definition same_but_text_and_end (a b : DocumentChunk.t) : Prop :=
  DocumentChunk.chunk_id a = DocumentChunk.chunk_id b
  /\ DocumentChunk.page_number a = DocumentChunk.page_number b
  /\ DocumentChunk.char_start a = DocumentChunk.char_start b
  /\ DocumentChunk.document_id a = DocumentChunk.document_id b
  /\ DocumentChunk.chunk_index a = DocumentChunk.chunk_index b
  /\ DocumentChunk.metadata a = DocumentChunk.metadata b.

(** The two assignments of a merge, as one store update. *)
Definition absorb (h : IntelligentChunker.heap)
    (last_merged current_chunk : IntelligentChunker.ref) : IntelligentChunker.heap :=
  let size := IntelligentChunker.overlap_size (h current_chunk) (h last_merged) in
  let h1 :=
    IntelligentChunker.update h last_merged
      (DocumentChunk.set_text (h last_merged)
         (DocumentChunk.text (h last_merged)
          ++ Py.slice_from (DocumentChunk.text (h current_chunk)) size)) in
  IntelligentChunker.update h1 last_merged
    (DocumentChunk.set_char_end (h1 last_merged)
       (DocumentChunk.char_end (h1 current_chunk))).

(** The span of a chunk is at least as long as its text. *)
Definition span_covers_text (c : DocumentChunk.t) : Prop :=
  Py.len (DocumentChunk.text c)
  <= DocumentChunk.char_end c - DocumentChunk.char_start c.

(** Order of two chunk objects by their sort keys. *)
Definition key_le (h : IntelligentChunker.heap) (a b : IntelligentChunker.ref) : Prop :=
  IntelligentChunker.key_leb (IntelligentChunker.sort_key h a)
    (IntelligentChunker.sort_key h b) = true.

(** A retained chunk [later] that no growth of its text can bring to merge
    into the retained chunk [earlier] before it: whenever the two overlap
    on one page, either the whole reach of [earlier] past the start of
    [later] is at most half the text of [later], or [later] spans nothing. *)
Definition stays_apart (earlier later : DocumentChunk.t) : Prop :=
  DocumentChunk.page_number later = DocumentChunk.page_number earlier ->
  DocumentChunk.char_start later < DocumentChunk.char_end earlier ->
  2 * (DocumentChunk.char_end earlier - DocumentChunk.char_start later)
    <= Py.len (DocumentChunk.text later)
  \/ DocumentChunk.char_end later <= DocumentChunk.char_start later.

(** A store whose objects are the members of a list, in order. *)
Definition blank_chunk : DocumentChunk.t :=
  DocumentChunk.mk "" "" 0 0 0 "" 0 [].

Definition heap_of (objects : list DocumentChunk.t) : IntelligentChunker.heap :=
  fun r => nth r objects blank_chunk.

Definition plain_chunk (text : string) (page char_start char_end : Z)
    : DocumentChunk.t :=
  DocumentChunk.mk "" text page char_start char_end "doc" 0 [].

(** Two chunks of one page that overlap by five characters, their spans
    as long as their texts. *)
Definition overlapping_pair : IntelligentChunker.heap :=
  heap_of [ plain_chunk "hello world" 1 0 11; plain_chunk "world!" 1 6 12 ].

(** Three chunks of one page; the spans of the last two are not the
    lengths of their texts. *)
Definition loose_spans : IntelligentChunker.heap :=
  heap_of [ plain_chunk "a" 1 0 100; plain_chunk "xxxx" 1 10 12;
            plain_chunk "y" 1 11 200 ].

(** Three chunks of one page whose spans are as long as their texts; the
    lists of the examples name the first of them twice. *)
Definition listed_twice : IntelligentChunker.heap :=
  heap_of [ plain_chunk "xxxxxx" 2 3 9; plain_chunk "xxx" 2 3 6;
            plain_chunk "xxx" 2 4 7 ].

(** ** Further predicates *)

Definition ends_before (a b : TextSegment.t) : Prop :=
  TextSegment.char_end a <= TextSegment.char_start b.

(** Segments that do not overlap and lie between 0 and [total]. *)
Definition layout (segs : list TextSegment.t) (total : Z) : Prop :=
  StronglySorted ends_before segs
  /\ Forall
       (fun s =>
          0 <= TextSegment.char_start s
          /\ TextSegment.char_start s <= TextSegment.char_end s
          /\ TextSegment.char_end s <= total)
       segs.

(** Invariant of the loops over running text: every segment ends at least
    one separator before the running offset. *)
Definition flow_layout (segs : list TextSegment.t) (offset : Z) : Prop :=
  0 <= offset
  /\ StronglySorted ends_before segs
  /\ Forall
       (fun s =>
          0 <= TextSegment.char_start s
          /\ TextSegment.char_start s <= TextSegment.char_end s
          /\ TextSegment.char_end s + 2 <= offset)
       segs.

(** Invariant of the paragraph loop of a PDF page that begins at
    [document_char_offset]. *)
Definition page_layout (document_char_offset : Z) (st : list TextSegment.t * Z) : Prop :=
  0 <= snd st
  /\ StronglySorted ends_before (fst st)
  /\ Forall
       (fun s =>
          0 <= TextSegment.char_start s
          /\ TextSegment.char_start s <= TextSegment.char_end s
          /\ (TextSegment.char_end s <= document_char_offset
              \/ TextSegment.char_end s + 2 <= document_char_offset + snd st))
       (fst st).

(** The routines whose segments carry the length of their stored text as
    their span. *)
Definition exact_span_routines
    : list (World -> string -> Py.result (list TextSegment.t * DocMetadata)) :=
  [ DocumentProcessor._extract_from_docx;
    DocumentProcessor._extract_from_txt;
    DocumentProcessor._extract_from_markdown;
    DocumentProcessor._extract_from_pptx;
    DocumentProcessor._extract_from_html ].

Definition pdf_routines
    : list (World -> string -> Py.result (list TextSegment.t * DocMetadata)) :=
  [ DocumentProcessor._extract_from_pdf;
    PDFProcessor.extract_text_with_positions ].

Definition page_le (a b : TextSegment.t) : Prop :=
  TextSegment.page_number a <= TextSegment.page_number b.

(** Page numbers between [lo] and [hi] that never decrease. *)
Definition pages_within (lo hi : Z) (segs : list TextSegment.t) : Prop :=
  StronglySorted page_le segs
  /\ Forall (fun s => lo <= TextSegment.page_number s <= hi) segs.

(** The span of a segment is the length of its stored text. *)
Definition segment_exact (s : TextSegment.t) : Prop :=
  TextSegment.char_end s - TextSegment.char_start s = Py.len (TextSegment.text s).

(** [new_total] is [old] followed by segments of page [n]. *)
Definition appends_page (n : Z) (old new_total : list TextSegment.t) : Prop :=
  exists added,
    new_total = (old ++ added)%list
    /\ Forall (fun s => TextSegment.page_number s = n) added.

Definition chunk_ends_before (a b : DocumentChunk.t) : Prop :=
  DocumentChunk.char_end a <= DocumentChunk.char_start b.

(** [block] holds the chunks of [segment]: one chunk per piece of the
    splitter, in order, on the page of the segment, none starting before
    the segment, each starting at or after the end of the one before. *)
Definition block_of (self : IntelligentChunker.t) (document_id : string)
    (segment : TextSegment.t) (block : list DocumentChunk.t) : Prop :=
  map DocumentChunk.text block
    = IntelligentChunker.split_text self (TextSegment.text segment)
  /\ Forall
       (fun c =>
          DocumentChunk.page_number c = TextSegment.page_number segment
          /\ DocumentChunk.document_id c = document_id
          /\ TextSegment.char_start segment <= DocumentChunk.char_start c)
       block
  /\ StronglySorted chunk_ends_before block.

(** The recorded span of chunk [c] lies inside [segment] and holds the
    text of the chunk: [segment.text[start:][:len(c.text)] == c.text] for
    the offset [start] of the chunk in the segment. *)
Definition chunk_found_at_span (segment : TextSegment.t) (c : DocumentChunk.t) : Prop :=
  DocumentChunk.page_number c = TextSegment.page_number segment
  /\ TextSegment.char_start segment <= DocumentChunk.char_start c
  /\ DocumentChunk.char_end c
     <= TextSegment.char_start segment + Py.len (TextSegment.text segment)
  /\ Py.slice_to
       (Py.slice_from (TextSegment.text segment)
          (DocumentChunk.char_start c - TextSegment.char_start segment))
       (Py.len (DocumentChunk.text c))
     = DocumentChunk.text c.

(** A splitter that cuts a text after its fourth character. *)
Definition split_at_four (text : string) : list string :=
  [Py.slice_to text 4; Py.slice_from text 4].

(** Two chunks on different pages, far apart on one page. *)
Definition separate_chunks : IntelligentChunker.heap :=
  heap_of [ plain_chunk "second" 1 20 26; plain_chunk "first" 1 0 5;
            plain_chunk "other page" 2 0 10 ].

(** The citation built from one retrieved pair. *)
Definition citation_of {float : Type} (pair : DocumentChunk.t * float)
    : Citation.t float :=
  Citation.mk
    (DocumentChunk.chunk_id (fst pair))
    (if 200 <? Py.len (DocumentChunk.text (fst pair))
     then Py.slice_to (DocumentChunk.text (fst pair)) 200 ++ "..."
     else DocumentChunk.text (fst pair))
    (DocumentChunk.page_number (fst pair))
    (DocumentChunk.char_start (fst pair))
    (DocumentChunk.char_end (fst pair))
    (snd pair).

(** [inner] occurs in [outer]. *)
Definition contains (outer inner : string) : Prop :=
  exists before after, outer = before ++ inner ++ after.

(** The extensions that [extract_text_with_positions] has a branch for. *)
Definition dispatched_extensions : list string :=
  [".pdf"; ".docx"; ".doc"; ".txt"; ".md"; ".pptx"; ".xlsx"; ".csv"; ".html"; ".htm"].

(** The metadata keys that [similarity_search] reads. *)
Definition rebuild_keys : list string :=
  ["chunk_id"; "page"; "char_start"; "char_end"; "document_id"].

Definition has_key (d : Py.dict) (k : string) : bool :=
  match Py.get d k with Some _ => true | None => false end.

Definition has_rebuild_keys (doc : VectorStore.Document) : bool :=
  forallb (has_key (VectorStore.metadata doc)) rebuild_keys.

(** A rebuilt chunk and the stored document it was rebuilt from. *)
Definition rebuilt_from {float : Type} (result : VectorStore.Document * float)
    (rebuilt : VectorStore.RebuiltChunk * float) : Prop :=
  let doc := fst result in
  let chunk := fst rebuilt in
  snd rebuilt = snd result
  /\ VectorStore.text chunk = VectorStore.page_content doc
  /\ VectorStore.chunk_index chunk = 0
  /\ VectorStore.chunk_metadata chunk = VectorStore.metadata doc
  /\ Py.get (VectorStore.metadata doc) "chunk_id" = Some (VectorStore.chunk_id chunk)
  /\ Py.get (VectorStore.metadata doc) "page" = Some (VectorStore.page_number chunk)
  /\ Py.get (VectorStore.metadata doc) "char_start" = Some (VectorStore.char_start chunk)
  /\ Py.get (VectorStore.metadata doc) "char_end" = Some (VectorStore.char_end chunk)
  /\ Py.get (VectorStore.metadata doc) "document_id"
     = Some (VectorStore.document_id chunk).

(** What the index stores for a chunk, and the chunk as it comes back. *)
Definition stored_document (c : DocumentChunk.t) : VectorStore.Document :=
  {| VectorStore.page_content := DocumentChunk.text c;
     VectorStore.metadata := DocumentChunk.metadata c |}.

Definition as_rebuilt (c : DocumentChunk.t) : VectorStore.RebuiltChunk :=
  {| VectorStore.chunk_id := Py.VStr (DocumentChunk.chunk_id c);
     VectorStore.text := DocumentChunk.text c;
     VectorStore.page_number := Py.VInt (DocumentChunk.page_number c);
     VectorStore.char_start := Py.VInt (DocumentChunk.char_start c);
     VectorStore.char_end := Py.VInt (DocumentChunk.char_end c);
     VectorStore.document_id := Py.VStr (DocumentChunk.document_id c);
     VectorStore.chunk_index := 0;
     VectorStore.chunk_metadata := DocumentChunk.metadata c |}.

(** Number of occurrences of a character. *)
Fixpoint count_char (c : ascii) (s : string) : nat :=
  match s with
  | EmptyString => O
  | String d s' => if Ascii.eqb c d then S (count_char c s') else count_char c s'
  end.

(** The rows of a sheet that the extractor keeps: those with two cells or
    more, and those whose single cell is not blank. *)
Definition row_is_kept (cells : list string) : bool :=
  match cells with
  | [] => false
  | [cell] => nonblank cell
  | _ :: _ :: _ => true
  end.

(** A segment cut from a paragraph of a page of [pages]: the text is the
    trimmed paragraph, the page number that of the page, and the span the
    length of the paragraph as [split] returned it. *)
Definition pdf_segment_of (pages : list PdfPage) (s : TextSegment.t) : Prop :=
  exists page_num page page_text para,
    In (page_num, page) (Py.enumerate 1 pages)
    /\ extract_text page = Some page_text
    /\ In para (Py.split page_text blank_line)
    /\ TextSegment.text s = Py.strip para
    /\ TextSegment.page_number s = page_num
    /\ TextSegment.char_end s - TextSegment.char_start s = Py.len para.

(** ** Facts about the built-ins *)

Example split_two_paragraphs :
  Py.split ("Alpha beta." ++ Py.nl ++ Py.nl ++ "Gamma delta.") (Py.nl ++ Py.nl)
  = ["Alpha beta."; "Gamma delta."].
Proof. reflexivity. Qed.

Example split_edges :
  Py.split (Py.nl ++ Py.nl ++ "a" ++ Py.nl ++ Py.nl ++ Py.nl ++ "b" ++ Py.nl ++ Py.nl) (Py.nl ++ Py.nl)
  = [""; "a"; Py.nl ++ "b"; ""].
Proof. reflexivity. Qed.

Example str_examples :
  Py.str_of_int 0 = "0" /\ Py.str_of_int 12 = "12" /\ Py.str_of_int (-5) = "-5"
  /\ Py.strip ("  a b " ++ Py.nl) = "a b" /\ Py.find "aaaa bbbb" "bbbb" = 5
  /\ Py.find "abc" "x" = -1 /\ Py.find "abc" "" = 0
  /\ Py.slice_from "hello" 2 = "llo" /\ Py.slice_from "hello" (-2) = "lo"
  /\ Py.slice_to "hello" 2 = "he" /\ Py.slice_to "hello" 9 = "hello"
  /\ Py.lower "NoTes.RTF" = "notes.rtf"
  /\ Py.find "" "" = 0 /\ Py.find "ab" "abc" = -1 /\ Py.find "xabab" "ab" = 1
  /\ Py.slice_from "hello" 9 = "" /\ Py.slice_from "hello" (-9) = "hello".
Proof. repeat split; reflexivity. Qed.

Lemma len_nonneg (s : string) : 0 <= Py.len s.
Proof. unfold Py.len. lia. Qed.

Lemma len_append (a b : string) : Py.len (a ++ b) = Py.len a + Py.len b.
Proof.
  unfold Py.len. induction a as [|c a IH]; simpl String.length.
  - lia.
  - lia.
Qed.

Lemma truthy_true_iff (s : string) : Py.truthy s = true <-> s <> EmptyString.
Proof. destruct s; simpl; split; intro H; congruence. Qed.

Lemma truthy_lstrip (s : string) : Py.truthy (Py.lstrip s) = nonblank s.
Proof.
  induction s as [|c s IH]; simpl; [reflexivity|].
  destruct (Py.isspace c); simpl; [exact IH | reflexivity].
Qed.

Lemma nonblank_lstrip (s : string) : nonblank (Py.lstrip s) = nonblank s.
Proof.
  induction s as [|c s IH]; simpl; [reflexivity|].
  destruct (Py.isspace c) eqn:E; simpl; [exact IH | now rewrite E].
Qed.

Lemma truthy_rstrip (s : string) : Py.truthy (Py.rstrip s) = nonblank s.
Proof.
  induction s as [|c s IH]; simpl; [reflexivity|].
  destruct (Py.rstrip s) eqn:R; simpl in IH; rewrite <- IH.
  - destruct (Py.isspace c); reflexivity.
  - simpl. now rewrite orb_true_r.
Qed.

Lemma nonblank_rstrip (s : string) : nonblank (Py.rstrip s) = nonblank s.
Proof.
  induction s as [|c s IH]; simpl; [reflexivity|].
  destruct (Py.rstrip s) eqn:R.
  - simpl in IH. rewrite <- IH.
    destruct (Py.isspace c) eqn:E; simpl; now rewrite ?E.
  - simpl. simpl in IH. now rewrite <- IH.
Qed.

Lemma truthy_strip (s : string) : Py.truthy (Py.strip s) = nonblank s.
Proof. unfold Py.strip. now rewrite truthy_rstrip, nonblank_lstrip. Qed.

Lemma nonblank_strip (s : string) : nonblank (Py.strip s) = nonblank s.
Proof. unfold Py.strip. now rewrite nonblank_rstrip, nonblank_lstrip. Qed.

(** Trimming twice keeps a non-empty result non-empty. *)
Lemma strip_strip_nonempty (s : string) :
  Py.truthy (Py.strip s) = true -> Py.strip (Py.strip s) <> EmptyString.
Proof.
  intro H. apply truthy_true_iff.
  now rewrite truthy_strip, nonblank_strip, <- truthy_strip.
Qed.

Lemma nonblank_append (a b : string) :
  nonblank (a ++ b) = nonblank a || nonblank b.
Proof.
  induction a as [|c a IH]; simpl; [reflexivity|].
  now rewrite IH, orb_assoc.
Qed.

Lemma nonblank_nonempty (s : string) :
  nonblank s = true -> Py.strip s <> EmptyString.
Proof. intro H. apply truthy_true_iff. now rewrite truthy_strip. Qed.

Lemma prefix_length (a b : string) :
  String.prefix a b = true -> (String.length a <= String.length b)%nat.
Proof.
  revert b. induction a as [|c a IH]; intros b H; simpl; [lia|].
  destruct b as [|d b]; simpl in H; [discriminate|].
  destruct (ascii_dec c d); [|discriminate].
  apply IH in H. simpl. lia.
Qed.

(** The pieces of a split and the separators between them add up to the
    string: with a two-character separator, [len(p) + 2] summed over the
    pieces is [len(s) + 2]. *)
Lemma total_advance_split_from (sep : string) (s : string) (k : nat) :
  String.length sep = 2%nat ->
  (k <= String.length s)%nat ->
  total_advance (Py.split_from sep k s) = Py.len s - Z.of_nat k + 2.
Proof.
  intros Hsep. revert k.
  induction s as [|c s IH]; intros k Hk.
  - simpl in Hk. assert (k = O) by lia. subst k. reflexivity.
  - cbn [Py.split_from]. destruct k as [|k].
    + destruct (String.prefix sep (String c s)) eqn:P.
      * apply prefix_length in P. simpl in P.
        cbn [total_advance]. rewrite IH by (rewrite Hsep; simpl; lia).
        rewrite Hsep. unfold Py.len. simpl String.length. lia.
      * specialize (IH O ltac:(lia)).
        destruct (Py.split_from sep 0 s) as [|p ps].
        -- simpl in IH. pose proof (len_nonneg s). lia.
        -- cbn [total_advance] in *. unfold Py.len in *.
           simpl String.length. lia.
    + rewrite IH by (simpl in Hk; lia).
      unfold Py.len. simpl String.length. lia.
Qed.

Lemma total_advance_split (s : string) :
  total_advance (Py.split s blank_line) = Py.len s + 2.
Proof.
  unfold Py.split. rewrite total_advance_split_from; [lia | reflexivity | lia].
Qed.

(** ** Loop invariants *)

Lemma fold_left_invariant {A B : Type} (f : A -> B -> A) (P : A -> Prop)
    (xs : list B) (a : A) :
  P a -> (forall a' x, P a' -> P (f a' x)) -> P (fold_left f xs a).
Proof.
  intros Ha Hstep. revert a Ha.
  induction xs as [|x xs IH]; intros a Ha; simpl; auto.
Qed.

Lemma StronglySorted_snoc {A : Type} (R : A -> A -> Prop) (l : list A) (x : A) :
  StronglySorted R l -> Forall (fun y => R y x) l -> StronglySorted R (l ++ [x]).
Proof.
  induction 1 as [|a l Hl IH Ha]; intro Hx; simpl.
  - constructor; constructor.
  - inversion Hx; subst. constructor.
    + now apply IH.
    + apply Forall_app. split; [assumption | now constructor].
Qed.

(** ** The extractors keep segments well formed and ordered *)

Lemma extraction_inv_nil (offset : Z) : extraction_inv [] offset.
Proof. repeat split; constructor. Qed.

Lemma extraction_inv_snoc (segs : list TextSegment.t) (seg : TextSegment.t)
    (offset offset' : Z) :
  extraction_inv segs offset ->
  segment_ok seg ->
  offset <= TextSegment.char_start seg <= offset' ->
  extraction_inv (segs ++ [seg]) offset'.
Proof.
  intros [[Hok Hsorted] Hbound] Hseg Hoff. repeat split.
  - apply Forall_app. split; [assumption | now constructor].
  - apply StronglySorted_snoc; [assumption|].
    eapply Forall_impl; [|exact Hbound]. unfold start_le. simpl. intros; lia.
  - apply Forall_app. split.
    + eapply Forall_impl; [|exact Hbound]. simpl. intros; lia.
    + constructor; [lia | constructor].
Qed.

Lemma flow_step_inv (page_num : Z) (st : list TextSegment.t * Z) (text : string) :
  (Py.truthy text = true -> nonblank text = true) ->
  extraction_inv (fst st) (snd st) ->
  extraction_inv (fst (DocumentProcessor.flow_step page_num st text))
                 (snd (DocumentProcessor.flow_step page_num st text)).
Proof.
  intros Htext Hinv. destruct st as [segs off].
  unfold DocumentProcessor.flow_step.
  destruct (Py.truthy text) eqn:T; [|exact Hinv]. simpl in *.
  eapply extraction_inv_snoc; [exact Hinv | |].
  - split; simpl; [apply nonblank_nonempty; auto | pose proof (len_nonneg text); lia].
  - simpl. pose proof (len_nonneg text). lia.
Qed.

Lemma truthy_strip_nonblank (s : string) :
  Py.truthy (Py.strip s) = true -> nonblank (Py.strip s) = true.
Proof. rewrite nonblank_strip, truthy_strip. auto. Qed.

Lemma txt_para_step_inv (st : list TextSegment.t * Z) (para : string) :
  extraction_inv (fst st) (snd st) ->
  extraction_inv (fst (DocumentProcessor.txt_para_step st para))
                 (snd (DocumentProcessor.txt_para_step st para)).
Proof.
  intros Hinv. destruct st as [segs off].
  unfold DocumentProcessor.txt_para_step.
  destruct (Py.truthy (Py.strip para)) eqn:T; [|exact Hinv]. simpl in *.
  eapply extraction_inv_snoc; [exact Hinv | |].
  - split; simpl.
    + now apply strip_strip_nonempty.
    + pose proof (len_nonneg (Py.strip para)). lia.
  - simpl. pose proof (len_nonneg para). lia.
Qed.

Lemma xlsx_sheet_step_inv (st : list TextSegment.t * Z)
    (numbered : Z * (string * list (list (option string)))) :
  extraction_inv (fst st) (snd st) ->
  extraction_inv (fst (DocumentProcessor.xlsx_sheet_step st numbered))
                 (snd (DocumentProcessor.xlsx_sheet_step st numbered)).
Proof.
  intros Hinv. destruct st as [segs off].
  destruct numbered as [sheet_num [sheet_name sheet_rows]].
  unfold DocumentProcessor.xlsx_sheet_step.
  destruct (DocumentProcessor.kept_rows _) as [|row rows]; [exact Hinv|].
  set (combined := Py.join Py.nl (row :: rows)). simpl fst in *. simpl snd in *.
  pose proof (len_nonneg combined).
  eapply extraction_inv_snoc; [exact Hinv | |].
  - split; simpl; [|lia]. apply nonblank_nonempty. reflexivity.
  - simpl. lia.
Qed.

Lemma kept_rows_nonblank (row_texts : list string) :
  Forall (fun r => nonblank r = true) (DocumentProcessor.kept_rows row_texts).
Proof.
  induction row_texts as [|r rest IH]; simpl; [constructor|].
  destruct (Py.truthy (Py.strip r)) eqn:T; [|exact IH].
  constructor; [|exact IH]. now rewrite <- truthy_strip.
Qed.

Lemma join_nonblank (sep row : string) (rows : list string) :
  nonblank row = true -> nonblank (Py.join sep (row :: rows)) = true.
Proof.
  intro H. unfold Py.join. simpl.
  destruct rows; [exact H|]. now rewrite nonblank_append, H.
Qed.

Lemma html_event_step_inv (st : list string * bool) (ev : HtmlEvent) :
  Forall (fun t => nonblank t = true) (fst st) ->
  Forall (fun t => nonblank t = true)
         (fst (DocumentProcessor.html_event_step st ev)).
Proof.
  intro H. destruct st as [parts flag].
  destruct ev as [tag|tag|data]; unfold DocumentProcessor.html_event_step.
  - destruct (DocumentProcessor.str_in tag _); exact H.
  - destruct (DocumentProcessor.str_in tag _); exact H.
  - destruct flag; simpl; [exact H|].
    destruct (Py.truthy (Py.strip data)) eqn:T; simpl; [|exact H].
    apply Forall_app. split; [exact H|].
    constructor; [now apply truthy_strip_nonblank | constructor].
Qed.

Lemma flow_fold_inv (page_num : Z) (texts : list string)
    (st : list TextSegment.t * Z) :
  Forall (fun t => nonblank t = true) texts ->
  extraction_inv (fst st) (snd st) ->
  extraction_inv (fst (fold_left (DocumentProcessor.flow_step page_num) texts st))
                 (snd (fold_left (DocumentProcessor.flow_step page_num) texts st)).
Proof.
  intro H. revert st. induction H as [|t texts Ht _ IH]; intros st Hinv; simpl.
  - exact Hinv.
  - apply IH. apply flow_step_inv; auto.
Qed.

Lemma pdf_para_step_offset (page_num doc : Z) (box : Q * Q * Q * Q)
    (paras : list string) (st : list TextSegment.t * Z) :
  snd (fold_left (DocumentProcessor.pdf_para_step page_num doc box) paras st)
  = snd st + total_advance paras.
Proof.
  revert st. induction paras as [|p paras IH]; intros [segs off]; simpl.
  - lia.
  - rewrite IH. simpl. lia.
Qed.

Lemma pdf_para_step_inv (page_num doc : Z) (box : Q * Q * Q * Q)
    (st : list TextSegment.t * Z) (para : string) :
  page_inv doc st ->
  page_inv doc (DocumentProcessor.pdf_para_step page_num doc box st para).
Proof.
  destruct st as [segs off]. intros [[Hok Hsorted] [Hoff Hbound]].
  simpl in *. pose proof (len_nonneg para) as Hlen.
  unfold DocumentProcessor.pdf_para_step, page_inv.
  destruct (Py.truthy (Py.strip para)) eqn:T; simpl.
  - repeat split.
    + apply Forall_app. split; [assumption|].
      constructor; [|constructor]. split; simpl; [|lia].
      now apply strip_strip_nonempty.
    + apply StronglySorted_snoc; [assumption|].
      eapply Forall_impl; [|exact Hbound]. unfold start_le. simpl. intros; lia.
    + lia.
    + apply Forall_app. split.
      * eapply Forall_impl; [|exact Hbound]. simpl. intros; lia.
      * constructor; [simpl; lia | constructor].
  - repeat split; try assumption; [lia|].
    eapply Forall_impl; [|exact Hbound]. simpl. intros; lia.
Qed.

Lemma pdf_page_step_inv (st : list TextSegment.t * Z * Z) (numbered : Z * PdfPage) :
  extraction_inv (fst (fst st)) (snd st) ->
  extraction_inv (fst (fst (DocumentProcessor.pdf_page_step st numbered)))
                 (snd (DocumentProcessor.pdf_page_step st numbered)).
Proof.
  destruct st as [[segs total] doc]. destruct numbered as [page_num page].
  intro Hinv. unfold DocumentProcessor.pdf_page_step.
  destruct (extract_text page) as [page_text|]; [|exact Hinv].
  destruct (Py.truthy page_text); simpl negb; cbv iota; [|exact Hinv].
  set (step := DocumentProcessor.pdf_para_step page_num doc _).
  set (paras := Py.split page_text blank_line).
  assert (Hpage : page_inv doc (fold_left step paras (segs, 0))).
  { apply fold_left_invariant.
    - destruct Hinv as [Hok Hbound]. unfold page_inv. simpl in *.
      split; [exact Hok | split; [lia|]].
      eapply Forall_impl; [|exact Hbound]. simpl. intros; lia.
    - intros st' x. apply pdf_para_step_inv. }
  pose proof (pdf_para_step_offset page_num doc
                (0%Q, 0%Q, width page, height page) paras (segs, 0)) as Hoff.
  fold step in Hoff. unfold paras in Hoff at 2.
  rewrite total_advance_split in Hoff.
  destruct (fold_left step paras (segs, 0)) as [segs' off']. simpl in *.
  destruct Hpage as [Hok [_ Hbound]]. split; [exact Hok|].
  eapply Forall_impl; [|exact Hbound]. simpl.
  pose proof (len_nonneg page_text). intros; lia.
Qed.

Lemma pdf_pages_inv (pages : list (Z * PdfPage)) :
  segments_ok (fst (fst (fold_left DocumentProcessor.pdf_page_step pages ([], 0, 0)))).
Proof.
  apply (fold_left_invariant DocumentProcessor.pdf_page_step
           (fun st => extraction_inv (fst (fst st)) (snd st))).
  - apply extraction_inv_nil.
  - intros st x. apply pdf_page_step_inv.
Qed.

Ltac invert_ok H :=
  repeat match type of H with
         | Py.bind ?r _ = Py.Ok _ =>
             let E := fresh "E" in
             destruct r eqn:E; simpl in H; [|discriminate H]
         end.

Lemma extract_from_pdf_ok (w : World) (p : string)
    (segs : list TextSegment.t) (md : DocMetadata) :
  DocumentProcessor._extract_from_pdf w p = Py.Ok (segs, md) -> segments_ok segs.
Proof.
  unfold DocumentProcessor._extract_from_pdf. intro H. invert_ok H.
  pose proof (pdf_pages_inv (Py.enumerate 1 a0)) as Hinv.
  destruct (fold_left _ _ _) as [[s t] d]. injection H as <- _. exact Hinv.
Qed.

Lemma pdf_processor_ok (w : World) (p : string)
    (segs : list TextSegment.t) (md : DocMetadata) :
  PDFProcessor.extract_text_with_positions w p = Py.Ok (segs, md) -> segments_ok segs.
Proof.
  unfold PDFProcessor.extract_text_with_positions. intro H. invert_ok H.
  pose proof (pdf_pages_inv (Py.enumerate 1 a0)) as Hinv.
  destruct (fold_left _ _ _) as [[s t] d]. injection H as <- _. exact Hinv.
Qed.

Lemma extract_from_docx_ok (w : World) (p : string)
    (segs : list TextSegment.t) (md : DocMetadata) :
  DocumentProcessor._extract_from_docx w p = Py.Ok (segs, md) -> segments_ok segs.
Proof.
  unfold DocumentProcessor._extract_from_docx. intro H. invert_ok H.
  match type of H with
  | context [fold_left ?f ?l ?i] =>
      assert (Hinv : extraction_inv (fst (fold_left f l i)) (snd (fold_left f l i)))
  end.
  { apply (fold_left_invariant _ (fun st => extraction_inv (fst st) (snd st))).
    - apply extraction_inv_nil.
    - intros st x Hst. apply flow_step_inv; [apply truthy_strip_nonblank | exact Hst]. }
  destruct (fold_left _ _ _) as [s d]. injection H as <- _. apply Hinv.
Qed.

Lemma txt_paragraphs_ok (paras : list string) :
  segments_ok (fst (fold_left DocumentProcessor.txt_para_step paras ([], 0))).
Proof.
  apply (fold_left_invariant _ (fun st => extraction_inv (fst st) (snd st))).
  - apply extraction_inv_nil.
  - intros st x. apply txt_para_step_inv.
Qed.

Lemma extract_from_txt_ok (w : World) (p : string)
    (segs : list TextSegment.t) (md : DocMetadata) :
  DocumentProcessor._extract_from_txt w p = Py.Ok (segs, md) -> segments_ok segs.
Proof.
  unfold DocumentProcessor._extract_from_txt. intro H. invert_ok H.
  pose proof (txt_paragraphs_ok (Py.split a0 blank_line)) as Hinv.
  destruct (fold_left _ _ _) as [s d]. injection H as <- _. exact Hinv.
Qed.

Lemma extract_from_markdown_ok (w : World) (p : string)
    (segs : list TextSegment.t) (md : DocMetadata) :
  DocumentProcessor._extract_from_markdown w p = Py.Ok (segs, md) -> segments_ok segs.
Proof.
  unfold DocumentProcessor._extract_from_markdown. intro H. invert_ok H.
  pose proof (txt_paragraphs_ok (Py.split a0 blank_line)) as Hinv.
  destruct (fold_left _ _ _) as [s d]. injection H as <- _. exact Hinv.
Qed.

Lemma extract_from_pptx_ok (w : World) (p : string)
    (segs : list TextSegment.t) (md : DocMetadata) :
  DocumentProcessor._extract_from_pptx w p = Py.Ok (segs, md) -> segments_ok segs.
Proof.
  unfold DocumentProcessor._extract_from_pptx. intro H. invert_ok H.
  match type of H with
  | context [fold_left ?f ?l ?i] =>
      assert (Hinv : extraction_inv (fst (fold_left f l i)) (snd (fold_left f l i)))
  end.
  { apply (fold_left_invariant _ (fun st => extraction_inv (fst st) (snd st))).
    - apply extraction_inv_nil.
    - intros st [slide_num shapes] Hst.
      apply flow_step_inv; [apply truthy_strip_nonblank | exact Hst]. }
  destruct (fold_left _ _ _) as [s d]. injection H as <- _. apply Hinv.
Qed.

Lemma extract_from_excel_ok (w : World) (p : string)
    (segs : list TextSegment.t) (md : DocMetadata) :
  DocumentProcessor._extract_from_excel w p = Py.Ok (segs, md) -> segments_ok segs.
Proof.
  unfold DocumentProcessor._extract_from_excel. intro H. invert_ok H.
  destruct (String.eqb _ ".xlsx").
  - invert_ok H.
    match type of H with
    | context [fold_left ?f ?l ?i] =>
        assert (Hinv : extraction_inv (fst (fold_left f l i)) (snd (fold_left f l i)))
    end.
    { apply (fold_left_invariant _ (fun st => extraction_inv (fst st) (snd st))).
      - apply extraction_inv_nil.
      - intros st x. apply xlsx_sheet_step_inv. }
    destruct (fold_left _ _ _) as [s d]. injection H as <- _. apply Hinv.
  - destruct (String.eqb _ ".csv").
    + invert_ok H. injection H as <- _.
      pose proof (kept_rows_nonblank (map (Py.join " | ") a0)) as Hrows.
      destruct (DocumentProcessor.kept_rows _) as [|row rows].
      * split; constructor.
      * inversion Hrows as [|? ? Hrow _]; subst.
        split; [|repeat constructor].
        constructor; [|constructor].
        split; cbn [TextSegment.text TextSegment.char_start TextSegment.char_end].
        -- apply nonblank_nonempty. now apply join_nonblank.
        -- apply len_nonneg.
    + injection H as <- _. split; constructor.
Qed.

Lemma extract_from_html_ok (w : World) (p : string)
    (segs : list TextSegment.t) (md : DocMetadata) :
  DocumentProcessor._extract_from_html w p = Py.Ok (segs, md) -> segments_ok segs.
Proof.
  unfold DocumentProcessor._extract_from_html. intro H. invert_ok H.
  match type of H with
  | context [fold_left DocumentProcessor.html_event_step ?l ?i] =>
      assert (Hparts : Forall (fun t => nonblank t = true)
                         (fst (fold_left DocumentProcessor.html_event_step l i)))
  end.
  { apply (fold_left_invariant _ (fun st => Forall (fun t => nonblank t = true) (fst st))).
    - constructor.
    - intros st x. apply html_event_step_inv. }
  destruct (fold_left DocumentProcessor.html_event_step _ _) as [parts flag].
  simpl in Hparts.
  pose proof (flow_fold_inv 1 parts ([], 0) Hparts (extraction_inv_nil 0)) as Hinv.
  destruct (fold_left _ _ _) as [s d]. injection H as <- _. apply Hinv.
Qed.

Lemma dispatch_ok (w : World) (p : string)
    (segs : list TextSegment.t) (md : DocMetadata) :
  DocumentProcessor.extract_text_with_positions w p = Py.Ok (segs, md) ->
  segments_ok segs.
Proof.
  unfold DocumentProcessor.extract_text_with_positions.
  repeat match goal with
         | |- (if ?c then _ else _) = _ -> _ => destruct c
         end;
    eauto using extract_from_pdf_ok, extract_from_docx_ok, extract_from_txt_ok,
      extract_from_markdown_ok, extract_from_pptx_ok, extract_from_excel_ok,
      extract_from_html_ok.
  discriminate.
Qed.

(** C2.  Whatever routine extracts a file, and whatever the file holds,
    a successful extraction returns segments whose text is non-empty after
    trimming, whose [char_start] is at most their [char_end], and which
    come in non-decreasing [char_start] order; this includes the PDF
    routines, whose page-local and document-wide offsets accumulate
    separately. *)
Theorem extractors_emit_ordered_segments :
  forall routine, In routine extractor_routines ->
  forall (w : World) (file_path : string)
         (segs : list TextSegment.t) (md : DocMetadata),
    routine w file_path = Py.Ok (segs, md) ->
    Forall segment_ok segs /\ nondecreasing_starts segs.
Proof.
  intros routine Hin w p segs md H.
  change (segments_ok segs).
  simpl in Hin.
  repeat (destruct Hin as [<-|Hin];
          [eauto using extract_from_pdf_ok, extract_from_docx_ok,
             extract_from_txt_ok, extract_from_markdown_ok, extract_from_pptx_ok,
             extract_from_excel_ok, extract_from_html_ok, dispatch_ok,
             pdf_processor_ok|]).
  contradiction.
Qed.

Lemma extractors_emit_ordered_segments_witness :
  let segs :=
    [ TextSegment.mk "A" 1 0 1 (0%Q, 0%Q, 1%Q, 2%Q);
      TextSegment.mk "BB" 1 7 10 (0%Q, 0%Q, 1%Q, 2%Q);
      TextSegment.mk "C" 3 10 11 (0%Q, 0%Q, 1%Q, 2%Q) ] in
  PDFProcessor.extract_text_with_positions sample_world "paper.pdf"
  = Py.Ok (segs, {| page_count := 3; total_chars := 11; file_size := 25;
                    file_type := None |})
  /\ Forall segment_ok segs /\ nondecreasing_starts segs.
Proof.
  intro segs. split; [reflexivity|].
  apply (extractors_emit_ordered_segments PDFProcessor.extract_text_with_positions)
    with (w := sample_world) (file_path := "paper.pdf")
         (md := {| page_count := 3; total_chars := 11; file_size := 25;
                   file_type := None |}).
  - simpl. tauto.
  - reflexivity.
Defined.

(** ** The chunker *)

Lemma chunk_step_eq (document_id filename : string) (segment : TextSegment.t)
    (chunks : list DocumentChunk.t) (chunk_index cursor : Z) (chunk_text : string) :
  IntelligentChunker.chunk_step document_id filename segment
    (chunks, chunk_index, cursor) chunk_text
  = (chunks ++ [emitted_chunk document_id filename segment chunk_index cursor chunk_text],
     chunk_index + 1,
     next_cursor segment cursor chunk_text)%list.
Proof.
  unfold IntelligentChunker.chunk_step, next_cursor, emitted_chunk.
  destruct (Py.find _ _ =? -1); reflexivity.
Qed.

(** A property of the list of chunks and the running index that every
    appended chunk preserves holds of the whole run. *)
Lemma chunk_segments_invariant (self : IntelligentChunker.t)
    (document_id filename : string) (P : list DocumentChunk.t -> Z -> Prop) :
  P [] 0 ->
  (forall chunks index segment cursor chunk_text,
      P chunks index ->
      P (chunks ++ [emitted_chunk document_id filename segment index cursor chunk_text])%list
        (index + 1)) ->
  forall segments,
    P (fst (fold_left (IntelligentChunker.segment_step self document_id filename)
              segments ([], 0)))
      (snd (fold_left (IntelligentChunker.segment_step self document_id filename)
              segments ([], 0))).
Proof.
  intros Hinit Hstep segments.
  apply (fold_left_invariant _ (fun st => P (fst st) (snd st))); [exact Hinit|].
  intros [chunks index] segment Hst. unfold IntelligentChunker.segment_step.
  set (texts := IntelligentChunker.split_text self (TextSegment.text segment)).
  assert (H : forall st, P (fst (fst st)) (snd (fst st)) ->
              let st' := fold_left
                           (IntelligentChunker.chunk_step document_id filename segment)
                           texts st in
              P (fst (fst st')) (snd (fst st'))).
  { induction texts as [|t texts IH]; intros st Hp; simpl; [exact Hp|].
    apply IH. destruct st as [[cs i] cur]. rewrite chunk_step_eq. simpl.
    apply Hstep. exact Hp. }
  specialize (H (chunks, index, 0) Hst). simpl in H.
  destruct (fold_left _ texts _) as [[cs i] cur]. exact H.
Qed.

(** C6.  The chunks of one document carry the indices 0, 1, ..., n-1 in
    emission order, counted across all segments, and the id of each chunk
    is its document id, the text [_chunk_] and its index. *)
Theorem chunk_index_runs_across_segments (self : IntelligentChunker.t)
    (segments : list TextSegment.t) (document_id filename : string) :
  let chunks := IntelligentChunker.chunk_segments self segments document_id filename in
  map DocumentChunk.chunk_index chunks = map Z.of_nat (seq 0 (List.length chunks))
  /\ Forall
       (fun c =>
          DocumentChunk.chunk_id c
          = document_id ++ "_chunk_" ++ Py.str_of_int (DocumentChunk.chunk_index c))
       chunks.
Proof.
  unfold IntelligentChunker.chunk_segments.
  pose proof (chunk_segments_invariant self document_id filename
                (fun chunks index =>
                   index = Z.of_nat (List.length chunks)
                   /\ running_indices document_id chunks)) as H.
  apply H; clear H.
  - repeat split. constructor.
  - intros chunks index segment cursor chunk_text [Hidx [Hmap Hids]].
    split; [| split].
    + rewrite length_app. simpl. lia.
    + rewrite length_app, map_app. simpl List.length.
      rewrite Nat.add_1_r, seq_S, map_app, Hmap. simpl. now rewrite Hidx.
    + apply Forall_app. split; [exact Hids|]. constructor; [|constructor].
      reflexivity.
Qed.

(** C10.  Every chunk spans exactly as many characters as its text has,
    and its metadata mapping repeats its page, offsets, chunk id and
    document id. *)
Theorem chunk_span_and_metadata (self : IntelligentChunker.t)
    (segments : list TextSegment.t) (document_id filename : string) :
  Forall
    (fun c =>
       DocumentChunk.char_end c - DocumentChunk.char_start c
       = Py.len (DocumentChunk.text c)
       /\ metadata_mirrors_fields c)
    (IntelligentChunker.chunk_segments self segments document_id filename).
Proof.
  unfold IntelligentChunker.chunk_segments.
  pose proof (chunk_segments_invariant self document_id filename
                (fun chunks _ =>
                   Forall (fun c => exact_span c /\ metadata_mirrors_fields c) chunks))
    as H.
  apply H; clear H.
  - constructor.
  - intros chunks index segment cursor chunk_text Hall.
    apply Forall_app. split; [exact Hall|]. constructor; [|constructor].
    split.
    + unfold exact_span, emitted_chunk. simpl. lia.
    + repeat split.
Qed.

(** C1.  On the segment ["aaaa bbbb"] cut into ["aaaa"] and ["bbbb"], the
    second chunk is built while the cursor is 4.  Its text is found in the
    remaining slice at offset 1, yet the chunk is given the range 4..8, the
    cursor alone added to the start of the segment, and not 5..9; the
    match offset only moves the cursor, to 9. *)
Theorem chunk_start_ignores_match_offset :
  IntelligentChunker.split_text sample_chunker (TextSegment.text two_words)
  = ["aaaa"; "bbbb"]
  /\ Py.find (Py.slice_from (TextSegment.text two_words) 4) "bbbb" = 1
  /\ map (fun c => (DocumentChunk.text c, DocumentChunk.char_start c,
                    DocumentChunk.char_end c))
       (IntelligentChunker.chunk_segments sample_chunker [two_words] "doc" "notes.txt")
     = [("aaaa", 0, 4); ("bbbb", 4, 8)]
  /\ snd (fold_left
            (IntelligentChunker.chunk_step "doc" "notes.txt" two_words)
            ["aaaa"] ([], 0, 0)) = 4
  /\ snd (fold_left
            (IntelligentChunker.chunk_step "doc" "notes.txt" two_words)
            ["aaaa"; "bbbb"] ([], 0, 0)) = 9.
Proof. repeat split. Qed.

(** ** The extractor registry *)

Lemma unsupported_is_rejected (w : World) (file_path : string) :
  DocumentProcessor.is_supported file_path = false ->
  DocumentProcessor.extract_text_with_positions w file_path
  = Py.Raise (Py.ValueError
                ("Unsupported file format: "
                 ++ Py.lower (DocumentProcessor.suffix file_path))).
Proof.
  unfold DocumentProcessor.is_supported, DocumentProcessor.extract_text_with_positions.
  set (ext := Py.lower (DocumentProcessor.suffix file_path)).
  unfold DocumentProcessor.str_in. simpl existsb.
  intro H. repeat (apply orb_false_iff in H; destruct H as [? H]).
  repeat match goal with E : (_ =? _)%string = false |- _ => rewrite E; clear E end.
  reflexivity.
Qed.

(** C3.  [.rtf] and [.odt] are in the supported set, so [is_supported]
    accepts the file, yet no branch of the dispatch takes them and the
    extraction raises the unsupported-format error. *)
Theorem supported_rtf_and_odt_are_rejected (w : World) :
  In ".rtf" DocumentProcessor.get_supported_extensions
  /\ DocumentProcessor.is_supported "notes.rtf" = true
  /\ DocumentProcessor.extract_text_with_positions w "notes.rtf"
     = Py.Raise (Py.ValueError "Unsupported file format: .rtf")
  /\ In ".odt" DocumentProcessor.get_supported_extensions
  /\ DocumentProcessor.is_supported "letter.ODT" = true
  /\ DocumentProcessor.extract_text_with_positions w "letter.ODT"
     = Py.Raise (Py.ValueError "Unsupported file format: .odt").
Proof.
  repeat split; try reflexivity; simpl; tauto.
Qed.

(** ** Citations *)

Lemma citation_step_matches {float : Type} (pair : DocumentChunk.t * float)
    (citations : list (Citation.t float)) :
  exists c, RAGService.citation_step float citations pair = (citations ++ [c])%list
            /\ citation_matches pair c.
Proof.
  destruct pair as [chunk score]. eexists. split; [reflexivity|].
  unfold citation_matches. simpl.
  destruct (200 <? Py.len (DocumentChunk.text chunk)) eqn:L;
    [apply Z.ltb_lt in L | apply Z.ltb_ge in L];
    repeat split; intros; solve [reflexivity | lia].
Qed.

Lemma citations_match {float : Type} (pairs : list (DocumentChunk.t * float)) :
  forall (done_pairs : list (DocumentChunk.t * float))
         (citations : list (Citation.t float)),
    Forall2 citation_matches done_pairs citations ->
    Forall2 citation_matches (done_pairs ++ pairs)
      (fold_left (RAGService.citation_step float) pairs citations).
Proof.
  induction pairs as [|pair pairs IH]; intros done_pairs citations H; simpl.
  - now rewrite app_nil_r.
  - destruct (citation_step_matches pair citations) as [c [-> Hc]].
    replace (done_pairs ++ pair :: pairs)%list
      with ((done_pairs ++ [pair]) ++ pairs)%list
      by (rewrite <- app_assoc; reflexivity).
    apply IH. apply Forall2_app; [exact H | now constructor].
Qed.

Section Query.

Variable float : Type.
Variable similarity_search :
  string -> Z -> option Py.dict -> Py.result (list (DocumentChunk.t * float)).
Variable llm_invoke : string -> Py.result string.
Variable time_start time_end : float.
Variable elapsed_ms : float -> float -> float.

(** C5.  The citations of a response pair up, in order, with the
    retrieved chunks: the text of a citation is the first 200 characters
    of the chunk text followed by three dots when the chunk text is longer
    than 200 characters and the chunk text itself otherwise; page number
    and character range are those of the chunk, and the relevance score is
    the score the index returned. *)
Theorem citations_copy_retrieved_chunks (question : string)
    (document_id : option string) (max_citations : Z)
    (relevant_chunks : list (DocumentChunk.t * float))
    (response : QueryResponse.t float) :
  similarity_search question max_citations (RAGService.filter_dict_of document_id)
    = Py.Ok relevant_chunks ->
  RAGService.query float similarity_search llm_invoke time_start time_end elapsed_ms
    question document_id max_citations = Py.Ok response ->
  Forall2 citation_matches relevant_chunks (QueryResponse.citations response).
Proof.
  unfold RAGService.query. intros Hsearch H.
  rewrite Hsearch in H. simpl in H.
  destruct relevant_chunks as [|pair pairs].
  - injection H as <-. constructor.
  - invert_ok H. injection H as <-. simpl QueryResponse.citations.
    exact (citations_match (pair :: pairs) [] [] (Forall2_nil _)).
Qed.

(** C8.  When the similarity search finds nothing, [query] returns a
    response, with no citation and the fixed answer that no relevant
    information was found. *)
Theorem empty_retrieval_gives_fixed_answer (question : string)
    (document_id : option string) (max_citations : Z) :
  similarity_search question max_citations (RAGService.filter_dict_of document_id)
    = Py.Ok [] ->
  exists response,
    RAGService.query float similarity_search llm_invoke time_start time_end elapsed_ms
      question document_id max_citations = Py.Ok response
    /\ QueryResponse.citations response = []
    /\ QueryResponse.answer response
       = "I couldn't find any relevant information in the documents to answer this question."
    /\ QueryResponse.question response = question.
Proof.
  unfold RAGService.query. intro Hsearch. rewrite Hsearch. simpl.
  eexists. split; [reflexivity|]. repeat split.
Qed.

End Query.

Lemma citations_copy_retrieved_chunks_witness :
  Forall2 citation_matches [(sample_hit, 0.75%Q)]
    [Citation.mk "doc_chunk_0" "Alpha beta." 1 0 11 0.75%Q].
Proof.
  apply (citations_copy_retrieved_chunks Q
           (fun _ _ _ => Py.Ok [(sample_hit, 0.75%Q)]) (fun _ => Py.Ok "ok")
           0%Q 0%Q (fun _ _ => 0%Q) "What is alpha?" None 3
           [(sample_hit, 0.75%Q)]
           (QueryResponse.mk "ok" [Citation.mk "doc_chunk_0" "Alpha beta." 1 0 11 0.75%Q]
              "What is alpha?" 0%Q)).
  - reflexivity.
  - reflexivity.
Defined.

Lemma empty_retrieval_gives_fixed_answer_witness :
  exists response,
    sample_query [] "What is alpha?" = Py.Ok response
    /\ QueryResponse.citations response = []
    /\ QueryResponse.answer response
       = "I couldn't find any relevant information in the documents to answer this question."
    /\ QueryResponse.question response = "What is alpha?".
Proof.
  apply (empty_retrieval_gives_fixed_answer Q
           (fun _ _ _ => Py.Ok []) (fun _ => Py.Ok "ok")
           0%Q 0%Q (fun _ _ => 0%Q) "What is alpha?" None 3).
  reflexivity.
Defined.

(** ** The merger *)

Lemma update_same (h : IntelligentChunker.heap) (r : IntelligentChunker.ref)
    (v : DocumentChunk.t) :
  IntelligentChunker.update h r v r = v.
Proof. unfold IntelligentChunker.update. now rewrite Nat.eqb_refl. Qed.

Lemma update_other (h : IntelligentChunker.heap) (r r' : IntelligentChunker.ref)
    (v : DocumentChunk.t) :
  r' <> r -> IntelligentChunker.update h r v r' = h r'.
Proof.
  intro H. unfold IntelligentChunker.update.
  now apply Nat.eqb_neq in H as ->.
Qed.

Lemma merge_loop_merge (h : IntelligentChunker.heap)
    (pre : list IntelligentChunker.ref) (l c : IntelligentChunker.ref)
    (rest : list IntelligentChunker.ref) :
  IntelligentChunker.merges (h c) (h l) = true ->
  IntelligentChunker.merge_loop h (pre ++ [l]) (c :: rest)
  = IntelligentChunker.merge_loop (absorb h l c) (pre ++ [l]) rest.
Proof.
  intro H. cbn [IntelligentChunker.merge_loop]. rewrite last_last, H. reflexivity.
Qed.

Lemma merge_loop_append (h : IntelligentChunker.heap)
    (pre : list IntelligentChunker.ref) (l c : IntelligentChunker.ref)
    (rest : list IntelligentChunker.ref) :
  IntelligentChunker.merges (h c) (h l) = false ->
  IntelligentChunker.merge_loop h (pre ++ [l]) (c :: rest)
  = IntelligentChunker.merge_loop h ((pre ++ [l]) ++ [c]) rest.
Proof.
  intro H. cbn [IntelligentChunker.merge_loop]. rewrite last_last, H. reflexivity.
Qed.

Lemma absorb_same (h : IntelligentChunker.heap) (l c : IntelligentChunker.ref) :
  absorb h l c l
  = DocumentChunk.mk
      (DocumentChunk.chunk_id (h l))
      (DocumentChunk.text (h l)
       ++ Py.slice_from (DocumentChunk.text (h c))
            (IntelligentChunker.overlap_size (h c) (h l)))
      (DocumentChunk.page_number (h l))
      (DocumentChunk.char_start (h l))
      (if Nat.eqb c l then DocumentChunk.char_end (h l)
       else DocumentChunk.char_end (h c))
      (DocumentChunk.document_id (h l))
      (DocumentChunk.chunk_index (h l))
      (DocumentChunk.metadata (h l)).
Proof.
  unfold absorb. rewrite !update_same.
  unfold DocumentChunk.set_char_end, DocumentChunk.set_text. simpl.
  f_equal. unfold IntelligentChunker.update. destruct (Nat.eqb c l); reflexivity.
Qed.

Lemma absorb_other (h : IntelligentChunker.heap) (l c r : IntelligentChunker.ref) :
  r <> l -> absorb h l c r = h r.
Proof. intro H. unfold absorb. now rewrite !update_other. Qed.

Lemma absorb_same_but_text_and_end (h : IntelligentChunker.heap)
    (l c r : IntelligentChunker.ref) :
  same_but_text_and_end (absorb h l c r) (h r).
Proof.
  destruct (Nat.eq_dec r l) as [->|Hne].
  - rewrite absorb_same. repeat split.
  - rewrite absorb_other by assumption. repeat split.
Qed.





Example merge_overlapping_pair :
  let result := IntelligentChunker.merge_overlapping_chunks overlapping_pair [0; 1]%nat in
  snd result = [0%nat]
  /\ fst result 0%nat = plain_chunk "hello world!" 1 0 12
  /\ fst result 1%nat = plain_chunk "world!" 1 6 12.
Proof. repeat split. Qed.

(** *** Sorting by key *)

Lemma key_leb_total (a b : Z * Z) :
  IntelligentChunker.key_leb a b = false -> IntelligentChunker.key_leb b a = true.
Proof.
  unfold IntelligentChunker.key_leb. destruct a as [p s], b as [p' s']. simpl.
  intro H. apply orb_false_iff in H as [H1 H2]. apply Z.ltb_ge in H1.
  destruct (p' <? p) eqn:L; [reflexivity|]. apply Z.ltb_ge in L.
  assert (p = p') as -> by lia. rewrite Z.eqb_refl in *. simpl in *.
  apply Z.leb_gt in H2. apply Z.leb_le. lia.
Qed.

Lemma key_leb_trans (a b c : Z * Z) :
  IntelligentChunker.key_leb a b = true -> IntelligentChunker.key_leb b c = true ->
  IntelligentChunker.key_leb a c = true.
Proof.
  unfold IntelligentChunker.key_leb.
  destruct a as [p s], b as [p' s'], c as [p'' s'']. simpl.
  rewrite !orb_true_iff, !andb_true_iff, !Z.ltb_lt, !Z.eqb_eq, !Z.leb_le. lia.
Qed.

Lemma key_leb_same_page (a b : Z * Z) :
  IntelligentChunker.key_leb a b = true -> fst a = fst b -> snd a <= snd b.
Proof.
  unfold IntelligentChunker.key_leb.
  rewrite !orb_true_iff, !andb_true_iff, !Z.ltb_lt, !Z.eqb_eq, !Z.leb_le. lia.
Qed.

Lemma insert_by_key_perm (h : IntelligentChunker.heap) (r : IntelligentChunker.ref)
    (l : list IntelligentChunker.ref) :
  Permutation (IntelligentChunker.insert_by_key h r l) (r :: l).
Proof.
  induction l as [|r' l IH]; simpl; [reflexivity|].
  destruct (IntelligentChunker.key_leb _ _); [reflexivity|].
  rewrite IH. apply perm_swap.
Qed.

Lemma sorted_perm (h : IntelligentChunker.heap) (l : list IntelligentChunker.ref) :
  Permutation (IntelligentChunker.sorted h l) l.
Proof.
  induction l as [|r l IH]; simpl; [reflexivity|].
  rewrite insert_by_key_perm. now constructor.
Qed.

Lemma insert_by_key_sorted (h : IntelligentChunker.heap) (r : IntelligentChunker.ref)
    (l : list IntelligentChunker.ref) :
  StronglySorted (key_le h) l ->
  StronglySorted (key_le h) (IntelligentChunker.insert_by_key h r l).
Proof.
  induction 1 as [|r' l Hl IH Hr']; simpl.
  - constructor; constructor.
  - destruct (IntelligentChunker.key_leb _ _) eqn:K.
    + constructor; [now constructor|]. constructor; [exact K|].
      eapply Forall_impl; [|exact Hr']. intros x Hx.
      unfold key_le in *. eapply key_leb_trans; eassumption.
    + constructor; [exact IH|].
      eapply Permutation_Forall; [symmetry; apply insert_by_key_perm|].
      constructor; [|exact Hr']. now apply key_leb_total.
Qed.

Lemma sorted_is_sorted (h : IntelligentChunker.heap) (l : list IntelligentChunker.ref) :
  StronglySorted (key_le h) (IntelligentChunker.sorted h l).
Proof.
  induction l as [|r l IH]; simpl; [constructor|].
  now apply insert_by_key_sorted.
Qed.

(** Sorting a list that is already in key order returns it. *)
Lemma sorted_fixed (h : IntelligentChunker.heap) (l : list IntelligentChunker.ref) :
  StronglySorted (key_le h) l -> IntelligentChunker.sorted h l = l.
Proof.
  induction 1 as [|r l Hl IH Hr]; simpl; [reflexivity|].
  rewrite IH. destruct l as [|r' l]; simpl; [reflexivity|].
  inversion Hr as [|? ? K _]; subst. unfold key_le in K. now rewrite K.
Qed.

(** *** Ordered lists *)

Lemma StronglySorted_app_inv {A : Type} (R : A -> A -> Prop) (l1 l2 : list A) :
  StronglySorted R (l1 ++ l2) ->
  StronglySorted R l1 /\ StronglySorted R l2
  /\ forall x y, In x l1 -> In y l2 -> R x y.
Proof.
  induction l1 as [|a l1 IH]; simpl; intro H.
  - repeat split; [constructor | exact H | intros x y []].
  - inversion H as [|? ? Hs Ha]; subst. destruct (IH Hs) as [H1 [H2 H3]].
    apply Forall_app in Ha as [Ha1 Ha2]. repeat split.
    + now constructor.
    + exact H2.
    + intros x y [<-|Hx] Hy; [|now apply H3].
      rewrite Forall_forall in Ha2. now apply Ha2.
Qed.

Lemma StronglySorted_app {A : Type} (R : A -> A -> Prop) (l1 l2 : list A) :
  StronglySorted R l1 -> StronglySorted R l2 ->
  (forall x y, In x l1 -> In y l2 -> R x y) ->
  StronglySorted R (l1 ++ l2).
Proof.
  induction 1 as [|a l1 Hs IH Ha]; simpl; intros H2 Hx; [exact H2|].
  constructor.
  - apply IH; [exact H2|]. intros x y Hin. apply Hx. now right.
  - apply Forall_app. split; [exact Ha|].
    apply Forall_forall. intros y Hy. apply Hx; [now left | exact Hy].
Qed.

Lemma StronglySorted_remove {A : Type} (R : A -> A -> Prop) (l1 l2 : list A) (a : A) :
  StronglySorted R (l1 ++ a :: l2) -> StronglySorted R (l1 ++ l2).
Proof.
  intro H. apply StronglySorted_app_inv in H as [H1 [H2 H3]].
  inversion H2; subst. apply StronglySorted_app; auto.
  intros x y Hx Hy. apply H3; [exact Hx | now right].
Qed.

Lemma StronglySorted_mono {A : Type} (R R' : A -> A -> Prop) (l : list A) :
  (forall a b, R a b -> R' a b) -> StronglySorted R l -> StronglySorted R' l.
Proof.
  intros HR. induction 1 as [|a l Hs IH Ha]; constructor; [exact IH|].
  eapply Forall_impl; [|exact Ha]. auto.
Qed.

Lemma Sorted_mono {A : Type} (R R' : A -> A -> Prop) (l : list A) :
  (forall a b, R a b -> R' a b) -> Sorted R l -> Sorted R' l.
Proof.
  intros HR. induction 1 as [|a l Hs IH Ha]; constructor; [exact IH|].
  destruct Ha; constructor; auto.
Qed.

Lemma Sorted_snoc {A : Type} (R : A -> A -> Prop) (pre : list A) (l c : A) :
  Sorted R (pre ++ [l]) -> R l c -> Sorted R ((pre ++ [l]) ++ [c]).
Proof.
  intros H Hlc. induction pre as [|a pre IH]; simpl in *.
  - repeat constructor. exact Hlc.
  - inversion H as [|? ? Hs Ha]; subst. constructor; [now apply IH|].
    destruct pre; simpl in *; inversion Ha; subst; now constructor.
Qed.

Lemma Sorted_adjacent {A : Type} (R : A -> A -> Prop) (pre : list A) (a b : A)
    (rest : list A) :
  Sorted R (pre ++ a :: b :: rest) -> R a b.
Proof.
  induction pre as [|x pre IH]; simpl; intro H; inversion H as [|? ? Hs Hx]; subst.
  - now inversion Hx.
  - now apply IH.
Qed.

(** Changing the last object of a chain keeps the chain when the new
    state relates to its predecessor as the old one did. *)
Lemma Sorted_change_last (G : DocumentChunk.t -> DocumentChunk.t -> Prop)
    (h h' : IntelligentChunker.heap) (pre : list IntelligentChunker.ref)
    (l : IntelligentChunker.ref) :
  ~ In l pre ->
  (forall r, r <> l -> h' r = h r) ->
  (forall p, G p (h l) -> G p (h' l)) ->
  Sorted (fun a b => G (h a) (h b)) (pre ++ [l]) ->
  Sorted (fun a b => G (h' a) (h' b)) (pre ++ [l]).
Proof.
  intros Hl Hother Hlast. induction pre as [|a pre IH]; simpl; intro H.
  - repeat constructor.
  - inversion H as [|? ? Hs Ha]; subst.
    assert (a <> l) by (intros ->; apply Hl; now left).
    constructor; [apply IH; [|exact Hs]; intro; apply Hl; now right|].
    destruct pre as [|b pre]; simpl in *; inversion Ha; subst; constructor.
    + rewrite (Hother a) by assumption. now apply Hlast.
    + assert (b <> l) by (intros ->; apply Hl; right; now left).
      now rewrite (Hother a), (Hother b).
Qed.

(** *** Chunks that stay apart *)

Lemma stays_apart_no_merge (earlier later : DocumentChunk.t) :
  stays_apart earlier later -> IntelligentChunker.merges later earlier = false.
Proof.
  unfold stays_apart, IntelligentChunker.merges, IntelligentChunker.overlap_size.
  intro H. pose proof (len_nonneg (DocumentChunk.text later)).
  destruct (_ =? _) eqn:P; [|reflexivity]. apply Z.eqb_eq in P.
  destruct (_ <? DocumentChunk.char_end earlier) eqn:S; [|reflexivity].
  apply Z.ltb_lt in S. cbn [andb]. apply Z.ltb_ge.
  destruct (H P S); lia.
Qed.

Lemma no_merge_stays_apart (earlier later : DocumentChunk.t) :
  span_covers_text later ->
  IntelligentChunker.merges later earlier = false ->
  stays_apart earlier later.
Proof.
  unfold stays_apart, span_covers_text, IntelligentChunker.merges,
    IntelligentChunker.overlap_size.
  intros Hspan H P S.
  apply Z.eqb_eq in P. apply Z.ltb_lt in S. rewrite P, S in H. cbn [andb] in H.
  apply Z.ltb_ge in H. lia.
Qed.

Lemma sort_key_absorb (h : IntelligentChunker.heap) (l c r : IntelligentChunker.ref) :
  IntelligentChunker.sort_key (absorb h l c) r = IntelligentChunker.sort_key h r.
Proof.
  unfold IntelligentChunker.sort_key.
  destruct (absorb_same_but_text_and_end h l c r) as [_ [-> [-> _]]]. reflexivity.
Qed.

(** A chunk that absorbs another still stays apart from its predecessor. *)
Lemma absorb_stays_apart (h : IntelligentChunker.heap) (l c : IntelligentChunker.ref)
    (p : DocumentChunk.t) :
  c <> l ->
  key_le h l c ->
  IntelligentChunker.merges (h c) (h l) = true ->
  stays_apart p (h l) -> stays_apart p (absorb h l c l).
Proof.
  intros Hne Hkey Hm Hp. rewrite absorb_same.
  apply Nat.eqb_neq in Hne. rewrite Hne.
  unfold stays_apart in *.
  cbn [DocumentChunk.page_number DocumentChunk.char_start DocumentChunk.char_end
       DocumentChunk.text].
  intros P S.
  unfold IntelligentChunker.merges in Hm.
  apply andb_true_iff in Hm as [Hm _]. apply andb_true_iff in Hm as [Hpage Hstart].
  apply Z.eqb_eq in Hpage. apply Z.ltb_lt in Hstart.
  apply key_leb_same_page in Hkey; [|simpl; congruence]. simpl in Hkey.
  rewrite len_append.
  pose proof (len_nonneg
                (Py.slice_from (DocumentChunk.text (h c))
                   (IntelligentChunker.overlap_size (h c) (h l)))).
  destruct (Hp P S); [left; lia | lia].
Qed.

(** *** The two passes *)

(** First pass: on distinct objects in key order whose spans cover their
    texts, the loop returns a list in key order in which every chunk stays
    apart from the one before it.  The span of a chunk is needed only when
    the chunk is compared with the last retained one, before anything is
    merged into it. *)
Lemma merge_loop_settles (rest : list IntelligentChunker.ref) :
  forall (h : IntelligentChunker.heap) (pre : list IntelligentChunker.ref)
         (l : IntelligentChunker.ref),
    NoDup (pre ++ l :: rest) ->
    StronglySorted (key_le h) (pre ++ l :: rest) ->
    Forall (fun c => span_covers_text (h c)) rest ->
    Sorted (fun a b => stays_apart (h a) (h b)) (pre ++ [l]) ->
    let result := IntelligentChunker.merge_loop h (pre ++ [l]) rest in
    StronglySorted (key_le (fst result)) (snd result)
    /\ Sorted (fun a b => stays_apart (fst result a) (fst result b)) (snd result).
Proof.
  induction rest as [|c rest IH]; intros h pre l Hnodup Hsorted Hspan Hchain.
  - simpl. split; assumption.
  - assert (Hlc : key_le h l c).
    { apply StronglySorted_app_inv in Hsorted as [_ [Hs _]].
      inversion Hs as [|? ? _ Hall]; subst. now inversion Hall. }
    assert (Hnodup' : NoDup ((pre ++ [l]) ++ c :: rest))
      by (rewrite <- app_assoc; exact Hnodup).
    assert (Hc : c <> l).
    { intros ->. apply NoDup_remove_2 in Hnodup'. apply Hnodup'.
      apply in_or_app. left. apply in_or_app. right. now left. }
    inversion Hspan as [|? ? Hcspan Hrest]; subst.
    destruct (IntelligentChunker.merges (h c) (h l)) eqn:M.
    + rewrite merge_loop_merge by assumption.
      assert (Hnd : NoDup (pre ++ l :: rest)).
      { apply NoDup_remove_1 in Hnodup'. now rewrite <- app_assoc in Hnodup'. }
      apply IH.
      * exact Hnd.
      * apply StronglySorted_mono with (R := key_le h).
        -- intros a b. unfold key_le. now rewrite !sort_key_absorb.
        -- replace (pre ++ l :: c :: rest)%list
             with ((pre ++ [l]) ++ c :: rest)%list in Hsorted
             by (rewrite <- app_assoc; reflexivity).
           apply StronglySorted_remove in Hsorted.
           now rewrite <- app_assoc in Hsorted.
      * apply Forall_forall. intros x Hx.
        rewrite absorb_other.
        -- rewrite Forall_forall in Hrest. now apply Hrest.
        -- intros ->. apply NoDup_remove_2 in Hnd. apply Hnd.
           apply in_or_app. now right.
      * apply Sorted_change_last with (h := h).
        -- apply NoDup_remove_2 in Hnd. intro Hin. apply Hnd.
           apply in_or_app. now left.
        -- intros r Hr. now apply absorb_other.
        -- intros p. now apply absorb_stays_apart.
        -- exact Hchain.
    + rewrite merge_loop_append by assumption.
      apply IH.
      * exact Hnodup'.
      * now rewrite <- app_assoc.
      * exact Hrest.
      * apply Sorted_snoc; [exact Hchain|].
        now apply no_merge_stays_apart.
Qed.

(** Second pass: where no chunk merges into the one before it, the loop
    returns the store and the list as they are. *)
Lemma merge_loop_stable (rest : list IntelligentChunker.ref) :
  forall (h : IntelligentChunker.heap) (pre : list IntelligentChunker.ref)
         (l : IntelligentChunker.ref),
    Sorted (fun a b => IntelligentChunker.merges (h b) (h a) = false)
      (pre ++ l :: rest) ->
    IntelligentChunker.merge_loop h (pre ++ [l]) rest = (h, (pre ++ l :: rest)%list).
Proof.
  induction rest as [|c rest IH]; intros h pre l H; [reflexivity|].
  rewrite merge_loop_append
    by exact (Sorted_adjacent
                (fun a b => IntelligentChunker.merges (h b) (h a) = false)
                pre l c rest H).
  rewrite IH; rewrite <- app_assoc; [reflexivity | exact H].
Qed.

(** C7, as the code has it.  On a list of distinct chunk objects whose
    spans are at least as long as their texts, which is the invariant of a
    chunk and holds with equality of every chunk that [chunk_segments]
    emits, a second run of the merger on the output of the first returns
    the same list and leaves every chunk as the first run left it. *)
Theorem merge_idempotent_on_spans_covering_text
    (h : IntelligentChunker.heap) (chunks : list IntelligentChunker.ref) :
  NoDup chunks ->
  Forall (fun r => span_covers_text (h r)) chunks ->
  let first_run := IntelligentChunker.merge_overlapping_chunks h chunks in
  IntelligentChunker.merge_overlapping_chunks (fst first_run) (snd first_run)
  = first_run.
Proof.
  intros Hnodup Hspan. cbv zeta.
  unfold IntelligentChunker.merge_overlapping_chunks at 2 3 4.
  destruct chunks as [|c0 chunks]; [reflexivity|].
  pose proof (sorted_perm h (c0 :: chunks)) as Hperm.
  pose proof (sorted_is_sorted h (c0 :: chunks)) as Hsorted.
  destruct (IntelligentChunker.sorted h (c0 :: chunks)) as [|first rest];
    [reflexivity|].
  assert (Hnd : NoDup (first :: rest))
    by (eapply Permutation_NoDup; [symmetry; exact Hperm | exact Hnodup]).
  assert (Hsp : Forall (fun r => span_covers_text (h r)) rest).
  { eapply Permutation_Forall in Hspan; [|symmetry; exact Hperm].
    now inversion Hspan. }
  destruct (merge_loop_settles rest h [] first Hnd Hsorted Hsp)
    as [Hkeys Hchain]; [repeat constructor|].
  simpl app in *.
  destruct (IntelligentChunker.merge_loop h [first] rest) as [h1 out1] eqn:E.
  simpl fst in *. simpl snd in *.
  unfold IntelligentChunker.merge_overlapping_chunks.
  destruct out1 as [|o out1]; [reflexivity|].
  rewrite sorted_fixed by exact Hkeys.
  apply (merge_loop_stable out1 h1 [] o).
  simpl. eapply Sorted_mono; [|exact Hchain].
  intros a b. apply stays_apart_no_merge.
Qed.

(** Three chunks of one page, the third with a span of 13 for a text of
    12: the first run merges the second into the first and keeps the
    third, and the second run changes nothing. *)
Lemma merge_idempotent_on_spans_covering_text_witness :
  let h := heap_of [ plain_chunk "hello world" 1 0 11; plain_chunk "world!" 1 6 12;
                     plain_chunk " and beyond " 1 12 25 ] in
  let first_run := IntelligentChunker.merge_overlapping_chunks h [2; 0; 1]%nat in
  snd first_run = [0; 2]%nat
  /\ IntelligentChunker.merge_overlapping_chunks (fst first_run) (snd first_run)
     = first_run.
Proof.
  split; [reflexivity|].
  apply (merge_idempotent_on_spans_covering_text
           (heap_of [ plain_chunk "hello world" 1 0 11; plain_chunk "world!" 1 6 12;
                      plain_chunk " and beyond " 1 12 25 ])
           [2; 0; 1]%nat).
  - repeat constructor; simpl; intuition discriminate.
  - repeat (constructor; [apply Z.leb_le; reflexivity|]). constructor.
Defined.

(** The merger is not idempotent on every chunk list.

    First, a list that names one object twice, every span as long as its
    text.  The first run merges the second chunk into the first, which
    takes the second's [char_end] and so no longer overlaps itself by more
    than half its text: its second listing is retained, and the third
    chunk then extends it.  The second run finds the object overlapping
    itself and merges its two listings.

    Second, distinct objects, one of them with a span shorter than its
    text.  The first run keeps that chunk apart and merges the last chunk
    into it, which moves its [char_end] without adding to its text; in the
    second run it merges into the chunk before it. *)
Lemma merge_not_idempotent :
  (let chunks := [0; 1; 0; 2]%nat in
   let first_run := IntelligentChunker.merge_overlapping_chunks listed_twice chunks in
   Forall (fun r => exact_span (listed_twice r)) chunks
   /\ snd first_run = [0; 0]%nat
   /\ fst first_run 0%nat = plain_chunk "xxxxxxx" 2 3 7
   /\ snd (IntelligentChunker.merge_overlapping_chunks (fst first_run) (snd first_run))
      = [0%nat]
   /\ IntelligentChunker.merge_overlapping_chunks (fst first_run) (snd first_run)
      <> first_run)
  /\ (let chunks := [0; 1; 2]%nat in
      let first_run := IntelligentChunker.merge_overlapping_chunks loose_spans chunks in
      NoDup chunks
      /\ snd first_run = [0; 1]%nat
      /\ snd (IntelligentChunker.merge_overlapping_chunks (fst first_run) (snd first_run))
         = [0%nat]
      /\ IntelligentChunker.merge_overlapping_chunks (fst first_run) (snd first_run)
         <> first_run).
Proof.
  split; cbv zeta.
  - split; [repeat constructor|]. repeat split.
    intro H. apply (f_equal snd) in H. vm_compute in H. discriminate H.
  - split; [repeat constructor; simpl; intuition discriminate|]. repeat split.
    intro H. apply (f_equal snd) in H. vm_compute in H. discriminate H.
Qed.

(** ** Scenarios of the specification *)

(** Two paragraphs of a text file, no chunk split: two segments, two
    chunks, the second chunk starting at 13. *)
Example scenario_two_paragraphs :
  let whole := IntelligentChunker.mk 1000 200 (fun text => [text]) in
  exists segs md,
    DocumentProcessor.extract_text_with_positions sample_world "notes.txt"
    = Py.Ok (segs, md)
    /\ List.length segs = 2%nat
    /\ map (fun c => (DocumentChunk.chunk_id c, DocumentChunk.text c,
                      DocumentChunk.char_start c, DocumentChunk.char_end c))
         (IntelligentChunker.chunk_segments whole segs "doc" "notes.txt")
       = [ ("doc_chunk_0", "Alpha beta.", 0, 11);
           ("doc_chunk_1", "Gamma delta.", 13, 25) ].
Proof. do 2 eexists. repeat split. Qed.

(** Chunk B starts 10 characters before the end of chunk A and has 15
    characters: the two merge, and [char_end] moves to the end of B. *)
Example scenario_merge_two_chunks :
  let h := heap_of [ plain_chunk "aaaaaaaaaaaaaaaaaaaa" 1 0 20;
                     plain_chunk "bbbbbbbbbbbbbbb" 1 10 25 ] in
  let result := IntelligentChunker.merge_overlapping_chunks h [1; 0]%nat in
  snd result = [0%nat]
  /\ fst result 0%nat = plain_chunk "aaaaaaaaaaaaaaaaaaaabbbbb" 1 0 25.
Proof. repeat split. Qed.

(** A chunk text of 202 characters is cut to 200 and marked; one of 200
    characters is kept. *)
Example scenario_snippet :
  let long_text := String.concat "" (repeat "ab" 101) in
  let short_text := String.concat "" (repeat "ab" 100) in
  map Citation.text
    (fold_left (RAGService.citation_step Q)
       [ (plain_chunk long_text 1 0 202, 0.5%Q);
         (plain_chunk short_text 1 0 200, 0.25%Q) ] [])
  = [ short_text ++ "..."; short_text ].
Proof. reflexivity. Qed.

(** * Further properties of the code *)

(** ** Trimming and splitting *)

Lemma len_lstrip_le (s : string) : Py.len (Py.lstrip s) <= Py.len s.
Proof.
  unfold Py.len. induction s as [|c s IH]; simpl; [lia|].
  destruct (Py.isspace c); simpl String.length; lia.
Qed.

Lemma len_rstrip_le (s : string) : Py.len (Py.rstrip s) <= Py.len s.
Proof.
  unfold Py.len. induction s as [|c s IH]; simpl; [lia|].
  destruct (Py.rstrip s); [destruct (Py.isspace c)|]; simpl String.length in *; lia.
Qed.

Lemma len_strip_le (s : string) : Py.len (Py.strip s) <= Py.len s.
Proof.
  unfold Py.strip. pose proof (len_rstrip_le (Py.lstrip s)).
  pose proof (len_lstrip_le s). lia.
Qed.

Lemma fold_left_invariant_in {A B : Type} (f : A -> B -> A) (P : A -> Prop)
    (xs : list B) (a : A) :
  P a -> (forall a' x, In x xs -> P a' -> P (f a' x)) -> P (fold_left f xs a).
Proof.
  revert a. induction xs as [|x xs IH]; intros a Ha Hstep; simpl; [exact Ha|].
  apply IH.
  - apply Hstep; [now left | exact Ha].
  - intros a' y Hy. apply Hstep. now right.
Qed.

(** ** Layout of the extracted segments *)

Lemma flow_layout_nil : flow_layout [] 0.
Proof. repeat split; try constructor; lia. Qed.

Lemma flow_layout_snoc (segs : list TextSegment.t) (seg : TextSegment.t)
    (offset offset' : Z) :
  flow_layout segs offset ->
  TextSegment.char_start seg = offset ->
  TextSegment.char_start seg <= TextSegment.char_end seg ->
  TextSegment.char_end seg + 2 <= offset' ->
  flow_layout (segs ++ [seg]) offset'.
Proof.
  intros [Hoff [Hsorted Hall]] Hstart Hle Hend. repeat split.
  - lia.
  - apply StronglySorted_snoc; [exact Hsorted|].
    eapply Forall_impl; [|exact Hall]. unfold ends_before. simpl. intros; lia.
  - apply Forall_app. split.
    + eapply Forall_impl; [|exact Hall]. simpl. intros; lia.
    + constructor; [lia | constructor].
Qed.

Lemma flow_layout_layout (segs : list TextSegment.t) (offset total : Z) :
  flow_layout segs offset -> offset <= total + 2 -> layout segs total.
Proof.
  intros [Hoff [Hsorted Hall]] Htotal. split; [exact Hsorted|].
  eapply Forall_impl; [|exact Hall]. simpl. intros; lia.
Qed.

Lemma flow_step_layout (page_num : Z) (st : list TextSegment.t * Z) (text : string) :
  flow_layout (fst st) (snd st) ->
  flow_layout (fst (DocumentProcessor.flow_step page_num st text))
              (snd (DocumentProcessor.flow_step page_num st text)).
Proof.
  destruct st as [segs off]. intro H. unfold DocumentProcessor.flow_step.
  destruct (Py.truthy text); [|exact H]. simpl in *.
  pose proof (len_nonneg text).
  eapply flow_layout_snoc; [exact H | reflexivity | simpl; lia | simpl; lia].
Qed.

Lemma txt_para_step_layout (st : list TextSegment.t * Z) (para : string) :
  flow_layout (fst st) (snd st) ->
  flow_layout (fst (DocumentProcessor.txt_para_step st para))
              (snd (DocumentProcessor.txt_para_step st para)).
Proof.
  destruct st as [segs off]. intro H. unfold DocumentProcessor.txt_para_step.
  destruct (Py.truthy (Py.strip para)); [|exact H]. simpl in *.
  pose proof (len_nonneg (Py.strip para)). pose proof (len_strip_le para).
  eapply flow_layout_snoc; [exact H | reflexivity | simpl; lia | simpl; lia].
Qed.

Lemma txt_para_step_offset (paras : list string) (st : list TextSegment.t * Z) :
  snd (fold_left DocumentProcessor.txt_para_step paras st)
  <= snd st + total_advance paras.
Proof.
  revert st. induction paras as [|p paras IH]; intros [segs off]; simpl; [lia|].
  etransitivity; [apply IH|].
  pose proof (len_nonneg p).
  unfold DocumentProcessor.txt_para_step.
  destruct (Py.truthy (Py.strip p)); simpl; lia.
Qed.

Lemma xlsx_sheet_step_layout (st : list TextSegment.t * Z)
    (numbered : Z * (string * list (list (option string)))) :
  flow_layout (fst st) (snd st) ->
  flow_layout (fst (DocumentProcessor.xlsx_sheet_step st numbered))
              (snd (DocumentProcessor.xlsx_sheet_step st numbered)).
Proof.
  destruct st as [segs off]. destruct numbered as [sheet_num [sheet_name sheet_rows]].
  intro H. unfold DocumentProcessor.xlsx_sheet_step.
  destruct (DocumentProcessor.kept_rows _) as [|row rows]; [exact H|].
  set (combined := Py.join Py.nl (row :: rows)). simpl fst in *. simpl snd in *.
  pose proof (len_nonneg combined).
  eapply flow_layout_snoc; [exact H | reflexivity | simpl; lia | simpl; lia].
Qed.

Lemma pdf_para_step_layout (page_num doc : Z) (box : Q * Q * Q * Q)
    (st : list TextSegment.t * Z) (para : string) :
  0 <= doc ->
  page_layout doc st ->
  page_layout doc (DocumentProcessor.pdf_para_step page_num doc box st para).
Proof.
  destruct st as [segs off]. intros Hdoc [Hoff [Hsorted Hall]]. simpl in *.
  pose proof (len_nonneg para) as Hlen.
  unfold DocumentProcessor.pdf_para_step, page_layout.
  destruct (Py.truthy (Py.strip para)); simpl.
  - split; [lia|]. split.
    + apply StronglySorted_snoc; [exact Hsorted|].
      eapply Forall_impl; [|exact Hall]. unfold ends_before. simpl. intros; lia.
    + apply Forall_app. split.
      * eapply Forall_impl; [|exact Hall]. simpl. intros; lia.
      * constructor; [simpl; lia | constructor].
  - split; [lia|]. split; [exact Hsorted|].
    eapply Forall_impl; [|exact Hall]. simpl. intros; lia.
Qed.

(** Across the pages of a PDF the character total and the document offset
    stay equal, and every segment ends at or before them. *)
Lemma pdf_page_step_layout (st : list TextSegment.t * Z * Z) (numbered : Z * PdfPage) :
  snd (fst st) = snd st /\ 0 <= snd st /\ layout (fst (fst st)) (snd st) ->
  let st' := DocumentProcessor.pdf_page_step st numbered in
  snd (fst st') = snd st' /\ 0 <= snd st' /\ layout (fst (fst st')) (snd st').
Proof.
  destruct st as [[segs total] doc]. destruct numbered as [page_num page].
  intros [Htotal [Hdoc [Hsorted Hall]]]. cbv zeta. simpl in Htotal, Hdoc, Hsorted, Hall.
  unfold DocumentProcessor.pdf_page_step.
  destruct (extract_text page) as [page_text|];
    [|simpl; repeat split; assumption].
  destruct (Py.truthy page_text); simpl negb; cbv iota;
    [|simpl; repeat split; assumption].
  set (step := DocumentProcessor.pdf_para_step page_num doc _).
  set (paras := Py.split page_text blank_line).
  assert (Hpage : page_layout doc (fold_left step paras (segs, 0))).
  { apply fold_left_invariant.
    - unfold page_layout. simpl. split; [lia | split; [exact Hsorted|]].
      eapply Forall_impl; [|exact Hall]. simpl. intros; lia.
    - intros st' x. now apply pdf_para_step_layout. }
  pose proof (pdf_para_step_offset page_num doc
                (0%Q, 0%Q, width page, height page) paras (segs, 0)) as Hoff.
  fold step in Hoff. unfold paras in Hoff at 2.
  rewrite total_advance_split in Hoff.
  destruct (fold_left step paras (segs, 0)) as [segs' off']. simpl in *.
  destruct Hpage as [_ [Hs Hb]]. pose proof (len_nonneg page_text).
  repeat split; try lia; [exact Hs|].
  eapply Forall_impl; [|exact Hb]. simpl. intros; lia.
Qed.

Lemma pdf_pages_layout (pages : list (Z * PdfPage)) :
  let st := fold_left DocumentProcessor.pdf_page_step pages ([], 0, 0) in
  layout (fst (fst st)) (snd (fst st)).
Proof.
  cbv zeta.
  assert (H : let st := fold_left DocumentProcessor.pdf_page_step pages ([], 0, 0) in
              snd (fst st) = snd st /\ 0 <= snd st /\ layout (fst (fst st)) (snd st)).
  { apply (fold_left_invariant DocumentProcessor.pdf_page_step
             (fun st => snd (fst st) = snd st /\ 0 <= snd st
                        /\ layout (fst (fst st)) (snd st))).
    - simpl. repeat split; try lia; constructor.
    - intros st x. apply pdf_page_step_layout. }
  cbv zeta in H. destruct H as [-> [_ H]]. exact H.
Qed.

(** *** What a successful extraction returns *)

Lemma extract_from_pdf_inv (w : World) (p : string)
    (segs : list TextSegment.t) (md : DocMetadata) :
  DocumentProcessor._extract_from_pdf w p = Py.Ok (segs, md)
  \/ PDFProcessor.extract_text_with_positions w p = Py.Ok (segs, md) ->
  exists pages,
    pdfplumber_open w p = Py.Ok pages
    /\ segs = fst (fst (fold_left DocumentProcessor.pdf_page_step
                          (Py.enumerate 1 pages) ([], 0, 0)))
    /\ total_chars md
       = snd (fst (fold_left DocumentProcessor.pdf_page_step
                     (Py.enumerate 1 pages) ([], 0, 0)))
    /\ page_count md = Z.of_nat (List.length pages).
Proof.
  unfold DocumentProcessor._extract_from_pdf, PDFProcessor.extract_text_with_positions.
  intros [H|H]; invert_ok H; exists a0;
    destruct (fold_left _ _ _) as [[s t] d]; injection H as <- <-;
    repeat split; reflexivity.
Qed.

Lemma extract_from_docx_inv (w : World) (p : string)
    (segs : list TextSegment.t) (md : DocMetadata) :
  DocumentProcessor._extract_from_docx w p = Py.Ok (segs, md) ->
  exists paragraphs,
    (segs, total_chars md)
    = fold_left (fun st paragraph => DocumentProcessor.flow_step 1 st (Py.strip paragraph))
        paragraphs ([], 0)
    /\ page_count md = 1.
Proof.
  unfold DocumentProcessor._extract_from_docx. intro H. invert_ok H. exists a0.
  destruct (fold_left _ _ _) as [s d]. injection H as <- <-. split; reflexivity.
Qed.

Lemma extract_from_text_inv (w : World) (p : string)
    (segs : list TextSegment.t) (md : DocMetadata) :
  DocumentProcessor._extract_from_txt w p = Py.Ok (segs, md)
  \/ DocumentProcessor._extract_from_markdown w p = Py.Ok (segs, md) ->
  exists content,
    segs = fst (fold_left DocumentProcessor.txt_para_step
                  (Py.split content blank_line) ([], 0))
    /\ total_chars md = Py.len content
    /\ page_count md = 1.
Proof.
  unfold DocumentProcessor._extract_from_txt, DocumentProcessor._extract_from_markdown.
  intros [H|H]; invert_ok H; exists a0;
    destruct (fold_left _ _ _) as [s d]; injection H as <- <-;
    repeat split; reflexivity.
Qed.

Lemma fold_left_ext {A B : Type} (f g : A -> B -> A) (xs : list B) (a : A) :
  (forall a' x, f a' x = g a' x) -> fold_left f xs a = fold_left g xs a.
Proof.
  intro H. revert a. induction xs as [|x xs IH]; intro a; simpl; [reflexivity|].
  now rewrite H, IH.
Qed.

Lemma extract_from_pptx_inv (w : World) (p : string)
    (segs : list TextSegment.t) (md : DocMetadata) :
  DocumentProcessor._extract_from_pptx w p = Py.Ok (segs, md) ->
  exists slides,
    (segs, total_chars md)
    = fold_left
        (fun st (numbered : Z * list (option string)) =>
           DocumentProcessor.flow_step (fst numbered) st
             (Py.strip (Py.join Py.nl (DocumentProcessor.shape_texts (snd numbered)))))
        (Py.enumerate 1 slides) ([], 0)
    /\ page_count md = Z.of_nat (List.length slides).
Proof.
  unfold DocumentProcessor._extract_from_pptx. intro H. invert_ok H. exists a0.
  rewrite (fold_left_ext _
             (fun st (numbered : Z * list (option string)) =>
                DocumentProcessor.flow_step (fst numbered) st
                  (Py.strip (Py.join Py.nl
                               (DocumentProcessor.shape_texts (snd numbered))))))
    in H by (intros st [n shapes]; reflexivity).
  destruct (fold_left _ _ _) as [s d]. injection H as <- <-. split; reflexivity.
Qed.

Lemma extract_from_excel_inv (w : World) (p : string)
    (segs : list TextSegment.t) (md : DocMetadata) :
  DocumentProcessor._extract_from_excel w p = Py.Ok (segs, md) ->
  (exists sheets,
      Py.lower (DocumentProcessor.suffix p) = ".xlsx"
      /\ (segs, total_chars md)
         = fold_left DocumentProcessor.xlsx_sheet_step (Py.enumerate 1 sheets) ([], 0)
      /\ page_count md = Z.of_nat (List.length sheets))
  \/ (exists all_rows,
         Py.lower (DocumentProcessor.suffix p) = ".csv"
         /\ csv_rows w p = Py.Ok all_rows
         /\ segs
            = match DocumentProcessor.kept_rows (map (Py.join " | ") all_rows) with
              | [] => []
              | row :: rows =>
                  [TextSegment.mk (Py.join Py.nl (row :: rows)) 1 0
                     (Py.len (Py.join Py.nl (row :: rows))) zero_bbox]
              end
         /\ total_chars md = 0 /\ page_count md = 1)
  \/ (segs = [] /\ total_chars md = 0 /\ page_count md = 0).
Proof.
  unfold DocumentProcessor._extract_from_excel. intro H. invert_ok H.
  destruct (String.eqb _ ".xlsx") eqn:X.
  - left. invert_ok H. exists a0. apply String.eqb_eq in X.
    destruct (fold_left _ _ _) as [s d]. injection H as <- <-.
    repeat split; auto.
  - destruct (String.eqb _ ".csv") eqn:C.
    + right. left. invert_ok H. exists a0. apply String.eqb_eq in C.
      injection H as <- <-. repeat split; try assumption.
      destruct (DocumentProcessor.kept_rows _); reflexivity.
    + right. right. injection H as <- <-. repeat split.
Qed.

Lemma extract_from_html_inv (w : World) (p : string)
    (segs : list TextSegment.t) (md : DocMetadata) :
  DocumentProcessor._extract_from_html w p = Py.Ok (segs, md) ->
  exists text_parts,
    (segs, total_chars md)
    = fold_left (DocumentProcessor.flow_step 1) text_parts ([], 0)
    /\ page_count md = 1.
Proof.
  unfold DocumentProcessor._extract_from_html. intro H. invert_ok H.
  destruct (fold_left DocumentProcessor.html_event_step _ _) as [parts flag].
  exists parts. destruct (fold_left _ _ _) as [s d]. injection H as <- <-.
  split; reflexivity.
Qed.

(** The dispatcher returns what one of the seven routines returns. *)
Lemma dispatch_cases (w : World) (p : string)
    (r : list TextSegment.t * DocMetadata) :
  DocumentProcessor.extract_text_with_positions w p = Py.Ok r ->
  DocumentProcessor._extract_from_pdf w p = Py.Ok r
  \/ DocumentProcessor._extract_from_docx w p = Py.Ok r
  \/ DocumentProcessor._extract_from_txt w p = Py.Ok r
  \/ DocumentProcessor._extract_from_markdown w p = Py.Ok r
  \/ DocumentProcessor._extract_from_pptx w p = Py.Ok r
  \/ DocumentProcessor._extract_from_excel w p = Py.Ok r
  \/ DocumentProcessor._extract_from_html w p = Py.Ok r.
Proof.
  unfold DocumentProcessor.extract_text_with_positions.
  repeat match goal with
         | |- (if ?c then _ else _) = _ -> _ => destruct c
         end; try tauto.
  discriminate.
Qed.

Lemma flow_fold_layout {X : Type} (f : list TextSegment.t * Z -> X -> list TextSegment.t * Z)
    (xs : list X) (segs : list TextSegment.t) (total : Z) :
  (forall st x, flow_layout (fst st) (snd st) -> flow_layout (fst (f st x)) (snd (f st x))) ->
  (segs, total) = fold_left f xs ([], 0) ->
  layout segs total.
Proof.
  intros Hstep E.
  assert (H : flow_layout (fst (fold_left f xs ([], 0))) (snd (fold_left f xs ([], 0)))).
  { apply (fold_left_invariant f (fun st => flow_layout (fst st) (snd st)));
      [apply flow_layout_nil | exact Hstep]. }
  rewrite <- E in H. simpl in H. eapply flow_layout_layout; [exact H | lia].
Qed.

Lemma extraction_layout (w : World) (p : string)
    (segs : list TextSegment.t) (md : DocMetadata) :
  DocumentProcessor._extract_from_pdf w p = Py.Ok (segs, md)
  \/ PDFProcessor.extract_text_with_positions w p = Py.Ok (segs, md)
  \/ DocumentProcessor._extract_from_docx w p = Py.Ok (segs, md)
  \/ DocumentProcessor._extract_from_txt w p = Py.Ok (segs, md)
  \/ DocumentProcessor._extract_from_markdown w p = Py.Ok (segs, md)
  \/ DocumentProcessor._extract_from_pptx w p = Py.Ok (segs, md)
  \/ DocumentProcessor._extract_from_excel w p = Py.Ok (segs, md)
  \/ DocumentProcessor._extract_from_html w p = Py.Ok (segs, md) ->
  exists total,
    layout segs total
    /\ (Py.lower (DocumentProcessor.suffix p) <> ".csv" -> total = total_chars md).
Proof.
  intros [H|[H|[H|[H|[H|[H|[H|H]]]]]]].
  - destruct (extract_from_pdf_inv w p segs md (or_introl H)) as [pages [_ [-> [-> _]]]].
    eexists. split; [apply pdf_pages_layout | reflexivity].
  - destruct (extract_from_pdf_inv w p segs md (or_intror H)) as [pages [_ [-> [-> _]]]].
    eexists. split; [apply pdf_pages_layout | reflexivity].
  - destruct (extract_from_docx_inv w p segs md H) as [paragraphs [E _]].
    eexists. split; [|reflexivity].
    eapply flow_fold_layout; [|exact E]. intros st x. apply flow_step_layout.
  - destruct (extract_from_text_inv w p segs md (or_introl H)) as [content [-> [-> _]]].
    eexists. split; [|reflexivity].
    pose proof (txt_para_step_offset (Py.split content blank_line) ([], 0)) as Hoff.
    rewrite total_advance_split in Hoff. simpl in Hoff.
    eapply flow_layout_layout; [|exact Hoff].
    apply (fold_left_invariant _ (fun st => flow_layout (fst st) (snd st)));
      [apply flow_layout_nil | intros st x; apply txt_para_step_layout].
  - destruct (extract_from_text_inv w p segs md (or_intror H)) as [content [-> [-> _]]].
    eexists. split; [|reflexivity].
    pose proof (txt_para_step_offset (Py.split content blank_line) ([], 0)) as Hoff.
    rewrite total_advance_split in Hoff. simpl in Hoff.
    eapply flow_layout_layout; [|exact Hoff].
    apply (fold_left_invariant _ (fun st => flow_layout (fst st) (snd st)));
      [apply flow_layout_nil | intros st x; apply txt_para_step_layout].
  - destruct (extract_from_pptx_inv w p segs md H) as [slides [E _]].
    eexists. split; [|reflexivity].
    eapply flow_fold_layout; [|exact E]. intros st x. apply flow_step_layout.
  - destruct (extract_from_excel_inv w p segs md H)
      as [[sheets [_ [E _]]] | [[rows [Hext [_ [-> _]]]] | [-> [-> _]]]].
    + eexists. split; [|reflexivity].
      eapply flow_fold_layout; [|exact E]. intros st x. apply xlsx_sheet_step_layout.
    + destruct (DocumentProcessor.kept_rows _) as [|row rest].
      * exists 0. split; [split; constructor | congruence].
      * exists (Py.len (Py.join Py.nl (row :: rest))).
        split; [|congruence]. split; [repeat constructor|].
        constructor; [|constructor].
        pose proof (len_nonneg (Py.join Py.nl (row :: rest))).
        cbn [TextSegment.char_start TextSegment.char_end]. lia.
    + exists 0. split; [split; constructor | reflexivity].
  - destruct (extract_from_html_inv w p segs md H) as [parts [E _]].
    eexists. split; [|reflexivity].
    eapply flow_fold_layout; [|exact E]. intros st x. apply flow_step_layout.
Qed.

Lemma routine_cases (routine : World -> string -> Py.result (list TextSegment.t * DocMetadata))
    (w : World) (p : string) (segs : list TextSegment.t) (md : DocMetadata) :
  In routine extractor_routines ->
  routine w p = Py.Ok (segs, md) ->
  DocumentProcessor._extract_from_pdf w p = Py.Ok (segs, md)
  \/ PDFProcessor.extract_text_with_positions w p = Py.Ok (segs, md)
  \/ DocumentProcessor._extract_from_docx w p = Py.Ok (segs, md)
  \/ DocumentProcessor._extract_from_txt w p = Py.Ok (segs, md)
  \/ DocumentProcessor._extract_from_markdown w p = Py.Ok (segs, md)
  \/ DocumentProcessor._extract_from_pptx w p = Py.Ok (segs, md)
  \/ DocumentProcessor._extract_from_excel w p = Py.Ok (segs, md)
  \/ DocumentProcessor._extract_from_html w p = Py.Ok (segs, md).
Proof.
  intros Hin H. simpl in Hin.
  repeat (destruct Hin as [<-|Hin]; [try tauto|]); [|contradiction].
  apply dispatch_cases in H. tauto.
Qed.

(** X1.  The segments of one document never overlap: in the list that a
    routine returns, every segment ends at or before the start of every
    later one. *)
Theorem extracted_segments_do_not_overlap :
  forall routine, In routine extractor_routines ->
  forall (w : World) (file_path : string)
         (segs : list TextSegment.t) (md : DocMetadata),
    routine w file_path = Py.Ok (segs, md) ->
    StronglySorted
      (fun a b => TextSegment.char_end a <= TextSegment.char_start b) segs.
Proof.
  intros routine Hin w p segs md H.
  destruct (extraction_layout w p segs md (routine_cases routine w p segs md Hin H))
    as [total [[Hsorted _] _]].
  exact Hsorted.
Qed.

(** X2.  Except for a CSV file, every segment lies between 0 and the
    [total_chars] of the metadata returned with it. *)
Theorem extracted_segments_lie_within_total_chars :
  forall routine, In routine extractor_routines ->
  forall (w : World) (file_path : string)
         (segs : list TextSegment.t) (md : DocMetadata),
    routine w file_path = Py.Ok (segs, md) ->
    Py.lower (DocumentProcessor.suffix file_path) <> ".csv" ->
    Forall
      (fun s =>
         0 <= TextSegment.char_start s
         /\ TextSegment.char_end s <= total_chars md)
      segs.
Proof.
  intros routine Hin w p segs md H Hext.
  destruct (extraction_layout w p segs md (routine_cases routine w p segs md Hin H))
    as [total [[_ Hall] Htotal]].
  rewrite <- (Htotal Hext).
  eapply Forall_impl; [|exact Hall]. simpl. intros; lia.
Qed.

(** ** Spans and stored text *)

Lemma flow_step_forall (P : TextSegment.t -> Prop) (page_num : Z)
    (st : list TextSegment.t * Z) (text : string) :
  (forall offset,
      P (TextSegment.mk text page_num offset (offset + Py.len text) zero_bbox)) ->
  Forall P (fst st) ->
  Forall P (fst (DocumentProcessor.flow_step page_num st text)).
Proof.
  destruct st as [segs off]. intros Hnew H. unfold DocumentProcessor.flow_step.
  destruct (Py.truthy text); [|exact H]. simpl.
  apply Forall_app. split; [exact H | constructor; [apply Hnew | constructor]].
Qed.

Lemma txt_para_step_forall (P : TextSegment.t -> Prop)
    (st : list TextSegment.t * Z) (para : string) :
  (forall offset,
      P (TextSegment.mk (Py.strip para) 1 offset
           (offset + Py.len (Py.strip para)) zero_bbox)) ->
  Forall P (fst st) ->
  Forall P (fst (DocumentProcessor.txt_para_step st para)).
Proof.
  destruct st as [segs off]. intros Hnew H. unfold DocumentProcessor.txt_para_step.
  destruct (Py.truthy (Py.strip para)); [|exact H]. simpl.
  apply Forall_app. split; [exact H | constructor; [apply Hnew | constructor]].
Qed.

Lemma pdf_para_step_forall (P : TextSegment.t -> Prop) (page_num doc : Z)
    (box : Q * Q * Q * Q) (st : list TextSegment.t * Z) (para : string) :
  (forall start,
      P (TextSegment.mk (Py.strip para) page_num start (start + Py.len para) box)) ->
  Forall P (fst st) ->
  Forall P (fst (DocumentProcessor.pdf_para_step page_num doc box st para)).
Proof.
  destruct st as [segs off]. intros Hnew H. unfold DocumentProcessor.pdf_para_step.
  destruct (Py.truthy (Py.strip para)); [|exact H]. simpl.
  apply Forall_app. split; [exact H | constructor; [apply Hnew | constructor]].
Qed.

Lemma pdf_page_step_forall (P : TextSegment.t -> Prop)
    (st : list TextSegment.t * Z * Z) (numbered : Z * PdfPage) :
  (forall para start box,
      P (TextSegment.mk (Py.strip para) (fst numbered) start
           (start + Py.len para) box)) ->
  Forall P (fst (fst st)) ->
  Forall P (fst (fst (DocumentProcessor.pdf_page_step st numbered))).
Proof.
  destruct st as [[segs total] doc]. destruct numbered as [page_num page].
  intros Hnew H. unfold DocumentProcessor.pdf_page_step.
  destruct (extract_text page) as [page_text|]; [|exact H].
  destruct (Py.truthy page_text); simpl negb; cbv iota; [|exact H].
  match goal with
  | |- context [fold_left ?f ?l ?i] =>
      assert (Hfold : Forall P (fst (fold_left f l i)))
  end.
  { apply (fold_left_invariant _ (fun st => Forall P (fst st))); [exact H|].
    intros st' para. apply pdf_para_step_forall. intro start. apply Hnew. }
  destruct (fold_left _ _ _) as [segs' off']. exact Hfold.
Qed.

(** X3.  In a segment of a DOCX, text, Markdown, PPTX or HTML file the
    span is exactly as long as the stored text. *)
Theorem flow_segments_span_their_text :
  forall routine, In routine exact_span_routines ->
  forall (w : World) (file_path : string)
         (segs : list TextSegment.t) (md : DocMetadata),
    routine w file_path = Py.Ok (segs, md) ->
    Forall
      (fun s =>
         TextSegment.char_end s - TextSegment.char_start s
         = Py.len (TextSegment.text s))
      segs.
Proof.
  intros routine Hin w p segs md H. change (Forall segment_exact segs).
  assert (Hflow : forall page_num st text,
             Forall segment_exact (fst st) ->
             Forall segment_exact (fst (DocumentProcessor.flow_step page_num st text))).
  { intros page_num st text. apply flow_step_forall.
    intro offset. unfold segment_exact. simpl. lia. }
  assert (Htext : forall content,
             Forall segment_exact
               (fst (fold_left DocumentProcessor.txt_para_step
                       (Py.split content blank_line) ([], 0)))).
  { intro content.
    apply (fold_left_invariant _ (fun st => Forall segment_exact (fst st)));
      [constructor|].
    intros st para. apply txt_para_step_forall.
    intro offset. unfold segment_exact. simpl. lia. }
  simpl in Hin. destruct Hin as [<-|[<-|[<-|[<-|[<-|[]]]]]].
  - destruct (extract_from_docx_inv w p segs md H) as [paragraphs [E _]].
    change segs with (fst (segs, total_chars md)). rewrite E.
    apply (fold_left_invariant _ (fun st => Forall segment_exact (fst st)));
      [constructor | intros st x; apply Hflow].
  - destruct (extract_from_text_inv w p segs md (or_introl H)) as [content [-> _]].
    apply Htext.
  - destruct (extract_from_text_inv w p segs md (or_intror H)) as [content [-> _]].
    apply Htext.
  - destruct (extract_from_pptx_inv w p segs md H) as [slides [E _]].
    change segs with (fst (segs, total_chars md)). rewrite E.
    apply (fold_left_invariant _ (fun st => Forall segment_exact (fst st)));
      [constructor | intros st x; apply Hflow].
  - destruct (extract_from_html_inv w p segs md H) as [parts [E _]].
    change segs with (fst (segs, total_chars md)). rewrite E.
    apply (fold_left_invariant _ (fun st => Forall segment_exact (fst st)));
      [constructor | intros st x; apply Hflow].
Qed.

Lemma pdf_page_step_paragraphs (pages : list PdfPage)
    (st : list TextSegment.t * Z * Z) (numbered : Z * PdfPage) :
  In numbered (Py.enumerate 1 pages) ->
  Forall (pdf_segment_of pages) (fst (fst st)) ->
  Forall (pdf_segment_of pages)
    (fst (fst (DocumentProcessor.pdf_page_step st numbered))).
Proof.
  destruct st as [[segs total] doc]. destruct numbered as [page_num page].
  intros Hpage H. unfold DocumentProcessor.pdf_page_step.
  destruct (extract_text page) as [page_text|] eqn:Etext; [|exact H].
  destruct (Py.truthy page_text); simpl negb; cbv iota; [|exact H].
  match goal with
  | |- context [fold_left ?f ?l ?i] =>
      assert (Hfold : Forall (pdf_segment_of pages) (fst (fold_left f l i)))
  end.
  { apply (fold_left_invariant_in _
             (fun st => Forall (pdf_segment_of pages) (fst st))); [exact H|].
    intros [segs' offset] para Hpara Hsegs.
    unfold DocumentProcessor.pdf_para_step.
    destruct (Py.truthy (Py.strip para)); [|exact Hsegs].
    cbn [fst] in *. apply Forall_app. split; [exact Hsegs|].
    constructor; [|constructor].
    exists page_num, page, page_text, para.
    cbn [TextSegment.text TextSegment.page_number TextSegment.char_start
         TextSegment.char_end].
    repeat split; try assumption. lia. }
  destruct (fold_left _ _ _) as [segs' off']. exact Hfold.
Qed.

(** X4.  In a segment of a PDF the span is the length of the paragraph
    before trimming: the segment comes from a paragraph of a page of the
    file, its text is that paragraph trimmed, and its span is the length
    of the paragraph as it was cut from the page text.  So the span is at
    least as long as the stored text. *)
Theorem pdf_segments_span_the_untrimmed_paragraph :
  forall routine, In routine pdf_routines ->
  forall (w : World) (pdf_path : string)
         (segs : list TextSegment.t) (md : DocMetadata),
    routine w pdf_path = Py.Ok (segs, md) ->
    exists pages,
      pdfplumber_open w pdf_path = Py.Ok pages
      /\ Forall
           (fun s =>
              pdf_segment_of pages s
              /\ Py.len (TextSegment.text s)
                 <= TextSegment.char_end s - TextSegment.char_start s)
           segs.
Proof.
  intros routine Hin w p segs md H.
  assert (Hcase : DocumentProcessor._extract_from_pdf w p = Py.Ok (segs, md)
                  \/ PDFProcessor.extract_text_with_positions w p = Py.Ok (segs, md)).
  { simpl in Hin. destruct Hin as [<-|[<-|[]]]; tauto. }
  destruct (extract_from_pdf_inv w p segs md Hcase) as [pages [Hopen [-> _]]].
  exists pages. split; [exact Hopen|].
  assert (Hall : Forall (pdf_segment_of pages)
                   (fst (fst (fold_left DocumentProcessor.pdf_page_step
                                (Py.enumerate 1 pages) ([], 0, 0))))).
  { apply (fold_left_invariant_in _
             (fun st => Forall (pdf_segment_of pages) (fst (fst st))));
      [constructor|].
    intros st numbered Hnum. now apply pdf_page_step_paragraphs. }
  eapply Forall_impl; [|exact Hall].
  intros s Hs. split; [exact Hs|].
  destruct Hs as [page_num [page [page_text [para [_ [_ [_ [-> [_ ->]]]]]]]]].
  apply len_strip_le.
Qed.


(** X6.  A CSV file gives at most one segment.  The segment is on page 1,
    starts at 0 and spans its text, while the metadata reports a
    [total_chars] of 0. *)
Theorem csv_gives_one_segment_and_no_total (w : World) (csv_path : string)
    (segs : list TextSegment.t) (md : DocMetadata) :
  Py.lower (DocumentProcessor.suffix csv_path) = ".csv" ->
  DocumentProcessor._extract_from_excel w csv_path = Py.Ok (segs, md) ->
  total_chars md = 0
  /\ page_count md = 1
  /\ (segs = []
      \/ exists s,
           segs = [s]
           /\ TextSegment.page_number s = 1
           /\ TextSegment.char_start s = 0
           /\ TextSegment.char_end s = Py.len (TextSegment.text s)
           /\ 0 < TextSegment.char_end s).
Proof.
  intros Hext H.
  destruct (extract_from_excel_inv w csv_path segs md H)
    as [[sheets [Hx _]] | [[rows [_ [_ [-> [-> ->]]]]] | [_ [_ Hp]]]].
  - rewrite Hext in Hx. discriminate Hx.
  - split; [reflexivity|]. split; [reflexivity|].
    pose proof (kept_rows_nonblank (map (Py.join " | ") rows)) as Hrows.
    destruct (DocumentProcessor.kept_rows _) as [|row rest]; [now left|].
    right. eexists. split; [reflexivity|].
    cbn [TextSegment.page_number TextSegment.char_start TextSegment.char_end
         TextSegment.text].
    repeat split.
    inversion Hrows as [|? ? Hrow _]; subst.
    pose proof (join_nonblank Py.nl row rest Hrow) as Hnb.
    destruct (Py.join Py.nl (row :: rest)); [discriminate Hnb|].
    unfold Py.len. simpl String.length. lia.
  - exfalso. revert H. unfold DocumentProcessor._extract_from_excel.
    rewrite Hext. simpl. intro H. invert_ok H. injection H as _ <-.
    simpl in Hp. discriminate Hp.
Qed.

(** ** Page numbers *)

Lemma same_page_sorted (n : Z) (segs : list TextSegment.t) :
  Forall (fun s => TextSegment.page_number s = n) segs ->
  StronglySorted page_le segs.
Proof.
  induction 1 as [|s segs Hs Hall IH]; constructor; [exact IH|].
  eapply Forall_impl; [|exact Hall]. unfold page_le. simpl. intros; lia.
Qed.

Lemma pages_within_mono (lo hi hi' : Z) (segs : list TextSegment.t) :
  hi <= hi' -> pages_within lo hi segs -> pages_within lo hi' segs.
Proof.
  intros Hle [Hs Hall]. split; [exact Hs|].
  eapply Forall_impl; [|exact Hall]. simpl. intros; lia.
Qed.

Lemma pages_within_app (lo hi n : Z) (old new_total : list TextSegment.t) :
  pages_within lo hi old -> lo <= n -> hi <= n ->
  appends_page n old new_total -> pages_within lo n new_total.
Proof.
  intros [Hs Hall] Hlo Hhi [added [-> Hadded]]. split.
  - apply StronglySorted_app; [exact Hs | now apply same_page_sorted with (n := n)|].
    intros x y Hx Hy. rewrite Forall_forall in Hall, Hadded.
    specialize (Hall x Hx). specialize (Hadded y Hy). unfold page_le. simpl in *. lia.
  - apply Forall_app. split.
    + eapply Forall_impl; [|exact Hall]. simpl. intros; lia.
    + eapply Forall_impl; [|exact Hadded]. simpl. intros; lia.
Qed.

Lemma appends_page_refl (n : Z) (segs : list TextSegment.t) :
  appends_page n segs segs.
Proof. exists []. split; [now rewrite app_nil_r | constructor]. Qed.

(** A loop over numbered units that appends to the segments only
    segments of the unit's number keeps page numbers in order and within
    the numbers seen. *)
Lemma enumerate_fold_pages {S X : Type} (f : S -> Z * X -> S)
    (segs_of : S -> list TextSegment.t) (lo : Z) :
  (forall st n x, appends_page n (segs_of st) (segs_of (f st (n, x)))) ->
  forall (xs : list X) (start : Z) (st : S),
    lo <= start ->
    pages_within lo (start - 1) (segs_of st) ->
    pages_within lo (start + Z.of_nat (List.length xs) - 1)
      (segs_of (fold_left f (Py.enumerate start xs) st)).
Proof.
  intros Hstep xs. induction xs as [|x xs IH]; intros start st Hlo Hst.
  - simpl. replace (start + 0 - 1) with (start - 1) by lia. exact Hst.
  - cbn [Py.enumerate fold_left].
    replace (start + Z.of_nat (List.length (x :: xs)) - 1)
      with ((start + 1) + Z.of_nat (List.length xs) - 1)
      by (cbn [List.length]; lia).
    apply IH; [lia|].
    replace (start + 1 - 1) with start by lia.
    eapply pages_within_app; [exact Hst | lia | lia | apply Hstep].
Qed.

Lemma flow_step_appends_page (page_num : Z) (st : list TextSegment.t * Z)
    (text : string) :
  appends_page page_num (fst st) (fst (DocumentProcessor.flow_step page_num st text)).
Proof.
  destruct st as [segs off]. unfold DocumentProcessor.flow_step.
  destruct (Py.truthy text); [|apply appends_page_refl].
  eexists. split; [reflexivity | repeat constructor].
Qed.

Lemma pdf_paragraphs_append_page (page_num doc : Z) (box : Q * Q * Q * Q)
    (paras : list string) (st : list TextSegment.t * Z) :
  appends_page page_num (fst st)
    (fst (fold_left (DocumentProcessor.pdf_para_step page_num doc box) paras st)).
Proof.
  revert st. induction paras as [|para paras IH]; intros [segs off];
    cbn [fold_left]; [apply appends_page_refl|].
  destruct (IH (DocumentProcessor.pdf_para_step page_num doc box (segs, off) para))
    as [added [E Hadded]].
  rewrite E. clear E. unfold DocumentProcessor.pdf_para_step.
  destruct (Py.truthy (Py.strip para)); cbn [fst].
  - eexists. rewrite <- app_assoc. split; [reflexivity|].
    constructor; [reflexivity | exact Hadded].
  - exists added. split; [reflexivity | exact Hadded].
Qed.

Lemma pdf_page_step_appends_page (st : list TextSegment.t * Z * Z)
    (page_num : Z) (page : PdfPage) :
  appends_page page_num (fst (fst st))
    (fst (fst (DocumentProcessor.pdf_page_step st (page_num, page)))).
Proof.
  destruct st as [[segs total] doc]. unfold DocumentProcessor.pdf_page_step.
  destruct (extract_text page) as [page_text|]; [|apply appends_page_refl].
  destruct (Py.truthy page_text); simpl negb; cbv iota; [|apply appends_page_refl].
  match goal with
  | |- context [fold_left ?f ?l ?i] =>
      pose proof (pdf_paragraphs_append_page page_num doc
                    (0%Q, 0%Q, width page, height page) l i) as H
  end.
  destruct (fold_left _ _ _) as [segs' off']. exact H.
Qed.

Lemma xlsx_sheet_step_appends_page (st : list TextSegment.t * Z) (sheet_num : Z)
    (sheet : string * list (list (option string))) :
  appends_page sheet_num (fst st)
    (fst (DocumentProcessor.xlsx_sheet_step st (sheet_num, sheet))).
Proof.
  destruct st as [segs off]. destruct sheet as [sheet_name sheet_rows].
  unfold DocumentProcessor.xlsx_sheet_step.
  destruct (DocumentProcessor.kept_rows _); [apply appends_page_refl|].
  eexists. split; [reflexivity | repeat constructor].
Qed.

Lemma first_page_only {X : Type}
    (f : list TextSegment.t * Z -> X -> list TextSegment.t * Z) (xs : list X) :
  (forall st x, appends_page 1 (fst st) (fst (f st x))) ->
  pages_within 1 1 (fst (fold_left f xs ([], 0))).
Proof.
  intro Hstep.
  apply (fold_left_invariant f (fun st => pages_within 1 1 (fst st))).
  - split; constructor.
  - intros st x Hst. eapply pages_within_app; [exact Hst | lia | lia | apply Hstep].
Qed.

Lemma txt_para_step_appends_page (st : list TextSegment.t * Z) (para : string) :
  appends_page 1 (fst st) (fst (DocumentProcessor.txt_para_step st para)).
Proof.
  destruct st as [segs off]. unfold DocumentProcessor.txt_para_step.
  destruct (Py.truthy (Py.strip para)); [|apply appends_page_refl].
  eexists. split; [reflexivity | repeat constructor].
Qed.

(** X7.  The page number of every segment lies between 1 and the
    [page_count] of the metadata returned with it, and page numbers never
    decrease along the list. *)
Theorem page_numbers_are_ordered_and_within_page_count :
  forall routine, In routine extractor_routines ->
  forall (w : World) (file_path : string)
         (segs : list TextSegment.t) (md : DocMetadata),
    routine w file_path = Py.Ok (segs, md) ->
    StronglySorted
      (fun a b => TextSegment.page_number a <= TextSegment.page_number b) segs
    /\ Forall (fun s => 1 <= TextSegment.page_number s <= page_count md) segs.
Proof.
  intros routine Hin w p segs md H.
  change (pages_within 1 (page_count md) segs).
  destruct (routine_cases routine w p segs md Hin H)
    as [H'|[H'|[H'|[H'|[H'|[H'|[H'|H']]]]]]].
  - destruct (extract_from_pdf_inv w p segs md (or_introl H')) as [pages [_ [-> [_ ->]]]].
    replace (Z.of_nat (List.length pages))
      with (1 + Z.of_nat (List.length pages) - 1) by lia.
    apply (enumerate_fold_pages DocumentProcessor.pdf_page_step
             (fun st => fst (fst st)) 1); [|lia|split; constructor].
    intros st n x. apply pdf_page_step_appends_page.
  - destruct (extract_from_pdf_inv w p segs md (or_intror H')) as [pages [_ [-> [_ ->]]]].
    replace (Z.of_nat (List.length pages))
      with (1 + Z.of_nat (List.length pages) - 1) by lia.
    apply (enumerate_fold_pages DocumentProcessor.pdf_page_step
             (fun st => fst (fst st)) 1); [|lia|split; constructor].
    intros st n x. apply pdf_page_step_appends_page.
  - destruct (extract_from_docx_inv w p segs md H') as [paragraphs [E ->]].
    change segs with (fst (segs, total_chars md)). rewrite E.
    apply first_page_only. intros st x. apply flow_step_appends_page.
  - destruct (extract_from_text_inv w p segs md (or_introl H')) as [content [-> [_ ->]]].
    apply first_page_only. intros st x. apply txt_para_step_appends_page.
  - destruct (extract_from_text_inv w p segs md (or_intror H')) as [content [-> [_ ->]]].
    apply first_page_only. intros st x. apply txt_para_step_appends_page.
  - destruct (extract_from_pptx_inv w p segs md H') as [slides [E ->]].
    change segs with (fst (segs, total_chars md)). rewrite E.
    replace (Z.of_nat (List.length slides))
      with (1 + Z.of_nat (List.length slides) - 1) by lia.
    apply (enumerate_fold_pages _ (fun st => fst st) 1); [|lia|split; constructor].
    intros st n x. apply flow_step_appends_page.
  - destruct (extract_from_excel_inv w p segs md H')
      as [[sheets [_ [E ->]]] | [[rows [_ [_ [-> [_ ->]]]]] | [-> _]]].
    + change segs with (fst (segs, total_chars md)). rewrite E.
      replace (Z.of_nat (List.length sheets))
        with (1 + Z.of_nat (List.length sheets) - 1) by lia.
      apply (enumerate_fold_pages _ (fun st => fst st) 1); [|lia|split; constructor].
      intros st n x. apply xlsx_sheet_step_appends_page.
    + destruct (DocumentProcessor.kept_rows _); split; repeat constructor;
        simpl; lia.
    + split; constructor.
  - destruct (extract_from_html_inv w p segs md H') as [parts [E ->]].
    change segs with (fst (segs, total_chars md)). rewrite E.
    apply first_page_only. intros st x. apply flow_step_appends_page.
Qed.

(** ** Validation *)

(** X8.  [validate_document] accepts a file exactly when the extraction
    succeeds with at least one segment; it needs no separate test of the
    format, because the extraction of a file outside the supported set
    fails. *)
Theorem validate_document_iff_some_segment (w : World) (file_path : string) :
  DocumentProcessor.validate_document w file_path = true
  <-> exists segs md,
        DocumentProcessor.extract_text_with_positions w file_path = Py.Ok (segs, md)
        /\ segs <> [].
Proof.
  unfold DocumentProcessor.validate_document. split.
  - destruct (DocumentProcessor.is_supported file_path); simpl; [|discriminate].
    destruct (DocumentProcessor.extract_text_with_positions w file_path)
      as [[segs md]|e]; [|discriminate].
    intro H. exists segs, md. split; [reflexivity|].
    intros ->. discriminate H.
  - intros [segs [md [H Hne]]].
    destruct (DocumentProcessor.is_supported file_path) eqn:S.
    + simpl. rewrite H. destruct segs; [contradiction | reflexivity].
    + rewrite (unsupported_is_rejected w file_path S) in H. discriminate H.
Qed.

(** X9.  The page count returned with the segments of a PDF is the one
    [get_page_count] reports, a PDF that gave a segment passes
    [validate_pdf], and [validate_pdf] holds exactly when the page count
    is positive. *)
Theorem pdf_page_count_and_validation :
  forall routine, In routine pdf_routines ->
  forall (w : World) (pdf_path : string)
         (segs : list TextSegment.t) (md : DocMetadata),
    routine w pdf_path = Py.Ok (segs, md) ->
    page_count md = PDFProcessor.get_page_count w pdf_path
    /\ (segs <> [] -> PDFProcessor.validate_pdf w pdf_path = true)
    /\ (PDFProcessor.validate_pdf w pdf_path = true
        <-> 0 < PDFProcessor.get_page_count w pdf_path).
Proof.
  intros routine Hin w p segs md H.
  assert (Hcase : DocumentProcessor._extract_from_pdf w p = Py.Ok (segs, md)
                  \/ PDFProcessor.extract_text_with_positions w p = Py.Ok (segs, md)).
  { simpl in Hin. destruct Hin as [<-|[<-|[]]]; tauto. }
  destruct (extract_from_pdf_inv w p segs md Hcase) as [pages [Hopen [-> [_ ->]]]].
  unfold PDFProcessor.get_page_count, PDFProcessor.validate_pdf. rewrite Hopen.
  split; [reflexivity|]. split; [|apply Z.ltb_lt].
  destruct pages as [|page pages]; [intro Hne; now elim Hne | reflexivity].
Qed.

(** ** Chunks and their segments *)

Lemma find_nonneg (s sub : string) : Py.find s sub = -1 \/ 0 <= Py.find s sub.
Proof. unfold Py.find. destruct (String.index 0 sub s); [right; lia | now left]. Qed.

Lemma next_cursor_ge (segment : TextSegment.t) (cursor : Z) (chunk_text : string) :
  cursor + Py.len chunk_text <= next_cursor segment cursor chunk_text.
Proof.
  unfold next_cursor.
  destruct (find_nonneg (Py.slice_from (TextSegment.text segment) cursor) chunk_text)
    as [->|H]; [simpl; lia|].
  destruct (_ =? -1); lia.
Qed.

(** The inner loop appends one block to the chunks it is given. *)
Lemma chunk_loop_block (document_id filename : string) (segment : TextSegment.t)
    (pieces : list string) :
  forall (acc : list DocumentChunk.t) (index cursor : Z),
    0 <= cursor ->
    exists block cursor',
      fold_left (IntelligentChunker.chunk_step document_id filename segment)
        pieces (acc, index, cursor)
      = ((acc ++ block)%list, index + Z.of_nat (List.length pieces), cursor')
      /\ map DocumentChunk.text block = pieces
      /\ Forall
           (fun c =>
              DocumentChunk.page_number c = TextSegment.page_number segment
              /\ DocumentChunk.document_id c = document_id
              /\ TextSegment.char_start segment + cursor <= DocumentChunk.char_start c)
           block
      /\ StronglySorted chunk_ends_before block.
Proof.
  induction pieces as [|p pieces IH]; intros acc index cursor Hcur.
  - exists [], cursor. simpl. rewrite app_nil_r, Z.add_0_r.
    repeat split; constructor.
  - cbn [fold_left]. rewrite chunk_step_eq.
    pose proof (next_cursor_ge segment cursor p) as Hnext.
    pose proof (len_nonneg p) as Hlen.
    destruct (IH (acc ++ [emitted_chunk document_id filename segment index cursor p])%list
                (index + 1) (next_cursor segment cursor p) ltac:(lia))
      as [block [cursor' [E [Htexts [Hall Hsorted]]]]].
    exists (emitted_chunk document_id filename segment index cursor p :: block), cursor'.
    rewrite E, <- app_assoc. cbn [app List.length map].
    split; [f_equal; f_equal; lia|]. split; [now rewrite Htexts|]. split.
    + constructor.
      * simpl. repeat split. lia.
      * eapply Forall_impl; [|exact Hall]. simpl. intros c [? [? ?]]. repeat split; auto. lia.
    + constructor; [exact Hsorted|].
      eapply Forall_impl; [|exact Hall]. unfold chunk_ends_before. simpl.
      intros c [_ [_ ?]]. lia.
Qed.

(** The outer loop appends one block per segment. *)
Lemma segments_fold_blocks (self : IntelligentChunker.t) (document_id filename : string)
    (B : TextSegment.t -> list DocumentChunk.t -> Prop) :
  (forall segment acc index,
      exists block index',
        IntelligentChunker.segment_step self document_id filename (acc, index) segment
        = ((acc ++ block)%list, index')
        /\ B segment block) ->
  forall segments acc index,
    exists blocks index',
      fold_left (IntelligentChunker.segment_step self document_id filename)
        segments (acc, index)
      = ((acc ++ List.concat blocks)%list, index')
      /\ Forall2 B segments blocks.
Proof.
  intros Hstep segments.
  induction segments as [|segment segments IH]; intros acc index.
  - exists [], index. simpl. rewrite app_nil_r. split; [reflexivity | constructor].
  - destruct (Hstep segment acc index) as [block [index1 [E HB]]].
    destruct (IH (acc ++ block)%list index1) as [blocks [index' [E' HBs]]].
    exists (block :: blocks), index'. cbn [fold_left List.concat].
    rewrite E, E', <- app_assoc. split; [reflexivity | now constructor].
Qed.

Lemma segment_step_block (self : IntelligentChunker.t) (document_id filename : string)
    (segment : TextSegment.t) (acc : list DocumentChunk.t) (index : Z) :
  exists block index',
    IntelligentChunker.segment_step self document_id filename (acc, index) segment
    = ((acc ++ block)%list, index')
    /\ block_of self document_id segment block.
Proof.
  unfold IntelligentChunker.segment_step.
  destruct (chunk_loop_block document_id filename segment
              (IntelligentChunker.split_text self (TextSegment.text segment))
              acc index 0 ltac:(lia))
    as [block [cursor' [E [Htexts [Hall Hsorted]]]]].
  rewrite E. exists block. eexists. split; [reflexivity|].
  split; [exact Htexts|]. split; [|exact Hsorted].
  eapply Forall_impl; [|exact Hall]. simpl. intros c [? [? ?]]. repeat split; auto. lia.
Qed.

(** X10.  The chunks of a document come in one block per segment, in the
    order of the segments.  The texts of a block are the pieces the
    splitter returns for the segment, in order; every chunk of the block
    carries the page of the segment and the document id, starts at or after
    the start of the segment, and starts at or after the end of the chunk
    before it, whether or not the pieces overlap in the text. *)
Theorem chunks_come_in_blocks (self : IntelligentChunker.t)
    (segments : list TextSegment.t) (document_id filename : string) :
  exists blocks,
    IntelligentChunker.chunk_segments self segments document_id filename
    = List.concat blocks
    /\ Forall2
         (fun segment block =>
            map DocumentChunk.text block
              = IntelligentChunker.split_text self (TextSegment.text segment)
            /\ Forall
                 (fun c =>
                    DocumentChunk.page_number c = TextSegment.page_number segment
                    /\ DocumentChunk.document_id c = document_id
                    /\ TextSegment.char_start segment <= DocumentChunk.char_start c)
                 block
            /\ StronglySorted
                 (fun a b => DocumentChunk.char_end a <= DocumentChunk.char_start b)
                 block)
         segments blocks.
Proof.
  destruct (segments_fold_blocks self document_id filename
              (block_of self document_id)
              (segment_step_block self document_id filename) segments [] 0)
    as [blocks [index' [E H]]].
  exists blocks. unfold IntelligentChunker.chunk_segments. rewrite E.
  split; [reflexivity | exact H].
Qed.

(** *** Distinct chunk ids *)

Lemma append_inj_l (s a b : string) : s ++ a = s ++ b -> a = b.
Proof.
  induction s as [|c s IH]; simpl; intro H; [exact H|].
  injection H as H. now apply IH.
Qed.

Lemma to_int_not_nil (z : Z) :
  Z.to_int z <> Decimal.Pos Decimal.Nil /\ Z.to_int z <> Decimal.Neg Decimal.Nil.
Proof.
  pose proof (DecimalZ.to_of (Z.to_int z)) as H. rewrite DecimalZ.of_to in H.
  split; intro E; rewrite E in H; discriminate H.
Qed.

Lemma str_of_int_inj (a b : Z) : Py.str_of_int a = Py.str_of_int b -> a = b.
Proof.
  unfold Py.str_of_int. intro H.
  apply DecimalZ.to_int_inj.
  destruct (to_int_not_nil a) as [Ha1 Ha2]. destruct (to_int_not_nil b) as [Hb1 Hb2].
  pose proof (NilZero.isi (Z.to_int a) Ha1 Ha2) as Ia.
  pose proof (NilZero.isi (Z.to_int b) Hb1 Hb2) as Ib.
  rewrite H in Ia. rewrite Ia in Ib. now injection Ib.
Qed.

Lemma make_chunk_id_inj (document_id : string) (a b : Z) :
  IntelligentChunker.make_chunk_id document_id a
  = IntelligentChunker.make_chunk_id document_id b -> a = b.
Proof.
  unfold IntelligentChunker.make_chunk_id. intro H.
  apply append_inj_l in H. apply (append_inj_l "_chunk_") in H.
  now apply str_of_int_inj.
Qed.

(** X11.  The chunk ids of one document are pairwise distinct. *)
Theorem chunk_ids_are_distinct (self : IntelligentChunker.t)
    (segments : list TextSegment.t) (document_id filename : string) :
  NoDup (map DocumentChunk.chunk_id
           (IntelligentChunker.chunk_segments self segments document_id filename)).
Proof.
  unfold IntelligentChunker.chunk_segments.
  set (st := fold_left (IntelligentChunker.segment_step self document_id filename)
               segments ([], 0)).
  assert (Hall : snd st = Z.of_nat (List.length (fst st))
                 /\ map DocumentChunk.chunk_id (fst st)
                    = map (fun n => IntelligentChunker.make_chunk_id document_id
                                      (Z.of_nat n))
                        (seq 0 (List.length (fst st)))).
  { apply (chunk_segments_invariant self document_id filename
             (fun chunks index =>
                index = Z.of_nat (List.length chunks)
                /\ map DocumentChunk.chunk_id chunks
                   = map (fun n => IntelligentChunker.make_chunk_id document_id
                                     (Z.of_nat n))
                       (seq 0 (List.length chunks)))).
    - split; reflexivity.
    - intros chunks index segment cursor chunk_text [Hidx Hmap]. split.
      + rewrite length_app. simpl. lia.
      + rewrite length_app, map_app. simpl List.length.
        rewrite Nat.add_1_r, seq_S, map_app, Hmap. simpl. now rewrite Hidx. }
  destruct Hall as [_ ->].
  apply Finite.Injective_map_NoDup; [|apply seq_NoDup].
  intros a b Hab. apply make_chunk_id_inj in Hab. lia.
Qed.

(** *** Pieces that partition the text *)

Lemma concat_empty_cons (x : string) (xs : list string) :
  String.concat "" (x :: xs) = x ++ String.concat "" xs.
Proof.
  destruct xs as [|y ys]; simpl; [|reflexivity].
  induction x as [|c x IH]; simpl; [reflexivity | now rewrite <- IH].
Qed.

Lemma prefix_append (p r : string) : String.prefix p (p ++ r) = true.
Proof.
  induction p as [|c p IH]; simpl; [now destruct r|].
  destruct (ascii_dec c c); [exact IH | contradiction].
Qed.

Lemma index_prefix (p s : string) :
  String.prefix p s = true -> String.index 0 p s = Some 0%nat.
Proof.
  destruct s as [|c s]; intro H.
  - destruct p; simpl in *; [reflexivity | discriminate].
  - cbn [String.index]. now rewrite H.
Qed.

Lemma find_prefix (p r : string) : Py.find (p ++ r) p = 0.
Proof. unfold Py.find. now rewrite index_prefix by apply prefix_append. Qed.

Lemma drop_append (p r : string) : Py.drop (String.length p) (p ++ r) = r.
Proof. induction p as [|c p IH]; simpl; [now destruct r | exact IH]. Qed.

Lemma take_append (p r : string) : Py.take (String.length p) (p ++ r) = p.
Proof. induction p as [|c p IH]; simpl; [reflexivity | now rewrite IH]. Qed.

Lemma drop_drop (a b : nat) (s : string) :
  Py.drop (a + b) s = Py.drop b (Py.drop a s).
Proof.
  revert s. induction a as [|a IH]; intro s; simpl; [reflexivity|].
  destruct s as [|c s]; [now destruct b | apply IH].
Qed.

Lemma length_drop (n : nat) (s : string) :
  String.length (Py.drop n s) = (String.length s - n)%nat.
Proof.
  revert s. induction n as [|n IH]; intro s; simpl; [lia|].
  destruct s as [|c s]; simpl; [reflexivity | apply IH].
Qed.

Lemma slice_from_nonneg (s : string) (i : Z) :
  0 <= i -> Py.slice_from s i = Py.drop (Z.to_nat i) s.
Proof.
  intro H. unfold Py.slice_from, Py.bound.
  now apply Z.ltb_ge in H as ->.
Qed.

Lemma slice_to_len (p r : string) : Py.slice_to (p ++ r) (Py.len p) = p.
Proof.
  unfold Py.slice_to, Py.bound, Py.len.
  destruct (Z.of_nat (String.length p) <? 0) eqn:E; [apply Z.ltb_lt in E; lia|].
  rewrite Nat2Z.id. apply take_append.
Qed.

Lemma chunk_loop_exact (document_id filename : string) (segment : TextSegment.t)
    (pieces : list string) :
  forall (acc : list DocumentChunk.t) (index cursor : Z),
    0 <= cursor <= Py.len (TextSegment.text segment) ->
    Py.slice_from (TextSegment.text segment) cursor = String.concat "" pieces ->
    exists block index' cursor',
      fold_left (IntelligentChunker.chunk_step document_id filename segment)
        pieces (acc, index, cursor)
      = ((acc ++ block)%list, index', cursor')
      /\ Forall (chunk_found_at_span segment) block.
Proof.
  induction pieces as [|p pieces IH]; intros acc index cursor Hcur Hrest.
  - exists [], index, cursor. simpl. rewrite app_nil_r. split; [reflexivity|constructor].
  - cbn [fold_left]. rewrite chunk_step_eq.
    rewrite concat_empty_cons in Hrest.
    assert (Hnext : next_cursor segment cursor p = cursor + Py.len p).
    { unfold next_cursor. rewrite Hrest, find_prefix. simpl. lia. }
    assert (Hlen : Py.len p <= Py.len (TextSegment.text segment) - cursor).
    { pose proof (f_equal Py.len Hrest) as HL. rewrite len_append in HL.
      rewrite slice_from_nonneg in HL by lia. unfold Py.len in HL at 1.
      rewrite length_drop in HL.
      pose proof (len_nonneg (String.concat "" pieces)).
      unfold Py.len in *. lia. }
    pose proof (len_nonneg p) as Hp.
    destruct (IH (acc ++ [emitted_chunk document_id filename segment index cursor p])%list
                (index + 1) (cursor + Py.len p) ltac:(lia))
      as [block [index' [cursor' [E Hall]]]].
    { rewrite slice_from_nonneg in * by lia.
      replace (Z.to_nat (cursor + Py.len p))
        with (Z.to_nat cursor + String.length p)%nat by (unfold Py.len; lia).
      now rewrite drop_drop, Hrest, drop_append. }
    rewrite Hnext, E.
    exists (emitted_chunk document_id filename segment index cursor p :: block),
      index', cursor'.
    rewrite <- app_assoc. split; [reflexivity|].
    constructor; [|exact Hall].
    unfold chunk_found_at_span, emitted_chunk.
    cbn [DocumentChunk.page_number DocumentChunk.char_start DocumentChunk.char_end
         DocumentChunk.text].
    split; [reflexivity|]. split; [lia|]. split; [lia|].
    replace (TextSegment.char_start segment + cursor - TextSegment.char_start segment)
      with cursor by lia.
    rewrite Hrest. apply slice_to_len.
Qed.

Lemma segment_step_exact (self : IntelligentChunker.t) (document_id filename : string)
    (segment : TextSegment.t) (acc : list DocumentChunk.t) (index : Z) :
  exists block index',
    IntelligentChunker.segment_step self document_id filename (acc, index) segment
    = ((acc ++ block)%list, index')
    /\ (String.concat ""
          (IntelligentChunker.split_text self (TextSegment.text segment))
        = TextSegment.text segment ->
        Forall (chunk_found_at_span segment) block).
Proof.
  destruct (segment_step_block self document_id filename segment acc index)
    as [block [index' [E _]]].
  exists block, index'. split; [exact E|]. intro Hparts.
  revert E. unfold IntelligentChunker.segment_step.
  destruct (chunk_loop_exact document_id filename segment
              (IntelligentChunker.split_text self (TextSegment.text segment))
              acc index 0)
    as [block' [i' [c' [E' Hall]]]].
  - pose proof (len_nonneg (TextSegment.text segment)). lia.
  - rewrite slice_from_nonneg by lia. simpl. now rewrite Hparts.
  - rewrite E'. intro E. injection E as E _. apply app_inv_head in E. now subst.
Qed.

Lemma Forall2_concat_exists {A B : Type} (R : A -> list B -> Prop)
    (Q : A -> B -> Prop) (xs : list A) (blocks : list (list B)) :
  Forall2 R xs blocks ->
  (forall x block, In x xs -> R x block -> Forall (Q x) block) ->
  Forall (fun b => exists x, In x xs /\ Q x b) (List.concat blocks).
Proof.
  induction 1 as [|x block xs blocks HR Hrest IH]; intro HQ; simpl; [constructor|].
  apply Forall_app. split.
  - eapply Forall_impl; [|apply (HQ x block); [now left | exact HR]].
    intros b Hb. exists x. split; [now left | exact Hb].
  - eapply Forall_impl; [|apply IH].
    + intros b [y [Hy Hb]]. exists y. split; [now right | exact Hb].
    + intros y blk Hy. apply HQ. now right.
Qed.

(** X12.  When the pieces the splitter returns for each segment put end
    to end give back the text of the segment, every chunk is recorded
    exactly where its text lies: its span is inside its segment, and the
    text of the segment at that span is the text of the chunk. *)
Theorem chunk_spans_are_exact_when_pieces_partition (self : IntelligentChunker.t)
    (segments : list TextSegment.t) (document_id filename : string) :
  (forall segment, In segment segments ->
     String.concat "" (IntelligentChunker.split_text self (TextSegment.text segment))
     = TextSegment.text segment) ->
  Forall
    (fun c => exists segment, In segment segments /\ chunk_found_at_span segment c)
    (IntelligentChunker.chunk_segments self segments document_id filename).
Proof.
  intro Hparts.
  destruct (segments_fold_blocks self document_id filename
              (fun segment block =>
                 String.concat ""
                   (IntelligentChunker.split_text self (TextSegment.text segment))
                 = TextSegment.text segment ->
                 Forall (chunk_found_at_span segment) block)
              (segment_step_exact self document_id filename) segments [] 0)
    as [blocks [index' [E H]]].
  unfold IntelligentChunker.chunk_segments. rewrite E. simpl.
  eapply Forall2_concat_exists; [exact H|].
  intros segment block Hin HB. apply HB. now apply Hparts.
Qed.

Lemma chunk_spans_are_exact_when_pieces_partition_witness :
  let self := IntelligentChunker.mk 1000 200 split_at_four in
  let segment := TextSegment.mk "aaaabbbb" 2 30 38 zero_bbox in
  map (fun c => (DocumentChunk.text c, DocumentChunk.char_start c,
                 DocumentChunk.char_end c))
    (IntelligentChunker.chunk_segments self [segment] "doc" "notes.txt")
  = [("aaaa", 30, 34); ("bbbb", 34, 38)]
  /\ Forall
       (fun c => exists s, In s [segment] /\ chunk_found_at_span s c)
       (IntelligentChunker.chunk_segments self [segment] "doc" "notes.txt").
Proof.
  intros self segment. split; [reflexivity|].
  apply (chunk_spans_are_exact_when_pieces_partition self [segment] "doc" "notes.txt").
  intros s [<-|[]]. reflexivity.
Defined.

(** ** More on the merger *)

Lemma key_le_iff (h : IntelligentChunker.heap) (a b : IntelligentChunker.ref) :
  key_le h a b
  <-> DocumentChunk.page_number (h a) < DocumentChunk.page_number (h b)
      \/ (DocumentChunk.page_number (h a) = DocumentChunk.page_number (h b)
          /\ DocumentChunk.char_start (h a) <= DocumentChunk.char_start (h b)).
Proof.
  unfold key_le, IntelligentChunker.key_leb, IntelligentChunker.sort_key. simpl.
  rewrite orb_true_iff, andb_true_iff, Z.ltb_lt, Z.eqb_eq, Z.leb_le. tauto.
Qed.

(** The loop keeps what it was given as merged, in order, and adds to it
    some of the remaining chunks. *)
Lemma merge_loop_shape (rest : list IntelligentChunker.ref) :
  forall (h : IntelligentChunker.heap) (pre : list IntelligentChunker.ref)
         (l : IntelligentChunker.ref),
    exists kept,
      snd (IntelligentChunker.merge_loop h (pre ++ [l]) rest) = (pre ++ l :: kept)%list
      /\ incl kept rest
      /\ (List.length kept <= List.length rest)%nat.
Proof.
  induction rest as [|c rest IH]; intros h pre l.
  - exists []. simpl. repeat split; [apply incl_refl | lia].
  - destruct (IntelligentChunker.merges (h c) (h l)) eqn:M.
    + rewrite merge_loop_merge by assumption.
      destruct (IH (absorb h l c) pre l) as [kept [E [Hincl Hlen]]].
      exists kept. split; [exact E|]. split; [now apply incl_tl | simpl; lia].
    + rewrite merge_loop_append by assumption.
      destruct (IH h (pre ++ [l])%list c) as [kept [E [Hincl Hlen]]].
      exists (c :: kept). rewrite E, <- app_assoc. split; [reflexivity|].
      split; [|simpl; lia].
      intros x [<-|Hx]; [now left | right; now apply Hincl].
Qed.

Lemma merge_loop_sorted (rest : list IntelligentChunker.ref) :
  forall (h : IntelligentChunker.heap) (pre : list IntelligentChunker.ref)
         (l : IntelligentChunker.ref),
    StronglySorted (key_le h) (pre ++ l :: rest) ->
    StronglySorted (key_le (fst (IntelligentChunker.merge_loop h (pre ++ [l]) rest)))
      (snd (IntelligentChunker.merge_loop h (pre ++ [l]) rest)).
Proof.
  induction rest as [|c rest IH]; intros h pre l Hsorted; [exact Hsorted|].
  destruct (IntelligentChunker.merges (h c) (h l)) eqn:M.
  - rewrite merge_loop_merge by assumption. apply IH.
    apply StronglySorted_mono with (R := key_le h).
    + intros a b. unfold key_le. now rewrite !sort_key_absorb.
    + replace (pre ++ l :: c :: rest)%list
        with ((pre ++ [l]) ++ c :: rest)%list in Hsorted
        by (rewrite <- app_assoc; reflexivity).
      apply StronglySorted_remove in Hsorted.
      now rewrite <- app_assoc in Hsorted.
  - rewrite merge_loop_append by assumption. apply IH. now rewrite <- app_assoc.
Qed.

(** X13.  Whatever the chunks, the merger returns chunks of its input, no
    more than it was given and none unless it was given some, ordered by
    page and then by start. *)
Theorem merge_returns_sorted_selection (h : IntelligentChunker.heap)
    (chunks : list IntelligentChunker.ref) :
  let h' := fst (IntelligentChunker.merge_overlapping_chunks h chunks) in
  let merged := snd (IntelligentChunker.merge_overlapping_chunks h chunks) in
  StronglySorted
    (fun a b =>
       DocumentChunk.page_number (h' a) < DocumentChunk.page_number (h' b)
       \/ (DocumentChunk.page_number (h' a) = DocumentChunk.page_number (h' b)
           /\ DocumentChunk.char_start (h' a) <= DocumentChunk.char_start (h' b)))
    merged
  /\ incl merged chunks
  /\ (List.length merged <= List.length chunks)%nat
  /\ (merged = [] <-> chunks = []).
Proof.
  cbv zeta. unfold IntelligentChunker.merge_overlapping_chunks.
  destruct chunks as [|c0 chunks].
  - simpl. repeat split; auto; try constructor. apply incl_refl.
  - pose proof (sorted_perm h (c0 :: chunks)) as Hperm.
    pose proof (sorted_is_sorted h (c0 :: chunks)) as Hsorted.
    destruct (IntelligentChunker.sorted h (c0 :: chunks)) as [|first rest].
    + apply Permutation_nil in Hperm. discriminate Hperm.
    + pose proof (merge_loop_sorted rest h [] first Hsorted) as Hs.
      destruct (merge_loop_shape rest h [] first) as [kept [E [Hincl Hlen]]].
      simpl app in *. split; [|split; [|split]].
      * eapply StronglySorted_mono; [|exact Hs]. intros a b. apply key_le_iff.
      * rewrite E. intros x Hx. apply (Permutation_in x Hperm).
        destruct Hx as [<-|Hx]; [now left | right; now apply Hincl].
      * rewrite E. apply Permutation_length in Hperm. simpl in *. lia.
      * rewrite E. split; discriminate.
Qed.

Lemma no_overlap_no_merge (h : IntelligentChunker.heap) (a b : IntelligentChunker.ref) :
  key_le h a b ->
  (DocumentChunk.page_number (h a) = DocumentChunk.page_number (h b) ->
   DocumentChunk.char_start (h a) < DocumentChunk.char_end (h b) ->
   DocumentChunk.char_start (h b) < DocumentChunk.char_end (h a) -> False) ->
  IntelligentChunker.merges (h b) (h a) = false.
Proof.
  intros Hkey Hdisjoint.
  unfold IntelligentChunker.merges, IntelligentChunker.overlap_size.
  destruct (_ =? _) eqn:P; [|reflexivity]. apply Z.eqb_eq in P.
  destruct (_ <? DocumentChunk.char_end (h a)) eqn:S; [|reflexivity].
  apply Z.ltb_lt in S. cbn [andb]. apply Z.ltb_ge.
  pose proof (len_nonneg (DocumentChunk.text (h b))).
  apply key_leb_same_page in Hkey; [|simpl; congruence]. simpl in Hkey.
  destruct (Z_lt_le_dec (DocumentChunk.char_start (h a)) (DocumentChunk.char_end (h b)))
    as [Hlt|Hge]; [|lia].
  exfalso. apply Hdisjoint; [congruence | exact Hlt | exact S].
Qed.

Lemma sorted_disjoint_no_merge (h : IntelligentChunker.heap)
    (l : list IntelligentChunker.ref) :
  StronglySorted (key_le h) l ->
  NoDup l ->
  (forall a b, In a l -> In b l -> a <> b ->
     DocumentChunk.page_number (h a) = DocumentChunk.page_number (h b) ->
     DocumentChunk.char_start (h a) < DocumentChunk.char_end (h b) ->
     DocumentChunk.char_start (h b) < DocumentChunk.char_end (h a) -> False) ->
  Sorted (fun a b => IntelligentChunker.merges (h b) (h a) = false) l.
Proof.
  induction 1 as [|a l Hs IH Ha]; intros Hnd Hdisjoint; constructor.
  - apply IH; [now inversion Hnd|].
    intros x y Hx Hy. apply Hdisjoint; now right.
  - destruct l as [|b l]; constructor.
    inversion Ha as [|? ? Hab _]; subst.
    apply no_overlap_no_merge; [exact Hab|].
    apply Hdisjoint; [now left | right; now left|].
    intros ->. inversion Hnd as [|? ? Hnotin _]; subst. apply Hnotin. now left.
Qed.

(** X14.  On distinct chunks no two of which overlap on one page, the
    merger merges nothing: it returns the chunks sorted by page and start
    and changes no chunk. *)
Theorem merge_only_sorts_disjoint_chunks (h : IntelligentChunker.heap)
    (chunks : list IntelligentChunker.ref) :
  NoDup chunks ->
  (forall a b, In a chunks -> In b chunks -> a <> b ->
     DocumentChunk.page_number (h a) = DocumentChunk.page_number (h b) ->
     DocumentChunk.char_start (h a) < DocumentChunk.char_end (h b) ->
     DocumentChunk.char_start (h b) < DocumentChunk.char_end (h a) -> False) ->
  IntelligentChunker.merge_overlapping_chunks h chunks
  = (h, IntelligentChunker.sorted h chunks).
Proof.
  intros Hnd Hdisjoint. unfold IntelligentChunker.merge_overlapping_chunks.
  destruct chunks as [|c0 chunks]; [reflexivity|].
  pose proof (sorted_perm h (c0 :: chunks)) as Hperm.
  pose proof (sorted_is_sorted h (c0 :: chunks)) as Hsorted.
  destruct (IntelligentChunker.sorted h (c0 :: chunks)) as [|first rest];
    [reflexivity|].
  apply (merge_loop_stable rest h [] first). simpl.
  apply sorted_disjoint_no_merge.
  - exact Hsorted.
  - eapply Permutation_NoDup; [symmetry; exact Hperm | exact Hnd].
  - intros a b Ha Hb. apply Hdisjoint; eapply Permutation_in; eassumption.
Qed.

Lemma merge_only_sorts_disjoint_chunks_witness :
  IntelligentChunker.merge_overlapping_chunks separate_chunks [0; 1; 2]%nat
  = (separate_chunks, [1; 0; 2]%nat).
Proof.
  apply (merge_only_sorts_disjoint_chunks separate_chunks [0; 1; 2]%nat).
  - repeat constructor; simpl; intuition discriminate.
  - intros a b Ha Hb Hne.
    simpl in Ha, Hb.
    destruct Ha as [<-|[<-|[<-|[]]]]; destruct Hb as [<-|[<-|[<-|[]]]];
      try (now elim Hne); vm_compute; intros; discriminate.
Defined.

(** ** More on [query] *)

Lemma citation_fold {float : Type} (pairs : list (DocumentChunk.t * float))
    (citations : list (Citation.t float)) :
  fold_left (RAGService.citation_step float) pairs citations
  = (citations ++ map citation_of pairs)%list.
Proof.
  revert citations. induction pairs as [|[chunk score] pairs IH]; intro citations;
    simpl; [now rewrite app_nil_r|].
  rewrite IH, <- app_assoc. reflexivity.
Qed.

Lemma len_take_le (n : nat) (s : string) : Py.len (Py.take n s) <= Z.of_nat n.
Proof.
  unfold Py.len. revert s. induction n as [|n IH]; intro s; simpl; [lia|].
  destruct s as [|c s]; simpl String.length; [lia|]. specialize (IH s). lia.
Qed.

Lemma snippet_length {float : Type} (pair : DocumentChunk.t * float) :
  Py.len (Citation.text (citation_of pair)) <= 203.
Proof.
  unfold citation_of. cbn [Citation.text].
  destruct (200 <? Py.len (DocumentChunk.text (fst pair))) eqn:L.
  - rewrite len_append. change (Py.len "...") with 3.
    pose proof (len_take_le (Py.bound (DocumentChunk.text (fst pair)) 200)
                  (DocumentChunk.text (fst pair))) as H.
    unfold Py.slice_to. change (Py.bound (DocumentChunk.text (fst pair)) 200)
      with 200%nat in *. lia.
  - apply Z.ltb_ge in L. lia.
Qed.

Section QueryMore.

Variable float : Type.
Variable similarity_search :
  string -> Z -> option Py.dict -> Py.result (list (DocumentChunk.t * float)).
Variable llm_invoke : string -> Py.result string.
Variable time_start time_end : float.
Variable elapsed_ms : float -> float -> float.

(** X15.  A response carries one citation per retrieved chunk, in the
    order of retrieval and under the chunk's id, and no snippet is longer
    than 203 characters. *)
Theorem citations_follow_retrieval_order (question : string)
    (document_id : option string) (max_citations : Z)
    (relevant_chunks : list (DocumentChunk.t * float))
    (response : QueryResponse.t float) :
  similarity_search question max_citations (RAGService.filter_dict_of document_id)
    = Py.Ok relevant_chunks ->
  RAGService.query float similarity_search llm_invoke time_start time_end elapsed_ms
    question document_id max_citations = Py.Ok response ->
  map Citation.chunk_id (QueryResponse.citations response)
    = map (fun pair => DocumentChunk.chunk_id (fst pair)) relevant_chunks
  /\ Forall (fun c => Py.len (Citation.text c) <= 203)
       (QueryResponse.citations response).
Proof.
  unfold RAGService.query. intros Hsearch H. rewrite Hsearch in H. simpl in H.
  destruct relevant_chunks as [|pair pairs].
  - injection H as <-. split; [reflexivity | constructor].
  - invert_ok H. injection H as <-. cbn [QueryResponse.citations].
    change (fold_left (RAGService.citation_step float) pairs
              (RAGService.citation_step float [] pair))
      with (fold_left (RAGService.citation_step float) (pair :: pairs) []).
    rewrite citation_fold. cbn [app]. split.
    + rewrite map_map. reflexivity.
    + apply Forall_map. apply Forall_forall. intros p _. apply snippet_length.
Qed.

End QueryMore.

(** *** What the model is asked *)

Lemma str_app_assoc (a b c : string) : (a ++ b) ++ c = a ++ (b ++ c).
Proof. induction a as [|x a IH]; simpl; [reflexivity | now rewrite IH]. Qed.

Lemma str_app_nil_r (a : string) : a ++ "" = a.
Proof. induction a as [|x a IH]; simpl; [reflexivity | now rewrite IH]. Qed.

Lemma contains_here (x rest : string) : contains (x ++ rest) x.
Proof. exists "", rest. reflexivity. Qed.

Lemma contains_refl (x : string) : contains x x.
Proof. exists "", "". simpl. now rewrite str_app_nil_r. Qed.

Lemma contains_append_r (a b x : string) : contains b x -> contains (a ++ b) x.
Proof.
  intros [before [after ->]]. exists (a ++ before), after.
  now rewrite str_app_assoc.
Qed.

Lemma contains_trans (a b c : string) : contains a b -> contains b c -> contains a c.
Proof.
  intros [p [q ->]] [r [s ->]]. exists (p ++ r), (s ++ q).
  now rewrite !str_app_assoc.
Qed.

Lemma join_contains (sep x : string) (parts : list string) :
  In x parts -> contains (Py.join sep parts) x.
Proof.
  unfold Py.join. induction parts as [|y parts IH]; intros []; simpl.
  - subst y. destruct parts; [apply contains_refl | apply contains_here].
  - destruct parts as [|z parts]; [contradiction|].
    do 2 apply contains_append_r. now apply IH.
Qed.

Lemma context_parts_fold {float : Type} (pairs : list (DocumentChunk.t * float))
    (parts : list string) :
  fold_left
    (fun parts (pair : DocumentChunk.t * float) =>
       (parts ++ [(DocumentChunk.text (fst pair) ++ Py.nl)%string])%list)
    pairs parts
  = (parts ++ map (fun pair => (DocumentChunk.text (fst pair) ++ Py.nl)%string) pairs)%list.
Proof.
  revert parts. induction pairs as [|pair pairs IH]; intro parts; simpl;
    [now rewrite app_nil_r|].
  rewrite IH, <- app_assoc. reflexivity.
Qed.

Ltac find_contained :=
  first [ apply contains_here
        | apply contains_refl
        | apply contains_append_r; find_contained ].

Lemma prompt_contains (context question : string) :
  contains (RAGService.PROMPT_TEMPLATE context question) context
  /\ contains (RAGService.PROMPT_TEMPLATE context question) question.
Proof. unfold RAGService.PROMPT_TEMPLATE. split; find_contained. Qed.

Section Prompt.

Variable float : Type.
Variable similarity_search :
  string -> Z -> option Py.dict -> Py.result (list (DocumentChunk.t * float)).
Variable llm_invoke : string -> Py.result string.
Variable time_start time_end : float.
Variable elapsed_ms : float -> float -> float.

(** X17.  When chunks were retrieved, the answer of a response is the
    reply of the model to a prompt in which the question and the whole
    text of every retrieved chunk occur. *)
Theorem answer_comes_from_prompt_with_all_chunks (question : string)
    (document_id : option string) (max_citations : Z)
    (relevant_chunks : list (DocumentChunk.t * float))
    (response : QueryResponse.t float) :
  similarity_search question max_citations (RAGService.filter_dict_of document_id)
    = Py.Ok relevant_chunks ->
  relevant_chunks <> [] ->
  RAGService.query float similarity_search llm_invoke time_start time_end elapsed_ms
    question document_id max_citations = Py.Ok response ->
  exists prompt,
    llm_invoke prompt = Py.Ok (QueryResponse.answer response)
    /\ contains prompt question
    /\ Forall (fun pair => contains prompt (DocumentChunk.text (fst pair)))
         relevant_chunks.
Proof.
  unfold RAGService.query. intros Hsearch Hne H. rewrite Hsearch in H.
  cbn [Py.bind] in H.
  destruct relevant_chunks as [|pair pairs]; [contradiction|].
  match type of H with
  | context [llm_invoke ?p] => set (prompt := p) in H; destruct (llm_invoke prompt) eqn:L
  end; [|discriminate H].
  cbn [Py.bind] in H. injection H as <-. exists prompt.
  split; [exact L|]. subst prompt.
  split; [exact (proj2 (prompt_contains _ question))|].
  apply Forall_forall. intros hit Hin.
  eapply contains_trans; [exact (proj1 (prompt_contains _ question))|].
  rewrite context_parts_fold. cbn [app].
  eapply contains_trans; [|apply contains_here with (rest := Py.nl)].
  apply join_contains.
  apply (in_map (fun pair => DocumentChunk.text (fst pair) ++ Py.nl)) in Hin.
  exact Hin.
Qed.

End Prompt.

(** ** [index_document] *)

Lemma undispatched_is_rejected (w : World) (file_path : string) :
  DocumentProcessor.str_in (Py.lower (DocumentProcessor.suffix file_path))
    dispatched_extensions = false ->
  DocumentProcessor.extract_text_with_positions w file_path
  = Py.Raise (Py.ValueError
                ("Unsupported file format: "
                 ++ Py.lower (DocumentProcessor.suffix file_path))).
Proof.
  unfold DocumentProcessor.extract_text_with_positions, dispatched_extensions.
  set (ext := Py.lower (DocumentProcessor.suffix file_path)).
  unfold DocumentProcessor.str_in. simpl existsb.
  intro H. repeat (apply orb_false_iff in H; destruct H as [? H]).
  repeat match goal with E : (_ =? _)%string = false |- _ => rewrite E; clear E end.
  reflexivity.
Qed.

Lemma blocks_length (self : IntelligentChunker.t) (document_id : string)
    (segments : list TextSegment.t) (blocks : list (list DocumentChunk.t)) :
  Forall2 (block_of self document_id) segments blocks ->
  List.length (List.concat blocks)
  = List.length
      (flat_map (fun s => IntelligentChunker.split_text self (TextSegment.text s))
         segments).
Proof.
  induction 1 as [|segment block segments blocks [Htexts _] _ IH]; simpl;
    [reflexivity|].
  rewrite !length_app, IH, <- Htexts, length_map. reflexivity.
Qed.

(** A trailing separator is not part of the name: the extension of such a
    path is that of its last component. *)
Example suffix_ignores_trailing_separator :
  DocumentProcessor.suffix "notes.txt/" = ".txt"
  /\ DocumentProcessor.suffix "uploads/doc.rtf/" = ".rtf"
  /\ DocumentProcessor.suffix "uploads/./Report.PDF/." = ".PDF"
  /\ DocumentProcessor.suffix "archive.d/readme" = ""
  /\ DocumentProcessor.suffix ".hidden" = "".
Proof. repeat split. Qed.

Example trailing_separator_is_dispatched :
  DocumentProcessor.extract_text_with_positions sample_world "notes.txt/"
  = DocumentProcessor._extract_from_txt sample_world "notes.txt/"
  /\ DocumentProcessor.extract_text_with_positions sample_world "uploads/doc.RTF/"
     = Py.Raise (Py.ValueError "Unsupported file format: .rtf").
Proof. split; reflexivity. Qed.

Section Indexing.

Variable add_chunks : list DocumentChunk.t -> Py.result (list string).
Variable splitter_of : Z -> Z -> list string -> string -> list string.

(** X18.  [index_document] raises the unsupported-format error for every
    path whose extension the dispatch has no branch for, whatever the file
    holds and whatever the vector store would do. *)
Theorem index_document_rejects_undispatched (w : World)
    (document_id filename file_path : string) :
  DocumentProcessor.str_in (Py.lower (DocumentProcessor.suffix file_path))
    dispatched_extensions = false ->
  RAGService.index_document add_chunks splitter_of w document_id filename file_path
  = Py.Raise (Py.ValueError
                ("Unsupported file format: "
                 ++ Py.lower (DocumentProcessor.suffix file_path))).
Proof.
  intro H. unfold RAGService.index_document.
  now rewrite (undispatched_is_rejected w file_path H).
Qed.

(** X19.  The statistics of a successful [index_document] describe the
    extraction it ran: the segment count and the page count are those of
    the extraction, and the chunk count is the number of pieces into which
    the splitter of the default configuration, 1000 characters with an
    overlap of 200, cuts the texts of the segments. *)
Theorem index_document_statistics (w : World)
    (document_id filename file_path : string) (stats : Py.dict) :
  RAGService.index_document add_chunks splitter_of w document_id filename file_path
    = Py.Ok stats ->
  exists segs md,
    DocumentProcessor.extract_text_with_positions w file_path = Py.Ok (segs, md)
    /\ Py.get stats "segments_count" = Some (Py.VInt (Z.of_nat (List.length segs)))
    /\ Py.get stats "page_count" = Some (Py.VInt (page_count md))
    /\ Py.get stats "total_chars" = Some (Py.VInt (total_chars md))
    /\ Py.get stats "chunk_count"
       = Some (Py.VInt
                 (Z.of_nat
                    (List.length
                       (flat_map
                          (fun s =>
                             splitter_of 1000 200 IntelligentChunker.separators
                               (TextSegment.text s))
                          segs)))).
Proof.
  unfold RAGService.index_document. intro H.
  destruct (DocumentProcessor.extract_text_with_positions w file_path)
    as [[segs md]|e]; [|discriminate H].
  cbn [Py.bind] in H. invert_ok H. injection H as <-.
  exists segs, md. split; [reflexivity|]. repeat split.
  cbn [Py.get String.eqb Ascii.eqb Bool.eqb].
  do 3 f_equal.
  set (chunker := IntelligentChunker.init splitter_of None None).
  destruct (segments_fold_blocks chunker document_id filename
              (block_of chunker document_id)
              (segment_step_block chunker document_id filename) segs [] 0)
    as [blocks [index' [Efold HB]]].
  unfold IntelligentChunker.chunk_segments. rewrite Efold. cbn [fst app].
  apply (blocks_length chunker document_id segs blocks HB).
Qed.

End Indexing.

(** ** The vector store *)

(** X20.  A chunk that the chunker emitted survives the trip through the
    index except for its index: rebuilt from its stored text and metadata,
    it has the same id, text, page, range, document id and metadata, and
    [chunk_index] 0. *)
Theorem emitted_chunks_rebuild_from_metadata (self : IntelligentChunker.t)
    (segments : list TextSegment.t) (document_id filename : string) :
  Forall
    (fun c => VectorStore.rebuild (stored_document c) = Py.Ok (as_rebuilt c))
    (IntelligentChunker.chunk_segments self segments document_id filename).
Proof.
  unfold IntelligentChunker.chunk_segments.
  apply (chunk_segments_invariant self document_id filename
           (fun chunks _ =>
              Forall (fun c => VectorStore.rebuild (stored_document c)
                               = Py.Ok (as_rebuilt c)) chunks)).
  - constructor.
  - intros chunks index segment cursor chunk_text Hall.
    apply Forall_app. split; [exact Hall|]. constructor; [|constructor].
    reflexivity.
Qed.

Lemma rebuild_with_keys (doc : VectorStore.Document) :
  has_rebuild_keys doc = true ->
  exists chunk,
    VectorStore.rebuild doc = Py.Ok chunk
    /\ forall (float : Type) (score : float),
         rebuilt_from (doc, score) (chunk, score).
Proof.
  unfold has_rebuild_keys, rebuild_keys, has_key. cbn [forallb].
  unfold VectorStore.rebuild, VectorStore.getitem.
  destruct (Py.get (VectorStore.metadata doc) "chunk_id") eqn:K1; [|discriminate].
  destruct (Py.get (VectorStore.metadata doc) "page") eqn:K2; [|discriminate].
  destruct (Py.get (VectorStore.metadata doc) "char_start") eqn:K3; [|discriminate].
  destruct (Py.get (VectorStore.metadata doc) "char_end") eqn:K4; [|discriminate].
  destruct (Py.get (VectorStore.metadata doc) "document_id") eqn:K5; [|discriminate].
  intros _. eexists. split; [reflexivity|]. intros float score.
  unfold rebuilt_from.
  cbn [fst snd Py.bind VectorStore.text VectorStore.chunk_index
       VectorStore.chunk_metadata VectorStore.chunk_id VectorStore.page_number
       VectorStore.char_start VectorStore.char_end VectorStore.document_id].
  repeat split; assumption.
Qed.


Section StoreFacts.

Variable float : Type.
Variable similarity_search_with_relevance_scores :
  string -> Z -> option Py.dict -> Py.result (list (VectorStore.Document * float)).

Lemma rebuild_loop_ok (results : list (VectorStore.Document * float)) :
  forall acc,
    Forall (fun r => has_rebuild_keys (fst r) = true) results ->
    exists chunks,
      VectorStore.rebuild_loop float results acc = Py.Ok (acc ++ chunks)%list
      /\ Forall2 rebuilt_from results chunks.
Proof.
  induction results as [|[doc score] results IH]; intros acc Hkeys.
  - exists []. simpl. rewrite app_nil_r. split; [reflexivity | constructor].
  - inversion Hkeys as [|? ? Hdoc Hrest]; subst. simpl in Hdoc.
    destruct (rebuild_with_keys doc Hdoc) as [chunk [E Hchunk]].
    destruct (IH (acc ++ [(chunk, score)])%list Hrest) as [chunks [E' Hall]].
    exists ((chunk, score) :: chunks). cbn [VectorStore.rebuild_loop].
    rewrite E. cbn [Py.bind]. rewrite E', <- app_assoc.
    split; [reflexivity|]. constructor; [apply Hchunk | exact Hall].
Qed.


(** X21.  When every document the index returns carries the five metadata
    keys, [similarity_search] returns one rebuilt chunk per document, in
    the same order and with the same score; the chunk takes its text from
    the document, its other fields from the metadata, keeps the metadata
    itself, and has [chunk_index] 0. *)
Theorem similarity_search_rebuilds_every_result (query : string) (k : Z)
    (filter_dict : option Py.dict)
    (results : list (VectorStore.Document * float)) :
  similarity_search_with_relevance_scores query k filter_dict = Py.Ok results ->
  Forall (fun r => has_rebuild_keys (fst r) = true) results ->
  exists chunks,
    VectorStore.similarity_search float similarity_search_with_relevance_scores
      query k filter_dict = Py.Ok chunks
    /\ Forall2 rebuilt_from results chunks.
Proof.
  intros Hsearch Hkeys. unfold VectorStore.similarity_search.
  rewrite Hsearch. cbn [Py.bind].
  destruct (rebuild_loop_ok results [] Hkeys) as [chunks [E H]].
  exists chunks. split; [exact E | exact H].
Qed.


End StoreFacts.

(** ** Settings *)

Lemma rstrip_cons (c : ascii) (s : string) :
  Py.rstrip (String c s)
  = match Py.rstrip s with
    | EmptyString => if Py.isspace c then EmptyString else String c EmptyString
    | String d r => String c (String d r)
    end.
Proof. reflexivity. Qed.

Lemma rstrip_rstrip (s : string) : Py.rstrip (Py.rstrip s) = Py.rstrip s.
Proof.
  induction s as [|c s IH]; [reflexivity|].
  rewrite rstrip_cons. destruct (Py.rstrip s) as [|d r] eqn:R.
  - destruct (Py.isspace c) eqn:E; [reflexivity|].
    rewrite rstrip_cons. cbn [Py.rstrip]. now rewrite E.
  - rewrite rstrip_cons, IH. reflexivity.
Qed.

Lemma lstrip_head (s : string) :
  Py.lstrip s = EmptyString
  \/ exists c r, Py.lstrip s = String c r /\ Py.isspace c = false.
Proof.
  induction s as [|c s IH]; simpl; [now left|].
  destruct (Py.isspace c) eqn:E; [exact IH|]. right. now exists c, s.
Qed.

Lemma rstrip_head (c : ascii) (r : string) :
  Py.isspace c = false -> exists r', Py.rstrip (String c r) = String c r'.
Proof.
  intro E. rewrite rstrip_cons. destruct (Py.rstrip r); [rewrite E|]; eexists; reflexivity.
Qed.

Lemma strip_strip (s : string) : Py.strip (Py.strip s) = Py.strip s.
Proof.
  unfold Py.strip. destruct (lstrip_head s) as [->|[c [r [-> E]]]]; [reflexivity|].
  destruct (rstrip_head c r E) as [r' Hr]. rewrite Hr.
  cbn [Py.lstrip]. rewrite E, <- Hr. apply rstrip_rstrip.
Qed.

Lemma split_comma_length (s : string) :
  List.length (Py.split s ",") = S (count_char "," s).
Proof.
  unfold Py.split. induction s as [|c s IH]; [reflexivity|].
  cbn [Py.split_from count_char String.prefix].
  destruct (ascii_dec "," c) as [<-|Hne].
  - rewrite Ascii.eqb_refl.
    replace (String.prefix "" s) with true by (now destruct s).
    cbn [List.length String.length Nat.pred]. now rewrite IH.
  - apply Ascii.eqb_neq in Hne. rewrite Hne.
    destruct (Py.split_from "," 0 s); simpl in *; [discriminate IH | exact IH].
Qed.

(** X23.  The list read from a comma-separated setting is never empty, has
    one entry more than the setting has commas, and holds entries without
    white space at either end. *)
Theorem setting_lists_are_trimmed (self : Settings.t) :
  (Settings.cors_origins_list self <> []
   /\ List.length (Settings.cors_origins_list self)
      = S (count_char "," (Settings.cors_origins self))
   /\ Forall (fun origin => Py.strip origin = origin) (Settings.cors_origins_list self))
  /\ (Settings.allowed_file_types_list self <> []
      /\ List.length (Settings.allowed_file_types_list self)
         = S (count_char "," (Settings.allowed_file_types self))
      /\ Forall (fun ft => Py.strip ft = ft) (Settings.allowed_file_types_list self)).
Proof.
  assert (H : forall s,
             map Py.strip (Py.split s ",") <> []
             /\ List.length (map Py.strip (Py.split s ","))
                = S (count_char "," s)
             /\ Forall (fun x => Py.strip x = x) (map Py.strip (Py.split s ","))).
  { intro s. pose proof (split_comma_length s) as Hlen.
    rewrite length_map. split; [|split; [exact Hlen|]].
    - destruct (Py.split s ","); [discriminate Hlen | discriminate].
    - apply Forall_map. apply Forall_forall. intros x _. apply strip_strip. }
  split; apply H.
Qed.

Example default_settings :
  Settings.cors_origins_list Settings.defaults
  = ["http://localhost:3000"; "http://localhost:3001"]
  /\ Settings.allowed_file_types_list Settings.defaults = ["pdf"]
  /\ Settings.max_file_size_bytes Settings.defaults = 52428800
  /\ Settings.cors_origins_list (Settings.mk " a , b ,, " "" 1) = ["a"; "b"; ""; ""]
  /\ Settings.allowed_file_types_list (Settings.mk "" "" 1) = [""].
Proof. repeat split. Qed.

(** ** Hypertext and spreadsheet rows *)

Lemma html_data_in_script (datas : list string) (text_parts : list string) :
  fold_left DocumentProcessor.html_event_step (map Data datas) (text_parts, true)
  = (text_parts, true).
Proof. induction datas as [|d datas IH]; simpl; [reflexivity | exact IH]. Qed.

(** X24.  The HTML text extractor drops character data that follows an
    opening [script] or [style] tag: with or without such data, the text
    parts collected from a feed are the same. *)
Theorem script_and_style_data_is_dropped (tag : string)
    (before after : list HtmlEvent) (datas : list string)
    (st : list string * bool) :
  In tag ["script"; "style"] ->
  fold_left DocumentProcessor.html_event_step
    (before ++ StartTag tag :: map Data datas ++ after)%list st
  = fold_left DocumentProcessor.html_event_step
      (before ++ StartTag tag :: after)%list st.
Proof.
  intro Htag. rewrite !fold_left_app. cbn [fold_left].
  destruct (fold_left DocumentProcessor.html_event_step before st) as [parts flag].
  assert (E : DocumentProcessor.html_event_step (parts, flag) (StartTag tag)
              = (parts, true)).
  { simpl in Htag. destruct Htag as [<-|[<-|[]]]; reflexivity. }
  rewrite E, fold_left_app, html_data_in_script. reflexivity.
Qed.

Lemma script_and_style_data_is_dropped_witness :
  fold_left DocumentProcessor.html_event_step
    ([StartTag "p"; Data "shown"] ++ StartTag "script"
       :: map Data ["var x = 1;"; "alert(x)"] ++ [EndTag "script"; Data "also shown"])%list
    ([], false)
  = fold_left DocumentProcessor.html_event_step
      ([StartTag "p"; Data "shown"] ++ StartTag "script"
         :: [EndTag "script"; Data "also shown"])%list
      ([], false).
Proof.
  apply (script_and_style_data_is_dropped "script").
  simpl. tauto.
Defined.

Lemma join_two_nonblank (a b : string) (rest : list string) :
  nonblank (Py.join " | " (a :: b :: rest)) = true.
Proof.
  unfold Py.join. cbn [String.concat].
  rewrite nonblank_append.
  replace (nonblank (" | " ++ String.concat " | " (b :: rest))) with true
    by reflexivity.
  apply orb_true_r.
Qed.

(** X25.  A spreadsheet or CSV row is dropped only when it has no cell or
    a single blank cell: a row of two or more cells is kept even when all
    its cells are empty, as the text of its separators. *)
Theorem rows_with_two_cells_are_kept (rows : list (list string))
    (sheet_rows : list (list (option string))) :
  DocumentProcessor.kept_rows (map (Py.join " | ") rows)
  = map (Py.join " | ") (filter row_is_kept rows)
  /\ DocumentProcessor.kept_rows
       (map (fun row => Py.join " | " (map DocumentProcessor.cell_text row)) sheet_rows)
     = map (Py.join " | ")
         (filter row_is_kept (map (map DocumentProcessor.cell_text) sheet_rows)).
Proof.
  assert (H : forall rs,
             DocumentProcessor.kept_rows (map (Py.join " | ") rs)
             = map (Py.join " | ") (filter row_is_kept rs)).
  { induction rs as [|row rs IH]; [reflexivity|].
    cbn [map DocumentProcessor.kept_rows filter]. rewrite truthy_strip.
    destruct row as [|a [|b rest]].
    - simpl. exact IH.
    - cbn [row_is_kept]. change (Py.join " | " [a]) with a.
      destruct (nonblank a); cbn [map]; now rewrite IH.
    - rewrite join_two_nonblank. cbn [row_is_kept map]. now rewrite IH. }
  split; [apply H|]. rewrite <- H, map_map. reflexivity.
Qed.

(** ** Concrete runs *)

Lemma extracted_segments_do_not_overlap_witness :
  exists segs md,
    PDFProcessor.extract_text_with_positions sample_world "paper.pdf" = Py.Ok (segs, md)
    /\ List.length segs = 3%nat
    /\ StronglySorted
         (fun a b => TextSegment.char_end a <= TextSegment.char_start b) segs.
Proof.
  refine (ex_intro _ _ (ex_intro _ _ (conj eq_refl (conj eq_refl _)))).
  eapply (extracted_segments_do_not_overlap PDFProcessor.extract_text_with_positions)
    with (w := sample_world) (file_path := "paper.pdf").
  - simpl. tauto.
  - reflexivity.
Defined.

Lemma extracted_segments_lie_within_total_chars_witness :
  exists segs md,
    DocumentProcessor.extract_text_with_positions sample_world "notes.txt"
    = Py.Ok (segs, md)
    /\ total_chars md = 25
    /\ Forall
         (fun s => 0 <= TextSegment.char_start s
                   /\ TextSegment.char_end s <= total_chars md)
         segs.
Proof.
  refine (ex_intro _ _ (ex_intro _ _ (conj eq_refl (conj eq_refl _)))).
  eapply (extracted_segments_lie_within_total_chars
            DocumentProcessor.extract_text_with_positions)
    with (w := sample_world) (file_path := "notes.txt").
  - simpl. tauto.
  - reflexivity.
  - vm_compute. discriminate.
Defined.

Lemma flow_segments_span_their_text_witness :
  exists segs md,
    DocumentProcessor._extract_from_docx sample_world "letter.docx" = Py.Ok (segs, md)
    /\ List.length segs = 2%nat
    /\ Forall
         (fun s => TextSegment.char_end s - TextSegment.char_start s
                   = Py.len (TextSegment.text s))
         segs.
Proof.
  refine (ex_intro _ _ (ex_intro _ _ (conj eq_refl (conj eq_refl _)))).
  eapply (flow_segments_span_their_text DocumentProcessor._extract_from_docx)
    with (w := sample_world) (file_path := "letter.docx").
  - simpl. tauto.
  - reflexivity.
Defined.

Lemma pdf_segments_span_the_untrimmed_paragraph_witness :
  exists segs md,
    DocumentProcessor._extract_from_pdf sample_world "paper.pdf" = Py.Ok (segs, md)
    /\ List.length segs = 3%nat
    /\ exists pages,
         pdfplumber_open sample_world "paper.pdf" = Py.Ok pages
         /\ Forall
              (fun s =>
                 pdf_segment_of pages s
                 /\ Py.len (TextSegment.text s)
                    <= TextSegment.char_end s - TextSegment.char_start s)
              segs.
Proof.
  refine (ex_intro _ _ (ex_intro _ _ (conj eq_refl (conj eq_refl _)))).
  eapply (pdf_segments_span_the_untrimmed_paragraph DocumentProcessor._extract_from_pdf)
    with (w := sample_world) (pdf_path := "paper.pdf").
  - simpl. tauto.
  - reflexivity.
Defined.


Lemma csv_gives_one_segment_and_no_total_witness :
  exists segs md,
    DocumentProcessor._extract_from_excel sample_world "table.csv" = Py.Ok (segs, md)
    /\ total_chars md = 0
    /\ page_count md = 1
    /\ (segs = []
        \/ exists s,
             segs = [s]
             /\ TextSegment.page_number s = 1
             /\ TextSegment.char_start s = 0
             /\ TextSegment.char_end s = Py.len (TextSegment.text s)
             /\ 0 < TextSegment.char_end s).
Proof.
  refine (ex_intro _ _ (ex_intro _ _ (conj eq_refl _))).
  eapply (csv_gives_one_segment_and_no_total sample_world "table.csv").
  - reflexivity.
  - reflexivity.
Defined.

Lemma page_numbers_are_ordered_and_within_page_count_witness :
  exists segs md,
    DocumentProcessor._extract_from_pptx sample_world "deck.pptx" = Py.Ok (segs, md)
    /\ map TextSegment.page_number segs = [1; 3]
    /\ page_count md = 3
    /\ StronglySorted
         (fun a b => TextSegment.page_number a <= TextSegment.page_number b) segs
    /\ Forall (fun s => 1 <= TextSegment.page_number s <= page_count md) segs.
Proof.
  refine (ex_intro _ _ (ex_intro _ _ (conj eq_refl (conj eq_refl (conj eq_refl _))))).
  eapply (page_numbers_are_ordered_and_within_page_count
            DocumentProcessor._extract_from_pptx)
    with (w := sample_world) (file_path := "deck.pptx").
  - simpl. tauto.
  - reflexivity.
Defined.

Lemma pdf_page_count_and_validation_witness :
  exists segs md,
    PDFProcessor.extract_text_with_positions sample_world "paper.pdf" = Py.Ok (segs, md)
    /\ PDFProcessor.get_page_count sample_world "paper.pdf" = 3
    /\ page_count md = PDFProcessor.get_page_count sample_world "paper.pdf"
    /\ (segs <> [] -> PDFProcessor.validate_pdf sample_world "paper.pdf" = true)
    /\ (PDFProcessor.validate_pdf sample_world "paper.pdf" = true
        <-> 0 < PDFProcessor.get_page_count sample_world "paper.pdf").
Proof.
  refine (ex_intro _ _ (ex_intro _ _ (conj eq_refl (conj eq_refl _)))).
  eapply (pdf_page_count_and_validation PDFProcessor.extract_text_with_positions)
    with (w := sample_world) (pdf_path := "paper.pdf").
  - simpl. tauto.
  - reflexivity.
Defined.

Lemma citations_follow_retrieval_order_witness :
  let response :=
    QueryResponse.mk "ok" [Citation.mk "doc_chunk_0" "Alpha beta." 1 0 11 0.75%Q]
      "What is alpha?" 0%Q in
  sample_query [(sample_hit, 0.75%Q)] "What is alpha?" = Py.Ok response
  /\ map Citation.chunk_id (QueryResponse.citations response)
     = map (fun pair => DocumentChunk.chunk_id (fst pair)) [(sample_hit, 0.75%Q)]
  /\ Forall (fun c => Py.len (Citation.text c) <= 203)
       (QueryResponse.citations response).
Proof.
  intro response. split; [reflexivity|].
  apply (citations_follow_retrieval_order Q
           (fun _ _ _ => Py.Ok [(sample_hit, 0.75%Q)]) (fun _ => Py.Ok "ok")
           0%Q 0%Q (fun _ _ => 0%Q) "What is alpha?" None 3
           [(sample_hit, 0.75%Q)] response).
  - reflexivity.
  - reflexivity.
Defined.

Lemma answer_comes_from_prompt_with_all_chunks_witness :
  exists prompt,
    (fun _ : string => Py.Ok "ok") prompt = Py.Ok "ok"
    /\ contains prompt "What is alpha?"
    /\ Forall (fun pair : DocumentChunk.t * Q =>
                 contains prompt (DocumentChunk.text (fst pair)))
         [(sample_hit, 0.75%Q)].
Proof.
  apply (answer_comes_from_prompt_with_all_chunks Q
           (fun _ _ _ => Py.Ok [(sample_hit, 0.75%Q)]) (fun _ => Py.Ok "ok")
           0%Q 0%Q (fun _ _ => 0%Q) "What is alpha?" None 3
           [(sample_hit, 0.75%Q)]
           (QueryResponse.mk "ok" [Citation.mk "doc_chunk_0" "Alpha beta." 1 0 11 0.75%Q]
              "What is alpha?" 0%Q)).
  - reflexivity.
  - discriminate.
  - reflexivity.
Defined.

Lemma index_document_rejects_undispatched_witness :
  RAGService.index_document (fun chunks => Py.Ok (map DocumentChunk.chunk_id chunks))
    (fun _ _ _ text => [text]) sample_world "doc" "notes.rtf" "uploads/doc.rtf"
  = Py.Raise (Py.ValueError "Unsupported file format: .rtf").
Proof.
  apply (index_document_rejects_undispatched
           (fun chunks => Py.Ok (map DocumentChunk.chunk_id chunks))
           (fun _ _ _ text => [text]) sample_world "doc" "notes.rtf" "uploads/doc.rtf").
  reflexivity.
Defined.

Lemma index_document_statistics_witness :
  exists segs md,
    DocumentProcessor.extract_text_with_positions sample_world "uploads/doc.txt"
    = Py.Ok (segs, md)
    /\ Py.get
         [ ("document_id", Py.VStr "doc"); ("filename", Py.VStr "notes.txt");
           ("page_count", Py.VInt 1); ("chunk_count", Py.VInt 2);
           ("segments_count", Py.VInt 2); ("total_chars", Py.VInt 25) ]
         "segments_count" = Some (Py.VInt (Z.of_nat (List.length segs)))
    /\ Py.get
         [ ("document_id", Py.VStr "doc"); ("filename", Py.VStr "notes.txt");
           ("page_count", Py.VInt 1); ("chunk_count", Py.VInt 2);
           ("segments_count", Py.VInt 2); ("total_chars", Py.VInt 25) ]
         "page_count" = Some (Py.VInt (page_count md))
    /\ Py.get
         [ ("document_id", Py.VStr "doc"); ("filename", Py.VStr "notes.txt");
           ("page_count", Py.VInt 1); ("chunk_count", Py.VInt 2);
           ("segments_count", Py.VInt 2); ("total_chars", Py.VInt 25) ]
         "total_chars" = Some (Py.VInt (total_chars md))
    /\ Py.get
         [ ("document_id", Py.VStr "doc"); ("filename", Py.VStr "notes.txt");
           ("page_count", Py.VInt 1); ("chunk_count", Py.VInt 2);
           ("segments_count", Py.VInt 2); ("total_chars", Py.VInt 25) ]
         "chunk_count"
       = Some (Py.VInt
                 (Z.of_nat
                    (List.length
                       (flat_map
                          (fun s =>
                             (fun _ _ _ text => [text]) 1000 200
                               IntelligentChunker.separators (TextSegment.text s))
                          segs)))).
Proof.
  apply (index_document_statistics
           (fun chunks => Py.Ok (map DocumentChunk.chunk_id chunks))
           (fun _ _ _ text => [text]) sample_world "doc" "notes.txt" "uploads/doc.txt").
  reflexivity.
Defined.

Lemma similarity_search_rebuilds_every_result_witness :
  exists chunks,
    VectorStore.similarity_search Q
      (fun _ _ _ => Py.Ok [(stored_document sample_hit, 0.75%Q)])
      "What is alpha?" 3 None = Py.Ok chunks
    /\ Forall2 rebuilt_from [(stored_document sample_hit, 0.75%Q)] chunks.
Proof.
  apply (similarity_search_rebuilds_every_result Q
           (fun _ _ _ => Py.Ok [(stored_document sample_hit, 0.75%Q)])
           "What is alpha?" 3 None [(stored_document sample_hit, 0.75%Q)]).
  - reflexivity.
  - repeat constructor.
Defined.

